(** * AudioFlinger: playback/record engine, shallow embedding

    The definitions below follow [libs/audioflinger/AudioFlinger.cpp]
    function by function.  Integers of the C++ code are [Z] with their
    wrap-around written out, objects shared through [sp<>]/[wp<>] live in
    a store indexed by object identity, and results of calls that leave
    the file (hardware interface, permission check, condition variables)
    are arguments of the function that makes the call. *)

From Stdlib Require Import ZArith List Bool Lia Floats.
From stdpp Require Import base option list gmap.

Open Scope Z_scope.

(** ** Machine integers *)

Module Machine.

(** [uint32_t] and [size_t] arithmetic (32-bit target). *)
Definition wrap32 (x : Z) : Z := x mod 2 ^ 32.

(** [uint8_t] conversion. *)
Definition wrap8 (x : Z) : Z := x mod 2 ^ 8.

(** Conversion to [int8_t] (two's complement). *)
Definition wrap8s (x : Z) : Z := (x + 2 ^ 7) mod 2 ^ 8 - 2 ^ 7.

(** Conversion to [int] (two's complement, 32 bits). *)
Definition wrap32s (x : Z) : Z := (x + 2 ^ 31) mod 2 ^ 32 - 2 ^ 31.

Definition sizeof_int16_t : Z := 2.
Definition sizeof_int8_t : Z := 1.

End Machine.
Import Machine.

(** ** Status codes *)

Inductive status_t : Type :=
| NO_ERROR
| BAD_VALUE
| NO_INIT
| NO_MEMORY
| PERMISSION_DENIED
| NOT_ENOUGH_DATA
| ALREADY_EXISTS
| INVALID_OPERATION
| NO_MORE_BUFFERS.

#[global] Instance status_t_eq_dec : EqDecision status_t.
Proof. solve_decision. Defined.

(** ** The shared control block

    [audio_track_cblk_t] is declared in a header outside the sources; the
    record lists the members that AudioFlinger.cpp reads or writes.  All
    cursors are [uint32_t]. *)

Record audio_track_cblk_t : Type := mkCblk {
  user : Z;
  server : Z;
  userBase : Z;
  serverBase : Z;
  frameCount : Z;
  loopEnd : Z;
  volume0 : Z;
  volume1 : Z;
  sampleRate : Z;
  frameSize : Z;
  channels : Z;
  flowControlFlag : Z;
  out : Z;
  forceReady : Z
}.

Definition set_user v (c : audio_track_cblk_t) :=
  mkCblk v (server c) (userBase c) (serverBase c) (frameCount c) (loopEnd c)
    (volume0 c) (volume1 c) (sampleRate c) (frameSize c) (channels c)
    (flowControlFlag c) (out c) (forceReady c).
Definition set_server v (c : audio_track_cblk_t) :=
  mkCblk (user c) v (userBase c) (serverBase c) (frameCount c) (loopEnd c)
    (volume0 c) (volume1 c) (sampleRate c) (frameSize c) (channels c)
    (flowControlFlag c) (out c) (forceReady c).
Definition set_userBase v (c : audio_track_cblk_t) :=
  mkCblk (user c) (server c) v (serverBase c) (frameCount c) (loopEnd c)
    (volume0 c) (volume1 c) (sampleRate c) (frameSize c) (channels c)
    (flowControlFlag c) (out c) (forceReady c).
Definition set_serverBase v (c : audio_track_cblk_t) :=
  mkCblk (user c) (server c) (userBase c) v (frameCount c) (loopEnd c)
    (volume0 c) (volume1 c) (sampleRate c) (frameSize c) (channels c)
    (flowControlFlag c) (out c) (forceReady c).
Definition set_frameCount v (c : audio_track_cblk_t) :=
  mkCblk (user c) (server c) (userBase c) (serverBase c) v (loopEnd c)
    (volume0 c) (volume1 c) (sampleRate c) (frameSize c) (channels c)
    (flowControlFlag c) (out c) (forceReady c).
Definition set_volume v0 v1 (c : audio_track_cblk_t) :=
  mkCblk (user c) (server c) (userBase c) (serverBase c) (frameCount c)
    (loopEnd c) v0 v1 (sampleRate c) (frameSize c) (channels c)
    (flowControlFlag c) (out c) (forceReady c).
Definition set_sampleRate v (c : audio_track_cblk_t) :=
  mkCblk (user c) (server c) (userBase c) (serverBase c) (frameCount c)
    (loopEnd c) (volume0 c) (volume1 c) v (frameSize c) (channels c)
    (flowControlFlag c) (out c) (forceReady c).
Definition set_frameSize v (c : audio_track_cblk_t) :=
  mkCblk (user c) (server c) (userBase c) (serverBase c) (frameCount c)
    (loopEnd c) (volume0 c) (volume1 c) (sampleRate c) v (channels c)
    (flowControlFlag c) (out c) (forceReady c).
Definition set_channels v (c : audio_track_cblk_t) :=
  mkCblk (user c) (server c) (userBase c) (serverBase c) (frameCount c)
    (loopEnd c) (volume0 c) (volume1 c) (sampleRate c) (frameSize c) v
    (flowControlFlag c) (out c) (forceReady c).
Definition set_flowControlFlag v (c : audio_track_cblk_t) :=
  mkCblk (user c) (server c) (userBase c) (serverBase c) (frameCount c)
    (loopEnd c) (volume0 c) (volume1 c) (sampleRate c) (frameSize c)
    (channels c) v (out c) (forceReady c).
Definition set_out v (c : audio_track_cblk_t) :=
  mkCblk (user c) (server c) (userBase c) (serverBase c) (frameCount c)
    (loopEnd c) (volume0 c) (volume1 c) (sampleRate c) (frameSize c)
    (channels c) (flowControlFlag c) v (forceReady c).
Definition set_forceReady v (c : audio_track_cblk_t) :=
  mkCblk (user c) (server c) (userBase c) (serverBase c) (frameCount c)
    (loopEnd c) (volume0 c) (volume1 c) (sampleRate c) (frameSize c)
    (channels c) (flowControlFlag c) (out c) v.

(** Modelled from the spec: [audio_track_cblk_t::framesReady] is defined
    outside the sources; the data model gives, for playback, frames
    ready = [user - server] (an unsigned 32-bit difference). *)
Definition framesReady (c : audio_track_cblk_t) : Z :=
  wrap32 (user c - server c).

(** ** Tracks *)

(** [TrackBase::track_state].  The enumeration is declared in
    AudioFlinger.h, outside the sources, which use seven enumerators;
    [track_state_ord] is the order of their declaration, which only
    [Track::stop] relies on ([mState > STOPPED]). *)
Inductive track_state : Type :=
| IDLE | TERMINATED | STOPPED | RESUMING | ACTIVE | PAUSING | PAUSED.

#[global] Instance track_state_eq_dec : EqDecision track_state.
Proof. solve_decision. Defined.

Definition track_state_ord (s : track_state) : Z :=
  match s with
  | IDLE => 0 | TERMINATED => 1 | STOPPED => 2 | RESUMING => 3
  | ACTIVE => 4 | PAUSING => 5 | PAUSED => 6
  end.

(** [Track::fill_status]. *)
Inductive fill_status : Type := FS_FILLING | FS_FILLED | FS_ACTIVE.

#[global] Instance fill_status_eq_dec : EqDecision fill_status.
Proof. solve_decision. Defined.

Record TrackBase : Type := mkTrackBase {
  mCblk : audio_track_cblk_t;
  mBuffer : Z;
  mBufferEnd : Z;
  mFrameCount : Z;
  mState : track_state;
  mClientTid : Z;
  mFormat : Z;
  mFlags : Z
}.

Definition set_mCblk c (b : TrackBase) :=
  mkTrackBase c (mBuffer b) (mBufferEnd b) (mFrameCount b) (mState b)
    (mClientTid b) (mFormat b) (mFlags b).
Definition set_mFrameCount v (b : TrackBase) :=
  mkTrackBase (mCblk b) (mBuffer b) (mBufferEnd b) v (mState b)
    (mClientTid b) (mFormat b) (mFlags b).
Definition set_mState s (b : TrackBase) :=
  mkTrackBase (mCblk b) (mBuffer b) (mBufferEnd b) (mFrameCount b) s
    (mClientTid b) (mFormat b) (mFlags b).
Definition set_mFlags v (b : TrackBase) :=
  mkTrackBase (mCblk b) (mBuffer b) (mBufferEnd b) (mFrameCount b) (mState b)
    (mClientTid b) (mFormat b) v.

Record Track : Type := mkTrack {
  base : TrackBase;
  mMute : bool;
  mFillingUpStatus : fill_status;
  mRetryCount : Z;
  mSharedBuffer : option Z;
  mResetDone : bool;
  mStreamType : Z;
  mName : Z;
  mVolumeL : float;
  mVolumeR : float
}.

Definition set_base b (t : Track) :=
  mkTrack b (mMute t) (mFillingUpStatus t) (mRetryCount t) (mSharedBuffer t)
    (mResetDone t) (mStreamType t) (mName t) (mVolumeL t) (mVolumeR t).
Definition set_mFillingUpStatus f (t : Track) :=
  mkTrack (base t) (mMute t) f (mRetryCount t) (mSharedBuffer t)
    (mResetDone t) (mStreamType t) (mName t) (mVolumeL t) (mVolumeR t).
Definition set_mRetryCount r (t : Track) :=
  mkTrack (base t) (mMute t) (mFillingUpStatus t) r (mSharedBuffer t)
    (mResetDone t) (mStreamType t) (mName t) (mVolumeL t) (mVolumeR t).
Definition set_mResetDone d (t : Track) :=
  mkTrack (base t) (mMute t) (mFillingUpStatus t) (mRetryCount t)
    (mSharedBuffer t) d (mStreamType t) (mName t) (mVolumeL t) (mVolumeR t).
Definition set_mName n (t : Track) :=
  mkTrack (base t) (mMute t) (mFillingUpStatus t) (mRetryCount t)
    (mSharedBuffer t) (mResetDone t) (mStreamType t) n (mVolumeL t)
    (mVolumeR t).

(** Shorthands that reach through the base object. *)
Definition cblk (t : Track) : audio_track_cblk_t := mCblk (base t).
Definition with_cblk (f : audio_track_cblk_t -> audio_track_cblk_t)
    (t : Track) : Track :=
  set_base (set_mCblk (f (cblk t)) (base t)) t.
Definition state (t : Track) : track_state := mState (base t).
Definition with_state (s : track_state) (t : Track) : Track :=
  set_base (set_mState s (base t)) t.

(** Modelled from the spec: the inline members [isStopped],
    [isTerminated], [isPausing], [isPaused], [setPaused] and [isMuted]
    are defined in AudioFlinger.h, outside the sources; each tests or
    sets the play state (or the mute flag) its name gives, as in the
    track state machine of the specification. *)
Definition isStopped (t : Track) : bool := bool_decide (state t = STOPPED).
Definition isTerminated (t : Track) : bool :=
  bool_decide (state t = TERMINATED).
Definition isPausing (t : Track) : bool := bool_decide (state t = PAUSING).
Definition isPaused (t : Track) : bool := bool_decide (state t = PAUSED).
Definition setPaused (t : Track) : Track := with_state PAUSED t.
Definition isMuted (t : Track) : bool := mMute t.

(** ** What the headers outside the sources declare

    AudioFlinger.cpp uses enumerators and constants of AudioSystem.h,
    AudioFlinger.h and AudioTrackShared.h.  Their values are not fixed
    here: every definition takes them from this class, and a property
    that needs a fact about one of them states it as a hypothesis. *)
Class Headers : Type := {
  (* AudioSystem.h *)
  NUM_STREAM_TYPES : Z;
  ENFORCED_AUDIBLE : Z;
  PCM_16_BIT : Z;
  PCM_8_BIT : Z;
  isLinearPCM : Z -> bool;
  OUTPUT_FLAG_DIRECT : Z;
  CHANNEL_OUT_STEREO : Z;
  (* AudioFlinger.h *)
  SYSTEM_FLAGS_MASK : Z;
  STEPSERVER_FAILED : Z;
  kMaxOverFlowBuffers : Z;
  (* AudioTrackShared.h *)
  sizeof_cblk : Z;
  (* the gain computed by prepareTracks_l from the master volume, the
     stream volume and the client gain: a single-precision product
     clamped to MAX_GAIN and truncated to int16_t, kept abstract *)
  track_gain : float -> float -> Z -> Z
}.

(** Retry counts for buffer fill timeout (file scope, [int8_t]). *)
Definition kMaxTrackRetries : Z := 50.
Definition kMaxTrackStartupRetries : Z := 50.

Section TrackModel.
Context `{Headers}.

(** *** TrackBase *)

(** Where the control block and the PCM buffer of a new track live: the
    outcome of the allocation in the client's heap (or of
    [new uint8_t[size]] when there is no client), the block as its own
    constructor leaves it, and the track name handed out by the thread. *)
Record Allocation : Type := mkAllocation {
  alloc_cblk : option Z;
  alloc_init : audio_track_cblk_t;
  alloc_name : option Z
}.

(** [TrackBase::TrackBase].  [None] when the client heap has no room
    for the block. *)
Definition TrackBase_ctor (a : Allocation) (client : bool)
    (sampleRate' format channelCount frameCount' flags : Z)
    (sharedBuffer : option Z) : option TrackBase :=
  let bufferSize := wrap32 (wrap32 (frameCount' * channelCount) * sizeof_int16_t) in
  match alloc_cblk a with
  | None => None
  | Some addr =>
      let c := set_channels (wrap8 channelCount)
                 (set_sampleRate (wrap32 sampleRate')
                    (set_frameCount (wrap32 frameCount') (alloc_init a))) in
      let '(c, buf) :=
        match sharedBuffer with
        | None => (set_flowControlFlag 1 c, wrap32 (addr + sizeof_cblk))
        | Some p => if client then (c, p)
                    else (set_flowControlFlag 1 c, wrap32 (addr + sizeof_cblk))
        end in
      Some (mkTrackBase c buf (wrap32 (buf + bufferSize)) 0 IDLE (-1) format
              (Z.land (wrap32 flags) (Z.lnot SYSTEM_FLAGS_MASK)))
  end.

(** [TrackBase::reset]. *)
Definition TrackBase_reset (b : TrackBase) : TrackBase :=
  let c := set_serverBase 0 (set_userBase 0 (set_server 0 (set_user 0 (mCblk b)))) in
  set_mFlags (Z.land (mFlags b) (wrap32 (Z.lnot SYSTEM_FLAGS_MASK)))
    (set_mCblk c b).

(** [TrackBase::step].  [stepServer] is the control block's own method;
    it gives [None] when it cannot take the block's mutex. *)
Definition TrackBase_step
    (stepServer : audio_track_cblk_t -> Z -> option audio_track_cblk_t)
    (b : TrackBase) : bool * TrackBase :=
  match stepServer (mCblk b) (mFrameCount b) with
  | Some c' => (true, set_mCblk c' b)
  | None => (false, set_mFlags (Z.lor (mFlags b) STEPSERVER_FAILED) b)
  end.

(** [TrackBase::getBuffer]: the address of frame [offset], or 0 when
    the range leaves the buffer.  Addresses are 32 bits wide. *)
Definition TrackBase_getBuffer (b : TrackBase) (offset frames : Z) : Z :=
  let c := mCblk b in
  let bufferStart :=
    wrap32 (mBuffer b + wrap32 (wrap32 (offset - serverBase c) * frameSize c)) in
  let bufferEnd := wrap32 (bufferStart + wrap32 (frames * frameSize c)) in
  if (bufferStart <? mBuffer b) || (bufferEnd <? bufferStart)
     || (mBufferEnd b <? bufferEnd)
     || negb (Z.land bufferStart (wrap32 (frameSize c - 1)) =? 0)
  then 0 else bufferStart.

(** *** Track *)

(** [AudioBufferProvider::Buffer]: the address and the frame count. *)
Record Buffer : Type := mkBuffer {
  raw : Z;
  buf_frameCount : Z
}.

(** [Track::Track].  The members [mFillingUpStatus], [mResetDone] and
    [mRetryCount] are not initialised by the constructor: [fs0], [rd0]
    and [rc0] are whatever the fresh object holds. *)
Definition Track_ctor (a : Allocation) (client : bool)
    (streamType sampleRate' format channelCount frameCount' : Z)
    (sharedBuffer : option Z)
    (fs0 : fill_status) (rd0 : bool) (rc0 : Z) : option Track :=
  match TrackBase_ctor a client sampleRate' format channelCount frameCount' 0
          sharedBuffer with
  | None => None
  | Some b =>
      let name := match alloc_name a with Some n => n | None => -1 end in
      let fsz := if isLinearPCM format
                 then wrap32 (wrap32 channelCount * sizeof_int16_t)
                 else sizeof_int8_t in
      Some (mkTrack (set_mCblk (set_frameSize fsz (mCblk b)) b)
              false fs0 rc0 sharedBuffer rd0 streamType name 1%float 1%float)
  end.

(** [Track::reset]. *)
Definition Track_reset (t : Track) : Track :=
  if mResetDone t then t
  else
    let t1 := set_base (TrackBase_reset (base t)) t in
    let t2 := with_cblk (fun c => set_forceReady 0 (set_flowControlFlag 1 c)) t1 in
    set_mResetDone true (set_mFillingUpStatus FS_FILLING t2).

(** [Track::flush].  [thread] tells whether [mThread.promote()] gives a
    thread. *)
Definition Track_flush (thread : bool) (t : Track) : Track :=
  if thread then
    if negb (bool_decide (state t = STOPPED))
       && negb (bool_decide (state t = PAUSED))
       && negb (bool_decide (state t = PAUSING))
    then t
    else Track_reset (with_state STOPPED t)
  else t.

(** [Track::pause]. *)
Definition Track_pause (thread : bool) (t : Track) : Track :=
  if thread then
    if bool_decide (state t = ACTIVE) || bool_decide (state t = RESUMING)
    then with_state PAUSING t else t
  else t.

(** [Track::isReady] ([mFillingUpStatus] is [mutable]). *)
Definition Track_isReady (t : Track) : bool * Track :=
  if negb (bool_decide (mFillingUpStatus t = FS_FILLING)) then (true, t)
  else if (frameCount (cblk t) <=? framesReady (cblk t))
          || negb (forceReady (cblk t) =? 0)
  then (true, with_cblk (set_forceReady 0) (set_mFillingUpStatus FS_FILLED t))
  else (false, t).

(** [Track::getNextBuffer]. *)
Definition Track_getNextBuffer
    (stepServer : audio_track_cblk_t -> Z -> option audio_track_cblk_t)
    (t : Track) (framesReq : Z) : status_t * Buffer * Track :=
  let getNextBuffer_exit (t' : Track) := (NOT_ENOUGH_DATA, mkBuffer 0 0, t') in
  let fetch (t' : Track) :=
    let c := cblk t' in
    let framesReady' := framesReady c in
    if negb (framesReady' =? 0) then
      let s := server c in
      let bufferEnd := wrap32 (serverBase c + frameCount c) in
      let bufferEnd := if loopEnd c <? bufferEnd then loopEnd c else bufferEnd in
      let framesReq := if framesReady' <? framesReq then framesReady' else framesReq in
      let framesReq := if bufferEnd <? wrap32 (s + framesReq)
                       then wrap32 (bufferEnd - s) else framesReq in
      let raw' := TrackBase_getBuffer (base t') s framesReq in
      if raw' =? 0 then getNextBuffer_exit t'
      else (NO_ERROR, mkBuffer raw' framesReq, t')
    else getNextBuffer_exit t' in
  if negb (Z.land (mFlags (base t)) STEPSERVER_FAILED =? 0) then
    let '(ok, b') := TrackBase_step stepServer (base t) in
    if ok
    then fetch (set_base (set_mFlags (Z.land (mFlags b') (Z.lnot STEPSERVER_FAILED)) b') t)
    else getNextBuffer_exit (set_base b' t)
  else fetch t.

(** [TrackBase::releaseBuffer], on a track. *)
Definition Track_releaseBuffer
    (stepServer : audio_track_cblk_t -> Z -> option audio_track_cblk_t)
    (t : Track) (buffer : Buffer) : Buffer * Track :=
  let b := set_mFrameCount (buf_frameCount buffer) (base t) in
  (mkBuffer 0 0, set_base (snd (TrackBase_step stepServer b)) t).

End TrackModel.

(** ** Playback threads *)

(** [PlaybackThread::type]. *)
Inductive thread_type : Type := MIXER | DIRECT | DUPLICATING.

#[global] Instance thread_type_eq_dec : EqDecision thread_type.
Proof. solve_decision. Defined.

(** [stream_type_t]: per-stream volume and mute. *)
Record stream_type_t : Type := mkStreamType {
  st_volume : float;
  st_mute : bool
}.

(** The members of a playback thread ([ThreadBase], [PlaybackThread]).
    [th_mTracks] and [th_mActiveTracks] hold object identities: the
    track objects themselves are in a store (see [prepareTracks_l]).
    [th_mOutput] is the hardware stream pointer, 0 when null. *)
Record PlaybackThread : Type := mkPlaybackThread {
  th_mType : thread_type;
  th_mSampleRate : Z;
  th_mFormat : Z;
  th_mChannelCount : Z;
  th_mFrameCount : Z;
  th_mOutput : Z;
  th_mTracks : list nat;
  th_mActiveTracks : list nat;
  th_mMasterVolume : float;
  th_mMasterMute : bool;
  th_mStreamTypes : list stream_type_t;
  th_mBytesWritten : Z;
  th_mMinBytesToWrite : Z
}.

Definition set_th_mTracks l (th : PlaybackThread) :=
  mkPlaybackThread (th_mType th) (th_mSampleRate th) (th_mFormat th)
    (th_mChannelCount th) (th_mFrameCount th) (th_mOutput th) l
    (th_mActiveTracks th) (th_mMasterVolume th) (th_mMasterMute th)
    (th_mStreamTypes th) (th_mBytesWritten th) (th_mMinBytesToWrite th).
Definition set_th_mActiveTracks l (th : PlaybackThread) :=
  mkPlaybackThread (th_mType th) (th_mSampleRate th) (th_mFormat th)
    (th_mChannelCount th) (th_mFrameCount th) (th_mOutput th) (th_mTracks th)
    l (th_mMasterVolume th) (th_mMasterMute th)
    (th_mStreamTypes th) (th_mBytesWritten th) (th_mMinBytesToWrite th).
Definition set_th_mMasterVolume v (th : PlaybackThread) :=
  mkPlaybackThread (th_mType th) (th_mSampleRate th) (th_mFormat th)
    (th_mChannelCount th) (th_mFrameCount th) (th_mOutput th) (th_mTracks th)
    (th_mActiveTracks th) v (th_mMasterMute th)
    (th_mStreamTypes th) (th_mBytesWritten th) (th_mMinBytesToWrite th).
Definition set_th_mStreamTypes l (th : PlaybackThread) :=
  mkPlaybackThread (th_mType th) (th_mSampleRate th) (th_mFormat th)
    (th_mChannelCount th) (th_mFrameCount th) (th_mOutput th) (th_mTracks th)
    (th_mActiveTracks th) (th_mMasterVolume th) (th_mMasterMute th)
    l (th_mBytesWritten th) (th_mMinBytesToWrite th).

(** [SortedVector] of object identities: no duplicates, kept in order. *)
Fixpoint sv_add (x : nat) (l : list nat) : list nat :=
  match l with
  | [] => [x]
  | y :: l' =>
      if (x <? y)%nat then x :: l
      else if (x =? y)%nat then l
      else y :: sv_add x l'
  end.

Definition sv_remove (x : nat) (l : list nat) : list nat :=
  filter (fun y => y ≠ x) l.

(** [indexOf(x) >= 0]. *)
Definition sv_member (x : nat) (l : list nat) : bool := bool_decide (x ∈ l).

(** Element [i] of a per-stream array, and assignment to its [mute]. *)
Definition stream_at (l : list stream_type_t) (i : Z) : stream_type_t :=
  default (mkStreamType 0%float false) (l !! Z.to_nat i).

Definition stream_set_mute (l : list stream_type_t) (i : Z) (m : bool)
    : list stream_type_t :=
  <[Z.to_nat i := mkStreamType (st_volume (stream_at l i)) m]> l.

(** [PlaybackThread::setMasterVolume], [PlaybackThread::setStreamMute]. *)
Definition PlaybackThread_setMasterVolume (value : float) (th : PlaybackThread)
    : PlaybackThread :=
  set_th_mMasterVolume value th.

Definition PlaybackThread_setStreamMute (stream : Z) (muted : bool)
    (th : PlaybackThread) : PlaybackThread :=
  set_th_mStreamTypes (stream_set_mute (th_mStreamTypes th) stream muted) th.

(** Calls into the mixer object, in the order they are made. *)
Inductive mixer_target : Type := TRACK | RESAMPLE | RAMP_VOLUME | VOLUME.
Inductive mixer_name : Type :=
| FORMAT | CHANNEL_COUNT | SAMPLE_RATE | VOLUME0 | VOLUME1.
Inductive MixerCall : Type :=
| setActiveTrack (name : Z)
| setBufferProvider (track : nat)
| enable_MIXING
| disable_MIXING
| setParameter (target : mixer_target) (name : mixer_name) (value : Z)
| deleteTrackName (name : Z).

#[global] Instance mixer_target_eq_dec : EqDecision mixer_target.
Proof. solve_decision. Defined.
#[global] Instance mixer_name_eq_dec : EqDecision mixer_name.
Proof. solve_decision. Defined.
#[global] Instance MixerCall_eq_dec : EqDecision MixerCall.
Proof. solve_decision. Defined.

Section ThreadModel.
Context `{Headers}.

(** What [createTrack_l] hands back in its [sp<Track>]: nothing, a track
    object whose [getCblk()] is null, or a track with its control block. *)
Inductive created : Type :=
| NoTrack
| TrackNoCblk
| TrackOk (id : nat) (t : Track).

(** [PlaybackThread::createTrack_l].  [id] is the identity of the object
    that [new Track] would give. *)
Definition PlaybackThread_createTrack_l (th : PlaybackThread)
    (client : bool) (streamType sampleRate' format channelCount frameCount' : Z)
    (sharedBuffer : option Z)
    (id : nat) (a : Allocation) (fs0 : fill_status) (rd0 : bool) (rc0 : Z)
    : created * status_t * PlaybackThread :=
  if match th_mType th with
     | DIRECT =>
         negb (sampleRate' =? th_mSampleRate th)
         || negb (format =? th_mFormat th)
         || negb (channelCount =? th_mChannelCount th)
     | _ => wrap32 (th_mSampleRate th * 2) <? sampleRate'
     end
  then (NoTrack, BAD_VALUE, th)
  else if th_mOutput th =? 0 then (NoTrack, NO_INIT, th)
  else
    match (if client then
             Track_ctor a client streamType sampleRate' format channelCount
               frameCount' sharedBuffer fs0 rd0 rc0
           else None) with
    | None => (TrackNoCblk, NO_MEMORY, th)
    | Some t => (TrackOk id t, NO_ERROR, set_th_mTracks (sv_add id (th_mTracks th)) th)
    end.

(** [PlaybackThread::addTrack_l]. *)
Definition PlaybackThread_addTrack_l (th : PlaybackThread) (id : nat)
    (track : Track) : status_t * PlaybackThread * Track :=
  let track := if isPaused track then with_state RESUMING track
               else with_state ACTIVE track in
  let track := set_mRetryCount kMaxTrackStartupRetries track in
  if negb (sv_member id (th_mActiveTracks th)) then
    (NO_ERROR,
     set_th_mActiveTracks (sv_add id (th_mActiveTracks th)) th,
     set_mResetDone false (set_mFillingUpStatus FS_FILLING track))
  else (ALREADY_EXISTS, th, track).

(** [PlaybackThread::destroyTrack_l]; the second component is the call
    [deleteTrackName_l] makes into the mixer. *)
Definition PlaybackThread_destroyTrack_l (th : PlaybackThread) (id : nat)
    (track : Track) : PlaybackThread * list MixerCall * Track :=
  let track := with_state TERMINATED track in
  if negb (sv_member id (th_mActiveTracks th)) then
    (set_th_mTracks (sv_remove id (th_mTracks th)) th,
     [deleteTrackName (mName track)], track)
  else (th, [], track).

(** [Track::start]: [thread] is what [mThread.promote()] gives. *)
Definition Track_start (thread : option PlaybackThread) (id : nat) (t : Track)
    : status_t * option PlaybackThread * Track :=
  match thread with
  | Some th =>
      let '(_, th', t') := PlaybackThread_addTrack_l th id t in
      (NO_ERROR, Some th', t')
  | None => (NO_ERROR, None, t)
  end.

(** [Track::stop]. *)
Definition Track_stop (thread : option PlaybackThread) (id : nat) (t : Track)
    : Track :=
  match thread with
  | Some th =>
      if track_state_ord STOPPED <? track_state_ord (state t) then
        let t := with_state STOPPED t in
        if negb (sv_member id (th_mActiveTracks th)) then Track_reset t else t
      else t
  | None => t
  end.

End ThreadModel.

(** ** The mixer thread *)

Section MixerThreadModel.
Context `{Headers}.

(** What one pass of the loop of [prepareTracks_l] does for one track. *)
Record Prepared : Type := mkPrepared {
  p_track : Track;
  p_calls : list MixerCall;
  p_enabled : bool;
  p_remove : bool
}.

(** The test that opens the loop body,
    [cblk->framesReady() && (track->isReady() || track->isStopped())
     && !track->isPaused()], with the effect of [isReady] when it is
    evaluated. *)
Definition mix_condition (track : Track) : bool * Track :=
  if negb (framesReady (cblk track) =? 0) then
    let '(r, t1) := Track_isReady track in
    ((r || isStopped t1) && negb (isPaused t1), t1)
  else (false, track).

(** The body of the [for] loop of [MixerThread::prepareTracks_l], for
    the track object [track] found under identity [id]. *)
Definition prepareTrack (th : PlaybackThread) (id : nat) (track : Track)
    : Prepared :=
  let c0 := [setActiveTrack (mName track)] in
  let '(go, track) := mix_condition track in
  if go then
    let muted := isMuted track || th_mMasterMute th || isPausing track
                 || st_mute (stream_at (th_mStreamTypes th) (mStreamType track)) in
    let '(left_, right_, track) :=
      if muted then
        (0, 0, if isPausing track then setPaused track else track)
      else
        let typeVolume := st_volume (stream_at (th_mStreamTypes th) (mStreamType track)) in
        (track_gain (th_mMasterVolume th) typeVolume (volume0 (cblk track)),
         track_gain (th_mMasterVolume th) typeVolume (volume1 (cblk track)),
         track) in
    let '(param, track) :=
      if bool_decide (mFillingUpStatus track = FS_FILLED) then
        let track := set_mFillingUpStatus FS_ACTIVE track in
        if bool_decide (state track = RESUMING)
        then (RAMP_VOLUME, with_state ACTIVE track)
        else (VOLUME, track)
      else (RAMP_VOLUME, track) in
    let calls :=
      c0 ++ [setBufferProvider id; enable_MIXING;
             setParameter param VOLUME0 left_;
             setParameter param VOLUME1 right_;
             setParameter TRACK FORMAT (mFormat (base track));
             setParameter TRACK CHANNEL_COUNT (channels (cblk track));
             setParameter RESAMPLE SAMPLE_RATE (wrap32s (sampleRate (cblk track)))] in
    mkPrepared (set_mRetryCount kMaxTrackRetries track) calls true false
  else
    let track := if isStopped track then Track_reset track else track in
    if isTerminated track || isStopped track || isPaused track then
      mkPrepared track (c0 ++ [disable_MIXING]) false true
    else
      let retry := wrap8s (mRetryCount track - 1) in
      let track := set_mRetryCount retry track in
      let remove := retry <=? 0 in
      if bool_decide (mSharedBuffer track = None)
         || (th_mMinBytesToWrite th <=? th_mBytesWritten th)
      then mkPrepared track (c0 ++ [disable_MIXING]) false remove
      else mkPrepared track c0 true remove.

(** The accumulator of the loop: the store of track objects, the calls
    made so far, [enabledTracks] and [tracksToRemove]. *)
Record PrepareAcc : Type := mkPrepareAcc {
  acc_tracks : gmap nat Track;
  acc_calls : list MixerCall;
  acc_enabled : Z;
  acc_remove : list nat
}.

(** One iteration: [activeTracks[i].promote()] is the lookup in the
    store; a track that is gone is skipped. *)
Definition prepare_step (th : PlaybackThread) (acc : PrepareAcc) (id : nat)
    : PrepareAcc :=
  match acc_tracks acc !! id with
  | None => acc
  | Some track =>
      let p := prepareTrack th id track in
      mkPrepareAcc (<[id := p_track p]> (acc_tracks acc))
        (acc_calls acc ++ p_calls p)
        (if p_enabled p then acc_enabled acc + 1 else acc_enabled acc)
        (if p_remove p then acc_remove acc ++ [id] else acc_remove acc)
  end.

(** The loop that closes [prepareTracks_l]: every track of
    [tracksToRemove] leaves the active list, and a terminated one leaves
    the thread. *)
Definition remove_step (tracks : gmap nat Track)
    (s : PlaybackThread * list MixerCall) (id : nat)
    : PlaybackThread * list MixerCall :=
  let '(th, calls) := s in
  let th := set_th_mActiveTracks (sv_remove id (th_mActiveTracks th)) th in
  match tracks !! id with
  | Some track =>
      if isTerminated track
      then (set_th_mTracks (sv_remove id (th_mTracks th)) th,
            calls ++ [deleteTrackName (mName track)])
      else (th, calls)
  | None => (th, calls)
  end.

(** [MixerThread::prepareTracks_l], called with an empty
    [tracksToRemove]: the thread, the store, the calls into the mixer,
    [tracksToRemove] and the returned [enabledTracks]. *)
Definition MixerThread_prepareTracks_l (th : PlaybackThread)
    (tracks : gmap nat Track)
    : PlaybackThread * gmap nat Track * list MixerCall * list nat * Z :=
  let acc := fold_left (prepare_step th) (th_mActiveTracks th)
               (mkPrepareAcc tracks [] 0 []) in
  let '(th', calls) :=
    fold_left (remove_step (acc_tracks acc)) (acc_remove acc)
      (th, acc_calls acc) in
  (th', acc_tracks acc, calls, acc_remove acc, acc_enabled acc).

End MixerThreadModel.

(** ** Output tracks of a duplicating thread *)

(** A buffer of the overflow queue, or the caller's buffer: the frames
    left in it and the samples from its [i16] cursor on. *)
Record PendingBuffer : Type := mkPending {
  pb_frameCount : Z;
  pb_i16 : list Z
}.

(** [OutputTrack]: the track it extends and its own members.
    [ring_log] lists the samples copied into the ring through
    [mOutBuffer.raw], oldest first. *)
Record OutputTrack : Type := mkOutputTrack {
  ot_track : Track;
  mActive : bool;
  mBufferQueue : list PendingBuffer;
  mOutBuffer_frameCount : Z;
  mWaitTimeMs : Z;
  ring_log : list Z
}.

Definition set_ot_track t (o : OutputTrack) :=
  mkOutputTrack t (mActive o) (mBufferQueue o) (mOutBuffer_frameCount o)
    (mWaitTimeMs o) (ring_log o).
Definition set_mActive a (o : OutputTrack) :=
  mkOutputTrack (ot_track o) a (mBufferQueue o) (mOutBuffer_frameCount o)
    (mWaitTimeMs o) (ring_log o).
Definition set_mBufferQueue q (o : OutputTrack) :=
  mkOutputTrack (ot_track o) (mActive o) q (mOutBuffer_frameCount o)
    (mWaitTimeMs o) (ring_log o).
Definition set_mOutBuffer_frameCount n (o : OutputTrack) :=
  mkOutputTrack (ot_track o) (mActive o) (mBufferQueue o) n
    (mWaitTimeMs o) (ring_log o).
Definition set_ring_log l (o : OutputTrack) :=
  mkOutputTrack (ot_track o) (mActive o) (mBufferQueue o)
    (mOutBuffer_frameCount o) (mWaitTimeMs o) l.

(** What one call of [obtainBuffer] sees of the consumer: the value of
    [framesAvailable()], the value of [framesAvailable_l()] read first
    under the lock, and the values read after each [waitRelative] that
    returns [NO_ERROR]; when [oe_wakes] is used up the wait times out. *)
Record ObtainEnv : Type := mkObtainEnv {
  oe_avail : Z;
  oe_avail_l : Z;
  oe_wakes : list Z
}.

(** The state of the [while] loop of [OutputTrack::write]: the track,
    the caller's buffer, [waitTimeLeftMs], the number of calls of
    [obtainBuffer] made so far and [outputBufferFull]. *)
Record WriteLoop : Type := mkWriteLoop {
  wl_track : OutputTrack;
  wl_inBuffer : PendingBuffer;
  wl_waitTimeLeftMs : Z;
  wl_calls : nat;
  wl_outputBufferFull : bool
}.

Section OutputTrackModel.
Context `{Headers}.

(** [OutputTrack::clearBufferQueue]. *)
Definition OutputTrack_clearBufferQueue (o : OutputTrack) : OutputTrack :=
  set_mBufferQueue [] o.

(** [OutputTrack::start]. *)
Definition OutputTrack_start (thread : option PlaybackThread) (id : nat)
    (o : OutputTrack) : status_t * option PlaybackThread * OutputTrack :=
  let '(status, thread', t') := Track_start thread id (ot_track o) in
  if negb (bool_decide (status = NO_ERROR)) then (status, thread', set_ot_track t' o)
  else (status, thread', set_mActive true (set_ot_track (set_mRetryCount 127 t') o)).

(** [OutputTrack::stop]. *)
Definition OutputTrack_stop (thread : option PlaybackThread) (id : nat)
    (o : OutputTrack) : OutputTrack :=
  let o := set_ot_track (Track_stop thread id (ot_track o)) o in
  let o := OutputTrack_clearBufferQueue o in
  set_mActive false (set_mOutBuffer_frameCount 0 o).

(** The wait of [obtainBuffer], entered at [start_loop_here] with the
    first reading [framesAvail]: [None] is [NO_MORE_BUFFERS]. *)
Fixpoint obtain_wait (active : bool) (framesAvail : Z) (wakes : list Z)
    {struct wakes} : option Z :=
  if framesAvail =? 0 then
    if active then
      match wakes with
      | [] => None
      | r :: rest => obtain_wait active r rest
      end
    else None
  else Some framesAvail.

(** [OutputTrack::obtainBuffer]: the status and [buffer->frameCount]. *)
Definition OutputTrack_obtainBuffer (o : OutputTrack) (e : ObtainEnv)
    (framesReq : Z) : status_t * Z :=
  let c := cblk (ot_track o) in
  match (if oe_avail e =? 0
         then obtain_wait (mActive o) (oe_avail_l e) (oe_wakes e)
         else Some (oe_avail e)) with
  | None => (NO_MORE_BUFFERS, 0)
  | Some framesAvail =>
      let framesReq := if framesAvail <? framesReq then framesAvail else framesReq in
      let u := user c in
      let bufferEnd := wrap32 (userBase c + frameCount c) in
      let framesReq := if bufferEnd <? wrap32 (u + framesReq)
                       then wrap32 (bufferEnd - u) else framesReq in
      (NO_ERROR, framesReq)
  end.

(** A silent buffer of [frames] frames, as [write] allocates it. *)
Definition silence (frames channels' : Z) : PendingBuffer :=
  mkPending frames (repeat 0 (Z.to_nat (wrap32 (frames * channels')))).

(** One turn of the [while (waitTimeLeftMs)] loop of
    [OutputTrack::write], from the test of the loop condition on: [inl]
    when the loop goes on, [inr] when it is left.  [env k] is what call
    number [k] of [obtainBuffer] sees, with the time in milliseconds
    the call takes; [stepUser] is the control block's own method. *)
Definition write_iteration
    (stepUser : audio_track_cblk_t -> Z -> audio_track_cblk_t)
    (env : nat -> ObtainEnv * Z) (s : WriteLoop) : WriteLoop + WriteLoop :=
  if wl_waitTimeLeftMs s =? 0 then inr s
  else
    let o := wl_track s in
    let channels' := channels (cblk (ot_track o)) in
    let pIn := match mBufferQueue o with
               | b :: _ => b
               | [] => wl_inBuffer s
               end in
    if pb_frameCount pIn =? 0 then inr s
    else
      (* [None]: no more output buffers *)
      let obtained :=
        if mOutBuffer_frameCount o =? 0 then
          let '(e, waitTimeMs) := env (wl_calls s) in
          match OutputTrack_obtainBuffer o e (pb_frameCount pIn) with
          | (NO_ERROR, n) =>
              Some (n,
                    if waitTimeMs <=? wl_waitTimeLeftMs s
                    then wl_waitTimeLeftMs s - waitTimeMs else 0,
                    S (wl_calls s))
          | (_, _) => None
          end
        else Some (mOutBuffer_frameCount o, wl_waitTimeLeftMs s, wl_calls s) in
      match obtained with
      | None =>
          inr (mkWriteLoop (set_mOutBuffer_frameCount 0 o) (wl_inBuffer s)
                 (wl_waitTimeLeftMs s) (S (wl_calls s)) true)
      | Some (outCount, waitLeft, calls) =>
          let outFrames := if outCount <? pb_frameCount pIn
                           then outCount else pb_frameCount pIn in
          let samples := Z.to_nat (wrap32 (outFrames * channels')) in
          let o := set_ring_log (ring_log o ++ firstn samples (pb_i16 pIn)) o in
          let o := set_ot_track
                     (with_cblk (fun c => stepUser c outFrames) (ot_track o)) o in
          let pIn := mkPending (pb_frameCount pIn - outFrames)
                       (skipn samples (pb_i16 pIn)) in
          let o := set_mOutBuffer_frameCount (outCount - outFrames) o in
          match mBufferQueue o with
          | _ :: queue =>
              (* the buffer at the head of the queue *)
              if pb_frameCount pIn =? 0
              then inl (mkWriteLoop (set_mBufferQueue queue o) (wl_inBuffer s)
                          waitLeft calls (wl_outputBufferFull s))
              else inl (mkWriteLoop (set_mBufferQueue (pIn :: queue) o)
                          (wl_inBuffer s) waitLeft calls (wl_outputBufferFull s))
          | [] =>
              (* the caller's buffer *)
              let s' := mkWriteLoop o pIn waitLeft calls (wl_outputBufferFull s) in
              if pb_frameCount pIn =? 0 then inr s' else inl s'
          end
      end.

(** The loop: [None] when [fuel] turns do not reach the exit. *)
Fixpoint write_loop
    (stepUser : audio_track_cblk_t -> Z -> audio_track_cblk_t)
    (env : nat -> ObtainEnv * Z) (fuel : nat) (s : WriteLoop)
    : option WriteLoop :=
  match fuel with
  | O => None
  | S fuel' =>
      match write_iteration stepUser env s with
      | inr s' => Some s'
      | inl s' => write_loop stepUser env fuel' s'
      end
  end.

(** [OutputTrack::write].  [thread] is what [mThread.promote()] gives,
    [id] the identity of this track in the thread's lists, [data] the
    [frames * channels] samples of the caller. *)
Definition OutputTrack_write
    (stepUser : audio_track_cblk_t -> Z -> audio_track_cblk_t)
    (env : nat -> ObtainEnv * Z) (fuel : nat)
    (thread : option PlaybackThread) (id : nat) (o : OutputTrack)
    (data : list Z) (frames : Z)
    : option (bool * OutputTrack * option PlaybackThread) :=
  let channels' := channels (cblk (ot_track o)) in
  let waitTimeLeftMs := mWaitTimeMs o in
  let '(thread, o) :=
    if negb (mActive o) then
      let '(_, thread', o) := OutputTrack_start thread id o in
      match thread' with
      | Some _ =>
          if frames <? frameCount (cblk (ot_track o)) then
            if Z.of_nat (length (mBufferQueue o)) <? kMaxOverFlowBuffers then
              let startFrames := frameCount (cblk (ot_track o)) - frames in
              (thread', set_mBufferQueue
                          (mBufferQueue o ++ [silence startFrames channels']) o)
            else (thread', o)
          else (thread', o)
      | None => (thread', o)
      end
    else (thread, o) in
  match write_loop stepUser env fuel
          (mkWriteLoop o (mkPending frames data) waitTimeLeftMs O false) with
  | None => None
  | Some s =>
      let o := wl_track s in
      let inBuffer := wl_inBuffer s in
      let o :=
        if negb (pb_frameCount inBuffer =? 0) then
          if Z.of_nat (length (mBufferQueue o)) <? kMaxOverFlowBuffers
          then set_mBufferQueue (mBufferQueue o ++ [inBuffer]) o
          else o
        else o in
      let o :=
        if (frames =? 0) && (Z.of_nat (length (mBufferQueue o)) =? 0) then
          if user (cblk (ot_track o)) <? frameCount (cblk (ot_track o)) then
            let frames := frameCount (cblk (ot_track o)) - user (cblk (ot_track o)) in
            set_mBufferQueue (mBufferQueue o ++ [silence frames channels']) o
          else OutputTrack_stop thread id o
        else o in
      Some (wl_outputBufferFull s, o, thread)
  end.

End OutputTrackModel.

(** ** The server *)

(** [AudioFlinger::hardware_call_state], as far as the modelled
    functions set it. *)
Inductive hardware_call_state : Type :=
| AUDIO_HW_IDLE
| AUDIO_HW_INIT
| AUDIO_HW_OUTPUT_OPEN
| AUDIO_HW_SET_MASTER_VOLUME.

(** A record thread, as far as [openInput] builds it. *)
Record RecordThread : Type := mkRecordThread {
  rt_mInput : Z;
  rt_mReqSampleRate : Z;
  rt_mReqChannels : Z
}.

Record AudioFlinger : Type := mkAudioFlinger {
  af_mMasterVolume : float;
  af_mMasterMute : bool;
  af_mStreamTypes : list stream_type_t;
  af_mPlaybackThreads : gmap Z PlaybackThread;
  af_mRecordThreads : gmap Z RecordThread;
  af_mNextThreadId : Z;
  af_mHardwareStatus : hardware_call_state
}.

Definition set_af_mMasterVolume v (af : AudioFlinger) :=
  mkAudioFlinger v (af_mMasterMute af) (af_mStreamTypes af)
    (af_mPlaybackThreads af) (af_mRecordThreads af) (af_mNextThreadId af)
    (af_mHardwareStatus af).
Definition set_af_mStreamTypes l (af : AudioFlinger) :=
  mkAudioFlinger (af_mMasterVolume af) (af_mMasterMute af) l
    (af_mPlaybackThreads af) (af_mRecordThreads af) (af_mNextThreadId af)
    (af_mHardwareStatus af).
Definition set_af_mPlaybackThreads m (af : AudioFlinger) :=
  mkAudioFlinger (af_mMasterVolume af) (af_mMasterMute af) (af_mStreamTypes af)
    m (af_mRecordThreads af) (af_mNextThreadId af) (af_mHardwareStatus af).
Definition set_af_mRecordThreads m (af : AudioFlinger) :=
  mkAudioFlinger (af_mMasterVolume af) (af_mMasterMute af) (af_mStreamTypes af)
    (af_mPlaybackThreads af) m (af_mNextThreadId af) (af_mHardwareStatus af).
Definition set_af_mNextThreadId n (af : AudioFlinger) :=
  mkAudioFlinger (af_mMasterVolume af) (af_mMasterMute af) (af_mStreamTypes af)
    (af_mPlaybackThreads af) (af_mRecordThreads af) n (af_mHardwareStatus af).
Definition set_af_mHardwareStatus h (af : AudioFlinger) :=
  mkAudioFlinger (af_mMasterVolume af) (af_mMasterMute af) (af_mStreamTypes af)
    (af_mPlaybackThreads af) (af_mRecordThreads af) (af_mNextThreadId af) h.

(** What [openOutputStream] and [openInputStream] return: the stream
    (0 when none), the format, channels and rate they write back, and
    the status. *)
Record HwStream : Type := mkHwStream {
  hw_stream : Z;
  hw_format : Z;
  hw_channels : Z;
  hw_samplingRate : Z;
  hw_latency : Z;
  hw_status : status_t
}.

(** The arguments a caller passes by pointer: [None] is a null pointer. *)
Record OpenParams : Type := mkOpenParams {
  pDevices : option Z;
  pSamplingRate : option Z;
  pFormat : option Z;
  pChannels : option Z;
  pLatencyMs : option Z
}.

(** [if (p) *p = v]. *)
Definition write_back (v : Z) (p : option Z) : option Z :=
  match p with
  | Some _ => Some v
  | None => None
  end.

Section ServerModel.
Context `{Headers}.

(** [AudioFlinger::setMasterVolume].  [allowed] is the answer of
    [settingsAllowed()], [hw] the hardware interface's
    [setMasterVolume]. *)
Definition AudioFlinger_setMasterVolume (allowed : bool)
    (hw : float -> status_t) (value : float) (af : AudioFlinger)
    : status_t * AudioFlinger :=
  if negb allowed then (PERMISSION_DENIED, af)
  else
    let af := set_af_mHardwareStatus AUDIO_HW_SET_MASTER_VOLUME af in
    let value := if bool_decide (hw value = NO_ERROR) then 1%float else value in
    let af := set_af_mHardwareStatus AUDIO_HW_IDLE af in
    let af := set_af_mMasterVolume value af in
    (NO_ERROR,
     set_af_mPlaybackThreads
       (PlaybackThread_setMasterVolume value <$> af_mPlaybackThreads af) af).

(** [AudioFlinger::masterVolume]. *)
Definition AudioFlinger_masterVolume (af : AudioFlinger) : float :=
  af_mMasterVolume af.

(** [AudioFlinger::setStreamMute]. *)
Definition AudioFlinger_setStreamMute (allowed : bool) (stream : Z)
    (muted : bool) (af : AudioFlinger) : status_t * AudioFlinger :=
  if negb allowed then (PERMISSION_DENIED, af)
  else if (stream <? 0)
          || (wrap32 NUM_STREAM_TYPES <=? wrap32 stream)
          || (wrap32 stream =? wrap32 ENFORCED_AUDIBLE)
  then (BAD_VALUE, af)
  else
    let af := set_af_mStreamTypes
                (stream_set_mute (af_mStreamTypes af) stream muted) af in
    (NO_ERROR,
     set_af_mPlaybackThreads
       (PlaybackThread_setStreamMute stream muted <$> af_mPlaybackThreads af) af).

(** [AudioFlinger::streamMute]. *)
Definition AudioFlinger_streamMute (af : AudioFlinger) (stream : Z) : bool :=
  if (stream <? 0) || (wrap32s NUM_STREAM_TYPES <=? stream) then true
  else st_mute (stream_at (af_mStreamTypes af) stream).

(** [AudioFlinger::checkPlaybackThread_l], [checkMixerThread_l]. *)
Definition AudioFlinger_checkPlaybackThread_l (af : AudioFlinger) (output : Z)
    : option PlaybackThread :=
  af_mPlaybackThreads af !! output.

Definition AudioFlinger_checkMixerThread_l (af : AudioFlinger) (output : Z)
    : option PlaybackThread :=
  match AudioFlinger_checkPlaybackThread_l af output with
  | Some thread =>
      if bool_decide (th_mType thread = DIRECT) then None else Some thread
  | None => None
  end.

(** [AudioFlinger::openOutput].  [openOutputStream] is the hardware
    interface's method, on the devices and the requested format,
    channels and rate; [newThread] gives the thread object that the
    constructor of the chosen class builds around the stream.  The
    result is the returned handle, the values written back through the
    pointers, and the server. *)
Definition AudioFlinger_openOutput
    (openOutputStream : Z -> Z -> Z -> Z -> HwStream)
    (newThread : thread_type -> HwStream -> PlaybackThread)
    (p : OpenParams) (flags : Z) (af : AudioFlinger)
    : Z * OpenParams * AudioFlinger :=
  let af := set_af_mHardwareStatus AUDIO_HW_OUTPUT_OPEN af in
  let samplingRate := default 0 (pSamplingRate p) in
  let format := default 0 (pFormat p) in
  let channels' := default 0 (pChannels p) in
  match pDevices p with
  | None => (0, p, af)
  | Some devices =>
      if devices =? 0 then (0, p, af)
      else
        let output := openOutputStream devices format channels' samplingRate in
        let af := set_af_mHardwareStatus AUDIO_HW_IDLE af in
        if negb (hw_stream output =? 0) then
          let thread :=
            if negb (Z.land flags OUTPUT_FLAG_DIRECT =? 0)
               || negb (hw_format output =? PCM_16_BIT)
               || negb (hw_channels output =? CHANNEL_OUT_STEREO)
            then newThread DIRECT output
            else newThread MIXER output in
          let next := wrap32s (af_mNextThreadId af + 1) in
          let af := set_af_mNextThreadId next af in
          let af := set_af_mPlaybackThreads
                      (<[next := thread]> (af_mPlaybackThreads af)) af in
          let p' := mkOpenParams (pDevices p)
                      (write_back (hw_samplingRate output) (pSamplingRate p))
                      (write_back (hw_format output) (pFormat p))
                      (write_back (hw_channels output) (pChannels p))
                      (write_back (hw_latency output) (pLatencyMs p)) in
          (af_mNextThreadId af, p', af)
        else (af_mNextThreadId af, p, af)
  end.

(** [AudioFlinger::openDuplicateOutput].  [newThread thread1 thread2]
    is the duplicating thread that the constructor and the two
    [addOutputTrack] calls build. *)
Definition AudioFlinger_openDuplicateOutput
    (newThread : PlaybackThread -> PlaybackThread -> PlaybackThread)
    (output1 output2 : Z) (af : AudioFlinger) : Z * AudioFlinger :=
  match AudioFlinger_checkMixerThread_l af output1,
        AudioFlinger_checkMixerThread_l af output2 with
  | Some thread1, Some thread2 =>
      let thread := newThread thread1 thread2 in
      let next := wrap32s (af_mNextThreadId af + 1) in
      let af := set_af_mNextThreadId next af in
      let af := set_af_mPlaybackThreads
                  (<[next := thread]> (af_mPlaybackThreads af)) af in
      (af_mNextThreadId af, af)
  | _, _ => (0, af)
  end.

(** [AudioFlinger::openInput].  [openInputStream] is called a second
    time, with the values the first call proposed, when the first call
    fails with [BAD_VALUE] on a request the server can convert itself;
    [popCount] is [AudioSystem::popCount]. *)
Definition AudioFlinger_openInput
    (openInputStream : nat -> Z -> Z -> Z -> Z -> HwStream)
    (popCount : Z -> Z)
    (p : OpenParams) (acoustics : Z) (af : AudioFlinger)
    : Z * OpenParams * AudioFlinger :=
  let reqSamplingRate := default 0 (pSamplingRate p) in
  let reqFormat := default 0 (pFormat p) in
  let reqChannels := default 0 (pChannels p) in
  match pDevices p with
  | None => (0, p, af)
  | Some devices =>
      if devices =? 0 then (0, p, af)
      else
        let input := openInputStream 0%nat devices reqFormat reqChannels
                       reqSamplingRate in
        let input :=
          if (hw_stream input =? 0)
             && bool_decide (hw_status input = BAD_VALUE)
             && (reqFormat =? hw_format input)
             && (hw_format input =? PCM_16_BIT)
             && (hw_samplingRate input <=? wrap32 (2 * reqSamplingRate))
             && (popCount (hw_channels input) <? 3)
             && (popCount reqChannels <? 3)
          then openInputStream 1%nat devices (hw_format input)
                 (hw_channels input) (hw_samplingRate input)
          else input in
        if negb (hw_stream input =? 0) then
          let thread := mkRecordThread (hw_stream input) reqSamplingRate
                          reqChannels in
          let next := wrap32s (af_mNextThreadId af + 1) in
          let af := set_af_mNextThreadId next af in
          let af := set_af_mRecordThreads
                      (<[next := thread]> (af_mRecordThreads af)) af in
          let p' := mkOpenParams (pDevices p)
                      (write_back reqSamplingRate (pSamplingRate p))
                      (write_back (hw_format input) (pFormat p))
                      (write_back reqChannels (pChannels p))
                      (pLatencyMs p) in
          (af_mNextThreadId af, p', af)
        else (af_mNextThreadId af, p, af)
  end.

End ServerModel.

(** *** Record tracks *)

Section RecordTrackModel.
Context `{Headers}.

(** [RecordTrack::RecordTrack]: the base object, with the frame size
    the constructor stores in the control block. *)
Definition RecordTrack_ctor (a : Allocation) (client : bool)
    (sampleRate' format channelCount frameCount' flags : Z)
    : option TrackBase :=
  match TrackBase_ctor a client sampleRate' format channelCount frameCount'
          flags None with
  | None => None
  | Some b =>
      let fsz :=
        if format =? PCM_16_BIT
        then wrap32 (wrap32 channelCount * sizeof_int16_t)
        else if format =? PCM_8_BIT
        then wrap32 (wrap32 channelCount * sizeof_int8_t)
        else sizeof_int8_t in
      Some (set_mCblk (set_frameSize fsz (mCblk b)) b)
  end.

End RecordTrackModel.

(** ** Concrete values for examples *)

(** One assignment of the header constants. *)
Definition sample_headers : Headers := {|
  NUM_STREAM_TYPES := 10;
  ENFORCED_AUDIBLE := 7;
  PCM_16_BIT := 1;
  PCM_8_BIT := 2;
  isLinearPCM := fun format => (format =? 1) || (format =? 2);
  OUTPUT_FLAG_DIRECT := 1;
  CHANNEL_OUT_STEREO := 12;
  SYSTEM_FLAGS_MASK := 65535;
  STEPSERVER_FAILED := 1;
  kMaxOverFlowBuffers := 8;
  sizeof_cblk := 64;
  track_gain := fun _ _ v => v
|}.

(** A control block as its constructor may leave it, and an allocation
    that succeeds at address 4096 with track name 0. *)
Definition sample_cblk : audio_track_cblk_t :=
  mkCblk 0 0 0 0 0 (2 ^ 32 - 1) 0 0 0 0 0 1 0 0.

Definition sample_allocation : Allocation :=
  mkAllocation (Some 4096) sample_cblk (Some 0).

(** A mixer thread on a 44100 Hz stereo 16-bit stream, without tracks,
    and a direct thread on the same stream. *)
Definition sample_streams : list stream_type_t :=
  repeat (mkStreamType 1%float false) 11.

Definition sample_mixer_thread : PlaybackThread :=
  mkPlaybackThread MIXER 44100 1 2 1024 8192 [] [] 1%float false
    sample_streams 0 0.

Definition sample_direct_thread : PlaybackThread :=
  mkPlaybackThread DIRECT 44100 1 2 1024 8192 [] [] 1%float false
    sample_streams 0 0.

(** A server as its constructor leaves it, before any endpoint is
    opened. *)
Definition sample_server : AudioFlinger :=
  mkAudioFlinger 1%float false sample_streams ∅ ∅ 0 AUDIO_HW_IDLE.

(** A hardware interface that opens a 44100 Hz stereo 16-bit stream on
    device 2 and no stream on any other device. *)
Definition sample_openOutputStream (devices format channels' rate : Z)
    : HwStream :=
  if devices =? 2 then mkHwStream 8192 1 12 44100 20 NO_ERROR
  else mkHwStream 0 format channels' rate 0 NO_INIT.

Definition sample_newThread (ty : thread_type) (s : HwStream) : PlaybackThread :=
  mkPlaybackThread ty (hw_samplingRate s) (hw_format s) 2 1024 (hw_stream s)
    [] [] 1%float false sample_streams 0 0.

(** The server after [openOutput] on device 2: one mixer endpoint,
    under handle 1. *)
Definition sample_server_open : AudioFlinger :=
  snd (AudioFlinger_openOutput (H := sample_headers) sample_openOutputStream
         sample_newThread (mkOpenParams (Some 2) None None None None) 0
         sample_server).

(** A stereo 16-bit track with a ring of 4 frames at address 4160, in
    the given play state and fill status, with the given cursors. *)
Definition sample_track (st : track_state) (fs : fill_status)
    (resetDone : bool) (user' server' : Z) : Track :=
  mkTrack
    (mkTrackBase
       (mkCblk user' server' 0 0 4 (2 ^ 32 - 1) 4096 4096 44100 4 2 0 1 0)
       4160 4176 0 st (-1) 1 0)
    false fs kMaxTrackRetries None resetDone 3 0 1%float 1%float.

(** A track that is started, stopped before the client has written
    anything, seen by one pass of the mixer thread (which resets it and
    drops it from the active list), and then written to by the client:
    3 frames. *)
Definition sample_track_written_after_reset : Track :=
  let t0 := sample_track IDLE FS_ACTIVE false 0 0 in
  let '(_, th1, t1) := PlaybackThread_addTrack_l sample_mixer_thread 1%nat t0 in
  let t2 := Track_stop (H := sample_headers) (Some th1) 1%nat t1 in
  let t3 := p_track (prepareTrack (H := sample_headers) th1 1%nat t2) in
  with_cblk (set_user 3) t3.

(** A mixer thread with one track, of identity 1, in its lists. *)
Definition sample_active_thread : PlaybackThread :=
  set_th_mActiveTracks [1%nat] (set_th_mTracks [1%nat] sample_mixer_thread).

(** ** Consecutive passes of the mixer thread *)

Section MixerPasses.
Context `{Headers}.

(** One pass of [prepareTracks_l], as a step on the thread and the
    store of its tracks. *)
Definition mixer_pass (s : PlaybackThread * gmap nat Track)
    : PlaybackThread * gmap nat Track :=
  let '(th', tracks', _, _, _) := MixerThread_prepareTracks_l s.1 s.2 in
  (th', tracks').

(** [empty_pulls id n s0 s]: from [s0], [n] passes of the mixer thread
    lead to [s], and in each of them the track [id] is in the active
    list, is not terminated, stopped or paused, and fails the test that
    opens the loop body.  Between two passes clients and other threads
    may change the thread and the store in any way that keeps the
    track's retry count and its membership of the active list. *)
Inductive empty_pulls (id : nat)
    : nat -> PlaybackThread * gmap nat Track
      -> PlaybackThread * gmap nat Track -> Prop :=
| empty_pulls_O s : empty_pulls id O s s
| empty_pulls_S n s0 th1 tracks1 th2 tracks2 t1 t2 :
    empty_pulls id n s0 (th1, tracks1) ->
    tracks1 !! id = Some t1 ->
    tracks2 !! id = Some t2 ->
    mRetryCount t2 = mRetryCount t1 ->
    (id ∈ th_mActiveTracks th2 <-> id ∈ th_mActiveTracks th1) ->
    NoDup (th_mActiveTracks th2) ->
    id ∈ th_mActiveTracks th2 ->
    state t2 <> TERMINATED -> state t2 <> STOPPED -> state t2 <> PAUSED ->
    fst (mix_condition t2) = false ->
    empty_pulls id (S n) s0 (mixer_pass (th2, tracks2)).

End MixerPasses.

(** An active track with an empty ring and the given retry count, and
    the state of a mixer thread that has it as its only track. *)
Definition sample_waiting_track (retry : Z) : Track :=
  set_mRetryCount retry (sample_track ACTIVE FS_ACTIVE false 0 0).

Definition sample_waiting_state (retry : Z)
    : PlaybackThread * gmap nat Track :=
  (sample_active_thread, {[1%nat := sample_waiting_track retry]}).

(** A track that is started, receives one frame of the four its ring
    holds, and is stopped: the thread that has it in its active list,
    and the store with the track. *)
Definition sample_stopped_while_filling : PlaybackThread * gmap nat Track :=
  let t0 := sample_track IDLE FS_ACTIVE false 0 0 in
  let '(_, th1, t1) :=
    PlaybackThread_addTrack_l (set_th_mTracks [1%nat] sample_mixer_thread)
      1%nat t0 in
  let t2 := with_cblk (set_user 1) t1 in
  let t3 := Track_stop (H := sample_headers) (Some th1) 1%nat t2 in
  (th1, {[1%nat := t3]}).

(** An active output track on the ring of [sample_track], full, with
    the given overflow queue; a producer step that only advances
    [user]; and a consumer that has stalled: no frame is available and
    every wait times out after 10 ms. *)
Definition sample_output_track (queue : list PendingBuffer) : OutputTrack :=
  mkOutputTrack (sample_track ACTIVE FS_ACTIVE false 4 0) true queue 0 20 [].

Definition sample_stepUser (c : audio_track_cblk_t) (n : Z)
    : audio_track_cblk_t :=
  set_user (wrap32 (user c + n)) c.

Definition sample_stalled (k : nat) : ObtainEnv * Z :=
  (mkObtainEnv 0 0 [], 10).

(** ** Measures for the loop of [OutputTrack::write] *)

(** The frames still to be copied: those of the overflow queue and those
    of the caller's buffer. *)
Definition pending_frames (s : WriteLoop) : Z :=
  foldr (fun b n => pb_frameCount b + n) (pb_frameCount (wl_inBuffer s))
    (mBufferQueue (wl_track s)).

(** The producer has room before the end of the ring: [user] is not at
    [userBase + frameCount]. *)
Definition producer_room (c : audio_track_cblk_t) : Prop :=
  wrap32 (wrap32 (userBase c + frameCount c) - user c) <> 0.

(** The counts of a loop state are those of unsigned integers. *)
Definition counts_nonneg (s : WriteLoop) : Prop :=
  Forall (fun b => 0 <= pb_frameCount b) (mBufferQueue (wl_track s)) /\
  0 <= pb_frameCount (wl_inBuffer s) /\
  0 <= mOutBuffer_frameCount (wl_track s).

(** The readings of the consumer's cursor are those of unsigned
    integers. *)
Definition readings_nonneg (e : ObtainEnv) : Prop :=
  0 <= oe_avail e /\ 0 <= oe_avail_l e /\ Forall (fun r => 0 <= r) (oe_wakes e).

(** ** Predicates and tactics of the properties below *)

(** What the mixer thread never changes of a track: its name, stream
    type and buffer, and whether it is terminated. *)
Definition keeps_identity (t t' : Track) : Prop :=
  (state t' = TERMINATED <-> state t = TERMINATED) /\
  mName t' = mName t /\
  mStreamType t' = mStreamType t /\
  mBuffer (base t') = mBuffer (base t) /\
  mBufferEnd (base t') = mBufferEnd (base t).

(** Case analysis on the first [bool_decide] test of the goal. *)
Ltac decide_test :=
  match goal with
  | |- context [bool_decide ?P] =>
      let Hd := fresh "Hd" in
      destruct (decide P) as [Hd|Hd];
      [rewrite (bool_decide_eq_true_2 P Hd)
      |rewrite (bool_decide_eq_false_2 P Hd)];
      cbv beta iota
  end.


(** The track of [sample_track], active, with the given cursors, base
    of the ring ([userBase] and [serverBase]) and [loopEnd]. *)
Definition sample_track_at (user' server' base' loopEnd' : Z) : Track :=
  mkTrack
    (mkTrackBase
       (mkCblk user' server' base' base' 4 loopEnd' 4096 4096 44100 4 2 0 1 0)
       4160 4176 0 ACTIVE (-1) 1 0)
    false FS_ACTIVE kMaxTrackRetries None false 3 0 1%float 1%float.

(** The handles of the server's endpoints: every registered handle is
    positive and at most [mNextThreadId], and no handle names both a
    playback thread and a record thread. *)
Definition handles_fresh (af : AudioFlinger) : Prop :=
  0 <= af_mNextThreadId af /\
  (forall h, is_Some (af_mPlaybackThreads af !! h)
             -> 0 < h <= af_mNextThreadId af) /\
  (forall h, is_Some (af_mRecordThreads af !! h)
             -> 0 < h <= af_mNextThreadId af) /\
  (forall h, is_Some (af_mPlaybackThreads af !! h)
             -> af_mRecordThreads af !! h = None).

(** Every endpoint of [af] is still registered in [af'], under the same
    handle. *)
Definition keeps_endpoints (af af' : AudioFlinger) : Prop :=
  (forall h th, af_mPlaybackThreads af !! h = Some th
                -> af_mPlaybackThreads af' !! h = Some th) /\
  (forall h th, af_mRecordThreads af !! h = Some th
                -> af_mRecordThreads af' !! h = Some th).

(** The call registered nothing, or it registered one endpoint under
    the handle [h] it returns, which named no endpoint before. *)
Definition opened (h : Z) (af af' : AudioFlinger) : Prop :=
  (af_mNextThreadId af' = af_mNextThreadId af /\
   af_mPlaybackThreads af' = af_mPlaybackThreads af /\
   af_mRecordThreads af' = af_mRecordThreads af)
  \/
  (h = af_mNextThreadId af + 1 /\
   af_mNextThreadId af' = h /\
   af_mPlaybackThreads af !! h = None /\
   af_mRecordThreads af !! h = None /\
   (is_Some (af_mPlaybackThreads af' !! h)
    \/ is_Some (af_mRecordThreads af' !! h))).

(** ** Closing endpoints *)

Section CloseModel.
Context `{Headers}.




End CloseModel.


(** ** The input buffer of a record thread *)








(** ** Master mute *)

Definition set_th_mMasterMute m (th : PlaybackThread) :=
  mkPlaybackThread (th_mType th) (th_mSampleRate th) (th_mFormat th)
    (th_mChannelCount th) (th_mFrameCount th) (th_mOutput th) (th_mTracks th)
    (th_mActiveTracks th) (th_mMasterVolume th) m
    (th_mStreamTypes th) (th_mBytesWritten th) (th_mMinBytesToWrite th).

Definition set_af_mMasterMute m (af : AudioFlinger) :=
  mkAudioFlinger (af_mMasterVolume af) m (af_mStreamTypes af)
    (af_mPlaybackThreads af) (af_mRecordThreads af) (af_mNextThreadId af)
    (af_mHardwareStatus af).

(** [PlaybackThread::setMasterMute]. *)
Definition PlaybackThread_setMasterMute (muted : bool) (th : PlaybackThread)
    : PlaybackThread :=
  set_th_mMasterMute muted th.

(** [AudioFlinger::setMasterMute]; [allowed] is the answer of
    [settingsAllowed()]. *)
Definition AudioFlinger_setMasterMute (allowed : bool) (muted : bool)
    (af : AudioFlinger) : status_t * AudioFlinger :=
  if negb allowed then (PERMISSION_DENIED, af)
  else
    let af := set_af_mMasterMute muted af in
    (NO_ERROR,
     set_af_mPlaybackThreads
       (PlaybackThread_setMasterMute muted <$> af_mPlaybackThreads af) af).

(** [AudioFlinger::masterMute]. *)
Definition AudioFlinger_masterMute (af : AudioFlinger) : bool :=
  af_mMasterMute af.

(** * Properties *)

(** ** Machine arithmetic *)

Lemma wrap32_range x : 0 <= wrap32 x < 2 ^ 32.
Proof. unfold wrap32. apply Z.mod_pos_bound. lia. Qed.

Lemma wrap32_small x : 0 <= x < 2 ^ 32 -> wrap32 x = x.
Proof. intros Hx. unfold wrap32. apply Z.mod_small. exact Hx. Qed.

Lemma wrap32_le x : 0 <= x -> wrap32 x <= x.
Proof. intros Hx. unfold wrap32. apply Z.mod_le; lia. Qed.

Lemma wrap8s_small x : - 2 ^ 7 <= x < 2 ^ 7 -> wrap8s x = x.
Proof. intros Hx. unfold wrap8s. rewrite Z.mod_small; lia. Qed.

Lemma wrap32s_small x : - 2 ^ 31 <= x < 2 ^ 31 -> wrap32s x = x.
Proof. intros Hx. unfold wrap32s. rewrite Z.mod_small; lia. Qed.

(** ** Frame size of 8-bit PCM tracks (C7) *)

Section FrameSize.
Context `{Headers}.

Lemma TrackBase_ctor_allocated a client sr fmt ch fc flags shared addr :
  alloc_cblk a = Some addr ->
  exists b, TrackBase_ctor a client sr fmt ch fc flags shared = Some b.
Proof.
  intros Ha. unfold TrackBase_ctor. rewrite Ha.
  destruct shared as [p|]; [destruct client|]; eexists; reflexivity.
Qed.

(** C7 (as amended).  A playback track created with 8-bit PCM, a linear
    PCM format, gets the frame size of 16-bit samples,
    [channelCount * 2]; a record track created with 8-bit PCM gets
    [channelCount * 1]. *)
Theorem C7_frameSize_8bit a client streamType sr ch fc flags shared fs0 rd0 rc0 addr :
  alloc_cblk a = Some addr ->
  isLinearPCM PCM_8_BIT = true ->
  PCM_8_BIT <> PCM_16_BIT ->
  0 <= ch < 2 ^ 31 ->
  (exists t, Track_ctor a client streamType sr PCM_8_BIT ch fc shared fs0 rd0 rc0
             = Some t /\ frameSize (cblk t) = ch * 2) /\
  (exists b, RecordTrack_ctor a client sr PCM_8_BIT ch fc flags = Some b
             /\ frameSize (mCblk b) = ch * 1).
Proof.
  intros Ha Hlin Hne Hch.
  assert (Hw : wrap32 ch = ch) by (apply wrap32_small; lia).
  split.
  - destruct (TrackBase_ctor_allocated a client sr PCM_8_BIT ch fc 0 shared addr Ha)
      as [b Hb].
    unfold Track_ctor. rewrite Hb, Hlin. eexists. split; [reflexivity|].
    cbn. rewrite Hw. unfold sizeof_int16_t. apply wrap32_small. lia.
  - destruct (TrackBase_ctor_allocated a client sr PCM_8_BIT ch fc flags None addr Ha)
      as [b Hb].
    unfold RecordTrack_ctor. rewrite Hb.
    destruct (Z.eqb_spec PCM_8_BIT PCM_16_BIT) as [e|_]; [congruence|].
    rewrite Z.eqb_refl. eexists. split; [reflexivity|].
    cbn. rewrite Hw. unfold sizeof_int8_t. apply wrap32_small. lia.
Qed.

End FrameSize.

(** A record track opened with 8-bit PCM and two channels: its frame
    size is 2 bytes, not the 4 bytes of 16-bit samples. *)
Lemma C7_record_frameSize_counterexample :
  (fun b => frameSize (mCblk b)) <$>
    RecordTrack_ctor (H := sample_headers) sample_allocation true 8000
      (PCM_8_BIT (Headers := sample_headers)) 2 1024 0 = Some 2
  /\ 2 <> 2 * 2.
Proof. split; [reflexivity | lia]. Qed.

Lemma C7_frameSize_8bit_witness :
  alloc_cblk sample_allocation = Some 4096 /\
  isLinearPCM (Headers := sample_headers) (PCM_8_BIT (Headers := sample_headers)) = true /\
  PCM_8_BIT (Headers := sample_headers) <> PCM_16_BIT (Headers := sample_headers) /\
  0 <= 2 < 2 ^ 31 /\
  (exists t, Track_ctor (H := sample_headers) sample_allocation true 3 44100
               (PCM_8_BIT (Headers := sample_headers)) 2 1024 None
               FS_FILLING false 0 = Some t /\ frameSize (cblk t) = 2 * 2) /\
  (exists b, RecordTrack_ctor (H := sample_headers) sample_allocation true 44100
               (PCM_8_BIT (Headers := sample_headers)) 2 1024 0 = Some b
             /\ frameSize (mCblk b) = 2 * 1).
Proof.
  assert (Ha : alloc_cblk sample_allocation = Some 4096) by reflexivity.
  assert (Hl : isLinearPCM (Headers := sample_headers)
                 (PCM_8_BIT (Headers := sample_headers)) = true) by reflexivity.
  assert (Hn : PCM_8_BIT (Headers := sample_headers)
               <> PCM_16_BIT (Headers := sample_headers)) by (cbn; lia).
  assert (Hc : 0 <= 2 < 2 ^ 31) by lia.
  repeat (split; [assumption|]).
  exact (C7_frameSize_8bit (H := sample_headers) sample_allocation true 3 44100 2
           1024 0 None FS_FILLING false 0 4096 Ha Hl Hn Hc).
Defined.

(** ** Track creation (C5) *)

Section CreateTrack.
Context `{Headers}.

(** C5.  On a direct endpoint [createTrack_l] fails with [BAD_VALUE]
    when the requested rate, format or channel count differs from the
    endpoint's; on any other endpoint it fails with [BAD_VALUE] when
    the requested rate exceeds twice the endpoint's rate.  In both
    cases no track is returned and the thread, with its track list, is
    unchanged. *)
Theorem C5_createTrack_l_rejects th client streamType sr fmt ch fc shared
    id a fs0 rd0 rc0 :
  0 <= th_mSampleRate th ->
  (th_mType th = DIRECT /\
   (sr <> th_mSampleRate th \/ fmt <> th_mFormat th \/ ch <> th_mChannelCount th))
  \/ (th_mType th <> DIRECT /\ 2 * th_mSampleRate th < sr) ->
  PlaybackThread_createTrack_l th client streamType sr fmt ch fc shared
    id a fs0 rd0 rc0 = (NoTrack, BAD_VALUE, th).
Proof.
  intros Hrate Hbad. unfold PlaybackThread_createTrack_l.
  destruct Hbad as [[Hty Hne] | [Hty Hgt]].
  - rewrite Hty.
    destruct (Z.eqb_spec sr (th_mSampleRate th)) as [Hs|Hs]; [|reflexivity].
    destruct (Z.eqb_spec fmt (th_mFormat th)) as [Hf|Hf]; [|reflexivity].
    destruct (Z.eqb_spec ch (th_mChannelCount th)) as [Hc|Hc]; [|reflexivity].
    exfalso. destruct Hne as [Hne | [Hne | Hne]]; contradiction.
  - assert (Hlt : (wrap32 (th_mSampleRate th * 2) <? sr) = true).
    { apply Z.ltb_lt.
      pose proof (wrap32_le (th_mSampleRate th * 2)). lia. }
    destruct (th_mType th); [| contradiction |]; rewrite Hlt; reflexivity.
Qed.

End CreateTrack.

Lemma C5_createTrack_l_rejects_witness :
  (0 <= th_mSampleRate sample_direct_thread /\
   ((th_mType sample_direct_thread = DIRECT /\
     (22050 <> th_mSampleRate sample_direct_thread
      \/ 1 <> th_mFormat sample_direct_thread
      \/ 2 <> th_mChannelCount sample_direct_thread))
    \/ (th_mType sample_direct_thread <> DIRECT
        /\ 2 * th_mSampleRate sample_direct_thread < 22050)) /\
   PlaybackThread_createTrack_l (H := sample_headers) sample_direct_thread true 3
     22050 1 2 4096 None 1%nat sample_allocation FS_FILLING false 0
   = (NoTrack, BAD_VALUE, sample_direct_thread))
  /\
  (0 <= th_mSampleRate sample_mixer_thread /\
   ((th_mType sample_mixer_thread = DIRECT /\
     (96000 <> th_mSampleRate sample_mixer_thread
      \/ 1 <> th_mFormat sample_mixer_thread
      \/ 2 <> th_mChannelCount sample_mixer_thread))
    \/ (th_mType sample_mixer_thread <> DIRECT
        /\ 2 * th_mSampleRate sample_mixer_thread < 96000)) /\
   PlaybackThread_createTrack_l (H := sample_headers) sample_mixer_thread true 3
     96000 1 2 4096 None 1%nat sample_allocation FS_FILLING false 0
   = (NoTrack, BAD_VALUE, sample_mixer_thread)).
Proof.
  assert (Hd : 0 <= th_mSampleRate sample_direct_thread) by (cbn; lia).
  assert (Hm : 0 <= th_mSampleRate sample_mixer_thread) by (cbn; lia).
  assert (Hbd : (th_mType sample_direct_thread = DIRECT /\
     (22050 <> th_mSampleRate sample_direct_thread
      \/ 1 <> th_mFormat sample_direct_thread
      \/ 2 <> th_mChannelCount sample_direct_thread))
    \/ (th_mType sample_direct_thread <> DIRECT
        /\ 2 * th_mSampleRate sample_direct_thread < 22050)).
  { left. split; [reflexivity|]. left. cbn. lia. }
  assert (Hbm : (th_mType sample_mixer_thread = DIRECT /\
     (96000 <> th_mSampleRate sample_mixer_thread
      \/ 1 <> th_mFormat sample_mixer_thread
      \/ 2 <> th_mChannelCount sample_mixer_thread))
    \/ (th_mType sample_mixer_thread <> DIRECT
        /\ 2 * th_mSampleRate sample_mixer_thread < 96000)).
  { right. split; [discriminate | cbn; lia]. }
  split; (split; [assumption | split; [assumption|]]).
  - exact (C5_createTrack_l_rejects (H := sample_headers) sample_direct_thread
             true 3 22050 1 2 4096 None 1%nat sample_allocation FS_FILLING
             false 0 Hd Hbd).
  - exact (C5_createTrack_l_rejects (H := sample_headers) sample_mixer_thread
             true 3 96000 1 2 4096 None 1%nat sample_allocation FS_FILLING
             false 0 Hm Hbm).
Defined.

(** ** Master volume (C9) *)

Section MasterVolume.
Context `{Headers}.

(** C9.  When the hardware interface accepts [setMasterVolume], the
    server stores 1.0, every playback thread receives 1.0 and
    [masterVolume()] returns 1.0; when the hardware rejects the call,
    the requested value is stored, propagated and returned.  The
    hardware interface is asked only for a caller that passes the
    settings check; for any other caller nothing is stored.  The set of
    playback threads is the same before and after. *)
Theorem C9_setMasterVolume allowed hw value af :
  let af' := snd (AudioFlinger_setMasterVolume allowed hw value af) in
  let stored v :=
    fst (AudioFlinger_setMasterVolume allowed hw value af) = NO_ERROR /\
    af_mMasterVolume af' = v /\
    AudioFlinger_masterVolume af' = v /\
    (forall output : Z,
        th_mMasterVolume <$> af_mPlaybackThreads af' !! output
        = (fun _ => v) <$> af_mPlaybackThreads af !! output) in
  (allowed = true -> hw value = NO_ERROR -> stored 1%float) /\
  (allowed = true -> hw value <> NO_ERROR -> stored value) /\
  (allowed = false ->
   AudioFlinger_setMasterVolume allowed hw value af = (PERMISSION_DENIED, af)).
Proof.
  cbv zeta. unfold AudioFlinger_setMasterVolume, AudioFlinger_masterVolume.
  split; [|split].
  - intros -> Hhw. cbn [negb fst snd].
    rewrite bool_decide_eq_true_2 by exact Hhw. cbn.
    repeat split. intros output. rewrite lookup_fmap.
    destruct (af_mPlaybackThreads af !! output); reflexivity.
  - intros -> Hhw. cbn [negb fst snd].
    rewrite bool_decide_eq_false_2 by exact Hhw. cbn.
    repeat split. intros output. rewrite lookup_fmap.
    destruct (af_mPlaybackThreads af !! output); reflexivity.
  - intros ->. reflexivity.
Qed.

End MasterVolume.

Lemma C9_setMasterVolume_witness :
  ((fun _ : float => NO_ERROR) 0.5%float = NO_ERROR /\
   AudioFlinger_masterVolume
     (snd (AudioFlinger_setMasterVolume true (fun _ => NO_ERROR) 0.5%float
             sample_server_open)) = 1%float /\
   th_mMasterVolume <$>
     af_mPlaybackThreads
       (snd (AudioFlinger_setMasterVolume true (fun _ => NO_ERROR) 0.5%float
               sample_server_open)) !! 1 = Some 1%float)
  /\
  ((fun _ : float => INVALID_OPERATION) 0.5%float <> NO_ERROR /\
   AudioFlinger_masterVolume
     (snd (AudioFlinger_setMasterVolume true (fun _ => INVALID_OPERATION)
             0.5%float sample_server_open)) = 0.5%float /\
   th_mMasterVolume <$>
     af_mPlaybackThreads
       (snd (AudioFlinger_setMasterVolume true (fun _ => INVALID_OPERATION)
               0.5%float sample_server_open)) !! 1 = Some 0.5%float).
Proof.
  split.
  - assert (Hok : (fun _ : float => NO_ERROR) 0.5%float = NO_ERROR)
      by reflexivity.
    destruct (C9_setMasterVolume true (fun _ => NO_ERROR) 0.5%float
                sample_server_open) as [Hacc _].
    destruct (Hacc eq_refl Hok) as (_ & _ & Hmv & Hth).
    split; [exact Hok|]. split; [exact Hmv|].
    rewrite (Hth 1). reflexivity.
  - assert (Hrej : (fun _ : float => INVALID_OPERATION) 0.5%float <> NO_ERROR)
      by discriminate.
    destruct (C9_setMasterVolume true (fun _ => INVALID_OPERATION) 0.5%float
                sample_server_open) as (_ & Hr & _).
    destruct (Hr eq_refl Hrej) as (_ & _ & Hmv & Hth).
    split; [exact Hrej|]. split; [exact Hmv|].
    rewrite (Hth 1). reflexivity.
Defined.

(** ** Stream mute (C10) *)

Section StreamMute.
Context `{Headers}.

Lemma stream_set_mute_other (l : list stream_type_t) (i j : Z) (m : bool) :
  Z.to_nat i <> Z.to_nat j ->
  stream_at (stream_set_mute l i m) j = stream_at l j.
Proof.
  intros Hij. unfold stream_at at 1, stream_set_mute.
  rewrite list_lookup_insert_ne by exact Hij. reflexivity.
Qed.

(** C10 (as amended).  With the stream index of an [int], and the
    enumerators in the range of [uint32_t]: for a stream index that is
    negative, at least [NUM_STREAM_TYPES] or equal to
    [ENFORCED_AUDIBLE], [setStreamMute] returns [BAD_VALUE] when the
    caller passes the settings check and [PERMISSION_DENIED] when it
    does not, and in both cases leaves the server, with every playback
    thread, unchanged.  And no call of [setStreamMute] changes the mute
    flag of [ENFORCED_AUDIBLE], in the server or in any playback
    thread. *)
Theorem C10_setStreamMute_refused allowed stream muted af :
  - 2 ^ 31 <= stream < 2 ^ 31 ->
  0 <= NUM_STREAM_TYPES < 2 ^ 32 ->
  0 <= ENFORCED_AUDIBLE < 2 ^ 32 ->
  (stream < 0 \/ NUM_STREAM_TYPES <= stream \/ stream = ENFORCED_AUDIBLE ->
   AudioFlinger_setStreamMute allowed stream muted af
   = (if allowed then BAD_VALUE else PERMISSION_DENIED, af))
  /\
  (let af' := snd (AudioFlinger_setStreamMute allowed stream muted af) in
   st_mute (stream_at (af_mStreamTypes af') ENFORCED_AUDIBLE)
   = st_mute (stream_at (af_mStreamTypes af) ENFORCED_AUDIBLE)
   /\ forall output : Z,
       (fun th => st_mute (stream_at (th_mStreamTypes th) ENFORCED_AUDIBLE))
         <$> af_mPlaybackThreads af' !! output
       = (fun th => st_mute (stream_at (th_mStreamTypes th) ENFORCED_AUDIBLE))
         <$> af_mPlaybackThreads af !! output).
Proof.
  intros Hint Hnum Henf.
  assert (Hwn : wrap32 NUM_STREAM_TYPES = NUM_STREAM_TYPES)
    by (apply wrap32_small; lia).
  assert (Hwe : wrap32 ENFORCED_AUDIBLE = ENFORCED_AUDIBLE)
    by (apply wrap32_small; lia).
  unfold AudioFlinger_setStreamMute. rewrite Hwn, Hwe.
  destruct allowed; cbn [negb]; [|split; [reflexivity | split; reflexivity]].
  destruct (Z.ltb_spec stream 0) as [Hneg|Hpos]; cbn [orb].
  { split; [reflexivity | split; reflexivity]. }
  assert (Hws : wrap32 stream = stream) by (apply wrap32_small; lia).
  rewrite Hws.
  destruct (Z.leb_spec NUM_STREAM_TYPES stream) as [Hge|Hlt]; cbn [orb].
  { split; [reflexivity | split; reflexivity]. }
  destruct (Z.eqb_spec stream ENFORCED_AUDIBLE) as [Heq|Hne].
  { split; [reflexivity | split; reflexivity]. }
  split.
  - intros [Hr | [Hr | Hr]]; [lia | lia | contradiction].
  - cbn [snd af_mStreamTypes af_mPlaybackThreads set_af_mPlaybackThreads
           set_af_mStreamTypes].
    assert (Hidx : Z.to_nat stream <> Z.to_nat ENFORCED_AUDIBLE) by lia.
    split.
    + rewrite stream_set_mute_other by exact Hidx. reflexivity.
    + intros output. rewrite lookup_fmap.
      destruct (af_mPlaybackThreads af !! output) as [th|]; [|reflexivity].
      cbn. rewrite stream_set_mute_other by exact Hidx. reflexivity.
Qed.

End StreamMute.

(** A caller without the settings permission that passes stream -1 gets
    [PERMISSION_DENIED], not [BAD_VALUE]. *)
Lemma C10_setStreamMute_denied_counterexample :
  fst (AudioFlinger_setStreamMute (H := sample_headers) false (-1) true
         sample_server_open) = PERMISSION_DENIED
  /\ PERMISSION_DENIED <> BAD_VALUE.
Proof. split; [reflexivity | discriminate]. Qed.

Lemma C10_setStreamMute_refused_witness :
  (- 2 ^ 31 <= 7 < 2 ^ 31 /\
   0 <= NUM_STREAM_TYPES (Headers := sample_headers) < 2 ^ 32 /\
   0 <= ENFORCED_AUDIBLE (Headers := sample_headers) < 2 ^ 32 /\
   (7 < 0 \/ NUM_STREAM_TYPES (Headers := sample_headers) <= 7
    \/ 7 = ENFORCED_AUDIBLE (Headers := sample_headers)) /\
   AudioFlinger_setStreamMute (H := sample_headers) true 7 true sample_server_open
   = (BAD_VALUE, sample_server_open))
  /\
  (st_mute (stream_at
      (af_mStreamTypes
         (snd (AudioFlinger_setStreamMute (H := sample_headers) true 3 true
                 sample_server_open)))
      (ENFORCED_AUDIBLE (Headers := sample_headers)))
   = st_mute (stream_at (af_mStreamTypes sample_server_open)
                (ENFORCED_AUDIBLE (Headers := sample_headers)))).
Proof.
  assert (Hi7 : - 2 ^ 31 <= 7 < 2 ^ 31) by lia.
  assert (Hi3 : - 2 ^ 31 <= 3 < 2 ^ 31) by lia.
  assert (Hn : 0 <= NUM_STREAM_TYPES (Headers := sample_headers) < 2 ^ 32)
    by (cbn; lia).
  assert (He : 0 <= ENFORCED_AUDIBLE (Headers := sample_headers) < 2 ^ 32)
    by (cbn; lia).
  assert (Hr : 7 < 0 \/ NUM_STREAM_TYPES (Headers := sample_headers) <= 7
               \/ 7 = ENFORCED_AUDIBLE (Headers := sample_headers))
    by (right; right; reflexivity).
  split.
  - repeat (split; [assumption|]).
    exact (proj1 (C10_setStreamMute_refused (H := sample_headers) true 7 true
                    sample_server_open Hi7 Hn He) Hr).
  - exact (proj1 (proj2 (C10_setStreamMute_refused (H := sample_headers) true 3
                           true sample_server_open Hi3 Hn He))).
Defined.

(** ** Endpoint handles (C8) *)

Section Handles.
Context `{Headers}.

(** When the hardware interface opens no stream, even at the second
    attempt, [openInput] returns [mNextThreadId] as it stands and
    registers nothing. *)
Lemma openInput_not_created openInputStream popCount p acoustics af devices :
  pDevices p = Some devices ->
  devices <> 0 ->
  (forall k format channels' rate,
      hw_stream (openInputStream k devices format channels' rate) = 0) ->
  let '(handle, _, af') :=
    AudioFlinger_openInput openInputStream popCount p acoustics af in
  handle = af_mNextThreadId af /\
  af_mRecordThreads af' = af_mRecordThreads af.
Proof.
  intros Hp Hd Hs. unfold AudioFlinger_openInput. rewrite Hp.
  destruct (Z.eqb_spec devices 0) as [Hz|_]; [contradiction|].
  match goal with
  | |- context [if ?b then openInputStream 1%nat _ _ _ _ else _] => destruct b
  end; rewrite Hs; cbn; split; reflexivity.
Qed.

(** When [openOutput] creates an endpoint, the handle is the successor
    of [mNextThreadId] and the registry maps it to the new thread. *)
Lemma openOutput_created openOutputStream newThread p flags af devices :
  pDevices p = Some devices ->
  devices <> 0 ->
  hw_stream (openOutputStream devices (default 0 (pFormat p))
               (default 0 (pChannels p)) (default 0 (pSamplingRate p))) <> 0 ->
  - 2 ^ 31 <= af_mNextThreadId af < 2 ^ 31 - 1 ->
  let '(handle, _, af') :=
    AudioFlinger_openOutput openOutputStream newThread p flags af in
  handle = af_mNextThreadId af + 1 /\
  af_mNextThreadId af' = handle /\
  is_Some (af_mPlaybackThreads af' !! handle).
Proof.
  intros Hp Hd Hs Hn. unfold AudioFlinger_openOutput. rewrite Hp.
  destruct (Z.eqb_spec devices 0) as [Hz|_]; [contradiction|].
  destruct (Z.eqb_spec
              (hw_stream (openOutputStream devices (default 0 (pFormat p))
                            (default 0 (pChannels p))
                            (default 0 (pSamplingRate p)))) 0) as [Hz|_];
    [contradiction|].
  cbn [negb af_mNextThreadId set_af_mNextThreadId set_af_mHardwareStatus
         set_af_mPlaybackThreads af_mPlaybackThreads].
  rewrite wrap32s_small by lia.
  split; [reflexivity|]. split; [reflexivity|].
  rewrite lookup_insert_eq. eexists. reflexivity.
Qed.

(** When the hardware interface opens no stream, [openOutput] returns
    [mNextThreadId] as it stands and registers nothing. *)
Lemma openOutput_not_created openOutputStream newThread p flags af devices :
  pDevices p = Some devices ->
  devices <> 0 ->
  hw_stream (openOutputStream devices (default 0 (pFormat p))
               (default 0 (pChannels p)) (default 0 (pSamplingRate p))) = 0 ->
  let '(handle, _, af') :=
    AudioFlinger_openOutput openOutputStream newThread p flags af in
  handle = af_mNextThreadId af /\
  af_mPlaybackThreads af' = af_mPlaybackThreads af.
Proof.
  intros Hp Hd Hs. unfold AudioFlinger_openOutput. rewrite Hp.
  destruct (Z.eqb_spec devices 0) as [Hz|_]; [contradiction|].
  rewrite Hs. cbn. split; reflexivity.
Qed.

End Handles.

(** C8, at the failing input.  On a server whose only endpoint has
    handle 1, [openOutput] on a device for which the hardware interface
    opens no stream creates no endpoint and returns 1, the handle of
    the endpoint opened before. *)
Theorem C8_openOutput_returns_stale_handle :
  let p := mkOpenParams (Some 4) None None None None in
  let r := AudioFlinger_openOutput (H := sample_headers)
             sample_openOutputStream sample_newThread p 0 sample_server_open in
  hw_stream (sample_openOutputStream 4 0 0 0) = 0 /\
  af_mPlaybackThreads (snd r) = af_mPlaybackThreads sample_server_open /\
  fst (fst r) = 1 /\
  af_mPlaybackThreads sample_server_open !! 1
  = Some (sample_newThread MIXER (sample_openOutputStream 2 0 0 0)).
Proof. cbv zeta. repeat split. Qed.

(** ** Flush (C2) *)

Section Flush.
Context `{Headers}.

(** C2 (as amended).  For a track in state STOPPED, PAUSED or PAUSING
    whose thread is alive, [flush()] sets the state to STOPPED; when the
    track has not been reset since it was last added to the active list
    it also zeroes the four cursors, sets the flow-control flag, clears
    [forceReady] and restores the FILLING status; when [mResetDone] is
    already set it changes nothing but the state.  For a track in any
    other state, or whose thread is gone, [flush()] leaves the track
    unchanged. *)
Theorem C2_flush thread t :
  (thread = true ->
   state t = STOPPED \/ state t = PAUSED \/ state t = PAUSING ->
   mResetDone t = false ->
   let t' := Track_flush thread t in
   state t' = STOPPED /\
   user (cblk t') = 0 /\ userBase (cblk t') = 0 /\
   server (cblk t') = 0 /\ serverBase (cblk t') = 0 /\
   flowControlFlag (cblk t') = 1 /\ forceReady (cblk t') = 0 /\
   mFillingUpStatus t' = FS_FILLING /\ mResetDone t' = true)
  /\
  (thread = true ->
   state t = STOPPED \/ state t = PAUSED \/ state t = PAUSING ->
   mResetDone t = true ->
   Track_flush thread t = with_state STOPPED t)
  /\
  (thread = false \/
   (state t <> STOPPED /\ state t <> PAUSED /\ state t <> PAUSING) ->
   Track_flush thread t = t).
Proof.
  unfold Track_flush, Track_reset, state, with_state.
  destruct t as [b mu fs rc sh rd ty nm vl vr].
  destruct b as [c bf be fc st tid fmt fl]. cbn.
  split; [|split].
  - intros -> Hst ->. destruct Hst as [-> | [-> | ->]]; cbn; repeat split.
  - intros -> Hst ->. destruct Hst as [-> | [-> | ->]]; reflexivity.
  - intros [-> | (H1 & H2 & H3)]; [reflexivity|].
    destruct thread; [|reflexivity].
    destruct st; try reflexivity; contradiction.
Qed.

End Flush.

(** A stopped track that was reset by the mixer thread and then written
    to: [flush()] leaves [user] at 3 while [userBase] is 0. *)
Lemma C2_flush_after_reset_counterexample :
  let t := sample_track_written_after_reset in
  state t = STOPPED /\
  user (cblk (Track_flush (H := sample_headers) true t)) = 3 /\
  userBase (cblk (Track_flush (H := sample_headers) true t)) = 0 /\
  3 <> 0.
Proof. cbv zeta. repeat split. lia. Qed.

Lemma C2_flush_witness :
  let t := sample_track PAUSED FS_ACTIVE false 3 1 in
  (true = true /\
   (state t = STOPPED \/ state t = PAUSED \/ state t = PAUSING) /\
   mResetDone t = false /\
   state (Track_flush (H := sample_headers) true t) = STOPPED /\
   user (cblk (Track_flush (H := sample_headers) true t)) = 0 /\
   server (cblk (Track_flush (H := sample_headers) true t)) = 0)
  /\
  (let t := sample_track_written_after_reset in
   mResetDone t = true /\
   Track_flush (H := sample_headers) true t = with_state STOPPED t)
  /\
  (let t := sample_track ACTIVE FS_ACTIVE false 3 1 in
   (state t <> STOPPED /\ state t <> PAUSED /\ state t <> PAUSING) /\
   Track_flush (H := sample_headers) true t = t).
Proof.
  cbv zeta. split; [|split].
  - assert (Hth : true = true) by reflexivity.
    assert (Hst : state (sample_track PAUSED FS_ACTIVE false 3 1) = STOPPED
                  \/ state (sample_track PAUSED FS_ACTIVE false 3 1) = PAUSED
                  \/ state (sample_track PAUSED FS_ACTIVE false 3 1) = PAUSING)
      by (right; left; reflexivity).
    assert (Hrd : mResetDone (sample_track PAUSED FS_ACTIVE false 3 1) = false)
      by reflexivity.
    destruct (proj1 (C2_flush (H := sample_headers) true
                       (sample_track PAUSED FS_ACTIVE false 3 1)) Hth Hst Hrd)
      as (H1 & H2 & _ & H4 & _).
    repeat (split; [assumption|]). exact H4.
  - assert (Hth : true = true) by reflexivity.
    assert (Hst : state sample_track_written_after_reset = STOPPED
                  \/ state sample_track_written_after_reset = PAUSED
                  \/ state sample_track_written_after_reset = PAUSING)
      by (left; reflexivity).
    assert (Hrd : mResetDone sample_track_written_after_reset = true)
      by reflexivity.
    split; [exact Hrd|].
    exact (proj1 (proj2 (C2_flush (H := sample_headers) true
                           sample_track_written_after_reset)) Hth Hst Hrd).
  - assert (Hst : state (sample_track ACTIVE FS_ACTIVE false 3 1) <> STOPPED
                  /\ state (sample_track ACTIVE FS_ACTIVE false 3 1) <> PAUSED
                  /\ state (sample_track ACTIVE FS_ACTIVE false 3 1) <> PAUSING)
      by (repeat split; discriminate).
    split; [exact Hst|].
    exact (proj2 (proj2 (C2_flush (H := sample_headers) true
                           (sample_track ACTIVE FS_ACTIVE false 3 1)))
             (or_intror Hst)).
Defined.

(** ** The buffer provider of a playback track (C4) *)

Section GetNextBuffer.
Context `{Headers}.

Lemma TrackBase_getBuffer_nonnull b offset frames :
  TrackBase_getBuffer b offset frames <> 0 ->
  mBuffer b <= TrackBase_getBuffer b offset frames /\
  wrap32 (TrackBase_getBuffer b offset frames
          + wrap32 (frames * frameSize (mCblk b))) <= mBufferEnd b.
Proof.
  unfold TrackBase_getBuffer.
  set (bufferStart := wrap32 (mBuffer b + _)).
  set (bufferEnd := wrap32 (bufferStart + _)).
  destruct (Z.ltb_spec bufferStart (mBuffer b)); cbn [orb]; [congruence|].
  destruct (Z.ltb_spec bufferEnd bufferStart); cbn [orb]; [congruence|].
  destruct (Z.ltb_spec (mBufferEnd b) bufferEnd); cbn [orb]; [congruence|].
  destruct (negb _); [congruence|]. intros _. lia.
Qed.

(** The part of [getNextBuffer] that follows the recovery of a failed
    [stepServer]: on a well-formed control block it either fails with a
    null buffer or returns a count within the three bounds. *)
Lemma getNextBuffer_fetch_bounds (t : Track) (n : Z) status buffer :
  let c := cblk t in
  0 <= n ->
  0 <= server c <= user c -> user c < 2 ^ 32 ->
  0 <= serverBase c + frameCount c < 2 ^ 32 ->
  server c <= serverBase c + frameCount c ->
  server c <= loopEnd c ->
  (let framesReady' := framesReady c in
   if negb (framesReady' =? 0) then
     let s := server c in
     let bufferEnd := wrap32 (serverBase c + frameCount c) in
     let bufferEnd := if loopEnd c <? bufferEnd then loopEnd c else bufferEnd in
     let framesReq := if framesReady' <? n then framesReady' else n in
     let framesReq := if bufferEnd <? wrap32 (s + framesReq)
                      then wrap32 (bufferEnd - s) else framesReq in
     let raw' := TrackBase_getBuffer (base t) s framesReq in
     if raw' =? 0 then (NOT_ENOUGH_DATA, mkBuffer 0 0, t)
     else (NO_ERROR, mkBuffer raw' framesReq, t)
   else (NOT_ENOUGH_DATA, mkBuffer 0 0, t)) = (status, buffer, t) ->
  (status = NO_ERROR /\ raw buffer <> 0 /\
   0 <= buf_frameCount buffer <= n /\
   buf_frameCount buffer <= user c - server c /\
   server c + buf_frameCount buffer
     <= Z.min (serverBase c + frameCount c) (loopEnd c) /\
   mBuffer (base t) <= raw buffer /\
   wrap32 (raw buffer + wrap32 (buf_frameCount buffer * frameSize c))
     <= mBufferEnd (base t))
  \/ (status = NOT_ENOUGH_DATA /\ raw buffer = 0 /\ buf_frameCount buffer = 0).
Proof.
  intros c Hn Hsu Hu Hend Hs Hloop. cbv zeta.
  assert (Hfr : framesReady c = user c - server c).
  { unfold framesReady. apply wrap32_small. lia. }
  rewrite Hfr.
  rewrite (wrap32_small (serverBase c + frameCount c)) by lia.
  destruct (Z.eqb_spec (user c - server c) 0) as [Hz|Hnz]; cbn [negb].
  { intros [= <- <-]. right. repeat split. }
  set (bufferEnd := if loopEnd c <? serverBase c + frameCount c
                    then loopEnd c else serverBase c + frameCount c).
  assert (HbE : bufferEnd = Z.min (serverBase c + frameCount c) (loopEnd c)).
  { unfold bufferEnd. destruct (Z.ltb_spec (loopEnd c) (serverBase c + frameCount c)); lia. }
  set (req1 := if user c - server c <? n then user c - server c else n).
  assert (Hreq1 : 0 <= req1 <= n /\ req1 <= user c - server c).
  { unfold req1. destruct (Z.ltb_spec (user c - server c) n); lia. }
  rewrite (wrap32_small (server c + req1)) by lia.
  set (req := if bufferEnd <? server c + req1
              then wrap32 (bufferEnd - server c) else req1).
  assert (Hreq : 0 <= req <= n /\ req <= user c - server c
                 /\ server c + req <= bufferEnd).
  { unfold req. destruct (Z.ltb_spec bufferEnd (server c + req1)).
    - rewrite wrap32_small by lia. lia.
    - lia. }
  destruct (Z.eqb_spec (TrackBase_getBuffer (base t) (server c) req) 0)
    as [Hnull|Hnn].
  { intros [= <- <-]. right. repeat split. }
  intros [= <- <-]. left. cbn [raw buf_frameCount].
  pose proof (TrackBase_getBuffer_nonnull (base t) (server c) req Hnn) as [Hlo Hhi].
  repeat split; try lia; try assumption.
Qed.

(** C4 (as amended).  On a control block that is well formed when the frames are
    fetched (cursors within 32 bits, [server] not past [user], not past
    the end of the ring and not past [loopEnd]), [getNextBuffer] with
    requested count [n] either succeeds with a non-null address inside
    the track's buffer and a frame count that is at most [n], at most
    [user - server], and does not go past
    [min (serverBase + frameCount) loopEnd]; or it fails with
    [NOT_ENOUGH_DATA], a null address and frame count zero.  It fails
    whenever no frames are ready and whenever a pending [stepServer]
    failure is not recovered. *)
Theorem C4_getNextBuffer stepServer (t : Track) (n : Z) status buffer t' :
  Track_getNextBuffer stepServer t n = (status, buffer, t') ->
  0 <= n ->
  0 <= server (cblk t') <= user (cblk t') -> user (cblk t') < 2 ^ 32 ->
  0 <= serverBase (cblk t') + frameCount (cblk t') < 2 ^ 32 ->
  server (cblk t') <= serverBase (cblk t') + frameCount (cblk t') ->
  server (cblk t') <= loopEnd (cblk t') ->
  ((status = NO_ERROR /\ raw buffer <> 0 /\
    0 <= buf_frameCount buffer <= n /\
    buf_frameCount buffer <= user (cblk t') - server (cblk t') /\
    server (cblk t') + buf_frameCount buffer
      <= Z.min (serverBase (cblk t') + frameCount (cblk t')) (loopEnd (cblk t')) /\
    mBuffer (base t') <= raw buffer /\
    wrap32 (raw buffer + wrap32 (buf_frameCount buffer * frameSize (cblk t')))
      <= mBufferEnd (base t'))
   \/ (status = NOT_ENOUGH_DATA /\ raw buffer = 0 /\ buf_frameCount buffer = 0))
  /\ (framesReady (cblk t') = 0 -> status = NOT_ENOUGH_DATA)
  /\ (Z.land (mFlags (base t)) STEPSERVER_FAILED <> 0 ->
      stepServer (cblk t) (mFrameCount (base t)) = None ->
      status = NOT_ENOUGH_DATA).
Proof.
  unfold Track_getNextBuffer, TrackBase_step.
  intros Hcall Hn Hsu Hu Hend Hs Hloop.
  destruct (Z.eqb_spec (Z.land (mFlags (base t)) STEPSERVER_FAILED) 0)
    as [Hflag|Hflag]; cbn [negb] in Hcall.
  - (* no pending failure *)
    assert (Ht : t' = t).
    { revert Hcall. cbv zeta.
      destruct (negb _); [destruct (_ =? 0)|]; intros [= _ _ <-]; reflexivity. }
    subst t'. split; [|split].
    + eapply getNextBuffer_fetch_bounds; eauto.
    + intros Hz. revert Hcall. cbv zeta. rewrite Hz. cbn.
      intros [= <- _]. reflexivity.
    + intros Hnz. contradiction.
  - destruct (stepServer (cblk t) (mFrameCount (base t))) as [c'|] eqn:Hstep;
      unfold cblk in Hstep; rewrite Hstep in Hcall.
    + (* the step is recovered *)
      set (t1 := set_base _ t) in Hcall.
      assert (Ht : t' = t1).
      { revert Hcall. cbv zeta.
        destruct (negb _); [destruct (_ =? 0)|]; intros [= _ _ <-]; reflexivity. }
      subst t'. split; [|split].
      * eapply getNextBuffer_fetch_bounds; eauto.
      * intros Hz. revert Hcall. cbv zeta. rewrite Hz. cbn.
        intros [= <- _]. reflexivity.
      * intros _ Hnone. discriminate.
    + injection Hcall as <- <- <-.
      split; [right; repeat split|]. split; intros; reflexivity.
Qed.

End GetNextBuffer.

Lemma C4_getNextBuffer_witness :
  let t := sample_track ACTIVE FS_ACTIVE false 3 1 in
  let stepServer := fun (_ : audio_track_cblk_t) (_ : Z) =>
                      @None audio_track_cblk_t in
  Track_getNextBuffer (H := sample_headers) stepServer t 4
  = (NO_ERROR, mkBuffer 4164 2, t) /\
  0 <= 4 /\
  0 <= server (cblk t) <= user (cblk t) /\ user (cblk t) < 2 ^ 32 /\
  0 <= serverBase (cblk t) + frameCount (cblk t) < 2 ^ 32 /\
  server (cblk t) <= serverBase (cblk t) + frameCount (cblk t) /\
  server (cblk t) <= loopEnd (cblk t) /\
  ((NO_ERROR = NO_ERROR /\ 4164 <> 0 /\
    0 <= 2 <= 4 /\
    2 <= user (cblk t) - server (cblk t) /\
    server (cblk t) + 2
      <= Z.min (serverBase (cblk t) + frameCount (cblk t)) (loopEnd (cblk t)) /\
    mBuffer (base t) <= 4164 /\
    wrap32 (4164 + wrap32 (2 * frameSize (cblk t))) <= mBufferEnd (base t))
   \/ (NO_ERROR = NOT_ENOUGH_DATA /\ 4164 = 0 /\ 2 = 0)).
Proof.
  cbv zeta.
  set (t := sample_track ACTIVE FS_ACTIVE false 3 1).
  set (stepServer := fun (_ : audio_track_cblk_t) (_ : Z) =>
                       @None audio_track_cblk_t).
  assert (Hcall : Track_getNextBuffer (H := sample_headers) stepServer t 4
                  = (NO_ERROR, mkBuffer 4164 2, t)) by reflexivity.
  assert (Hn : 0 <= 4) by lia.
  assert (Hsu : 0 <= server (cblk t) <= user (cblk t)) by (cbn; lia).
  assert (Hu : user (cblk t) < 2 ^ 32) by (cbn; lia).
  assert (He : 0 <= serverBase (cblk t) + frameCount (cblk t) < 2 ^ 32)
    by (cbn; lia).
  assert (Hs : server (cblk t) <= serverBase (cblk t) + frameCount (cblk t))
    by (cbn; lia).
  assert (Hl : server (cblk t) <= loopEnd (cblk t)) by (cbn; lia).
  repeat (split; [assumption|]).
  exact (proj1 (C4_getNextBuffer (H := sample_headers) stepServer t 4 NO_ERROR
                  (mkBuffer 4164 2) t Hcall Hn Hsu Hu He Hs Hl)).
Defined.

(** C4, without the well-formedness of the control block.  When the end
    of the ring wraps around 32 bits ([serverBase + frameCount] is
    [2^32]), a request for one frame with two frames ready is answered
    with [NO_ERROR] and three frames.  When [loopEnd] lies before
    [server], a request for one frame with two frames ready is answered
    with [NO_ERROR] and [loopEnd - server] reduced modulo [2^32]. *)
Lemma C4_malformed_cblk_counterexample :
  let stepServer := fun (_ : audio_track_cblk_t) (_ : Z) =>
                      @None audio_track_cblk_t in
  (let t := sample_track_at (2 ^ 32 - 1) (2 ^ 32 - 3) (2 ^ 32 - 4) (2 ^ 32 - 1) in
   framesReady (cblk t) = 2 /\
   Track_getNextBuffer (H := sample_headers) stepServer t 1
   = (NO_ERROR, mkBuffer 4164 3, t) /\
   ~ (3 <= 1) /\ ~ (3 <= framesReady (cblk t)))
  /\
  (let t := sample_track_at (2 ^ 30 + 3) (2 ^ 30 + 1) (2 ^ 30) 2 in
   framesReady (cblk t) = 2 /\
   Z.min (serverBase (cblk t) + frameCount (cblk t)) (loopEnd (cblk t)) = 2 /\
   Track_getNextBuffer (H := sample_headers) stepServer t 1
   = (NO_ERROR, mkBuffer 4164 3221225473, t) /\
   ~ (3221225473 <= 1) /\ ~ (3221225473 <= framesReady (cblk t)) /\
   ~ (server (cblk t) + 3221225473
      <= Z.min (serverBase (cblk t) + frameCount (cblk t)) (loopEnd (cblk t)))).
Proof.
  cbv zeta. split.
  - split; [reflexivity|]. split; [reflexivity|].
    split; [lia|]. vm_compute. intros Hle. apply Hle. reflexivity.
  - split; [reflexivity|]. split; [reflexivity|]. split; [reflexivity|].
    split; [lia|].
    split; vm_compute; intros Hle; apply Hle; reflexivity.
Qed.

(** ** The loops of [prepareTracks_l] *)

Section PrepareLoops.
Context `{Headers}.

Lemma prepare_step_other th acc j id :
  j <> id ->
  acc_tracks (prepare_step th acc j) !! id = acc_tracks acc !! id /\
  (id ∈ acc_remove (prepare_step th acc j) <-> id ∈ acc_remove acc).
Proof.
  intros Hne. unfold prepare_step.
  destruct (acc_tracks acc !! j) as [t|]; [|split; reflexivity].
  cbn. split.
  - apply lookup_insert_ne. exact Hne.
  - destruct (p_remove (prepareTrack th j t)); [|reflexivity].
    rewrite elem_of_app, list_elem_of_singleton. intuition congruence.
Qed.

Lemma prepare_fold_other th l : forall acc id,
  id ∉ l ->
  acc_tracks (fold_left (prepare_step th) l acc) !! id = acc_tracks acc !! id /\
  (id ∈ acc_remove (fold_left (prepare_step th) l acc) <-> id ∈ acc_remove acc).
Proof.
  induction l as [|j l IH]; intros acc id Hnot; cbn [fold_left].
  - split; reflexivity.
  - apply not_elem_of_cons in Hnot as [Hne Hnot].
    destruct (IH (prepare_step th acc j) id Hnot) as [IH1 IH2].
    destruct (prepare_step_other th acc j id (not_eq_sym Hne)) as [S1 S2].
    split; [congruence | tauto].
Qed.

Lemma prepare_fold_member th l : forall acc id t,
  NoDup l -> id ∈ l ->
  acc_tracks acc !! id = Some t ->
  id ∉ acc_remove acc ->
  acc_tracks (fold_left (prepare_step th) l acc) !! id
  = Some (p_track (prepareTrack th id t)) /\
  (id ∈ acc_remove (fold_left (prepare_step th) l acc)
   <-> p_remove (prepareTrack th id t) = true).
Proof.
  induction l as [|j l IH]; intros acc id t Hnd Hin Hlook Hrm; cbn [fold_left].
  - apply elem_of_nil in Hin. contradiction.
  - apply NoDup_cons in Hnd as [Hj Hnd].
    apply elem_of_cons in Hin as [-> | Hin].
    + destruct (prepare_fold_other th l (prepare_step th acc j) j Hj) as [F1 F2].
      rewrite F1, F2. unfold prepare_step. rewrite Hlook. cbn.
      split; [apply lookup_insert_eq|].
      destruct (p_remove (prepareTrack th j t)).
      * rewrite elem_of_app, list_elem_of_singleton. tauto.
      * split; [contradiction | discriminate].
    + assert (Hne : j <> id) by (intros ->; contradiction).
      destruct (prepare_step_other th acc j id Hne) as [S1 S2].
      apply IH; [assumption | assumption | congruence | tauto].
Qed.

Lemma sv_remove_elem (x id : nat) (l : list nat) :
  id ∈ sv_remove x l <-> id ∈ l /\ id <> x.
Proof. unfold sv_remove. rewrite list_elem_of_filter. tauto. Qed.

Lemma remove_step_active tracks s x id :
  id ∈ th_mActiveTracks (fst (remove_step tracks s x))
  <-> id ∈ th_mActiveTracks (fst s) /\ id <> x.
Proof.
  destruct s as [th calls]. unfold remove_step.
  destruct (tracks !! x) as [t|]; [destruct (isTerminated t)|];
    cbn; apply sv_remove_elem.
Qed.

Lemma remove_fold_active tracks rm : forall s id,
  id ∈ th_mActiveTracks (fst (fold_left (remove_step tracks) rm s))
  <-> id ∈ th_mActiveTracks (fst s) /\ id ∉ rm.
Proof.
  induction rm as [|x rm IH]; intros s id; cbn [fold_left].
  - rewrite elem_of_nil. tauto.
  - rewrite IH, remove_step_active, not_elem_of_cons. tauto.
Qed.

(** What one pass does to a track of the active list. *)
Lemma prepareTracks_l_track th tracks id t :
  NoDup (th_mActiveTracks th) ->
  id ∈ th_mActiveTracks th ->
  tracks !! id = Some t ->
  let '(th', tracks', _, _, _) := MixerThread_prepareTracks_l th tracks in
  tracks' !! id = Some (p_track (prepareTrack th id t)) /\
  (id ∈ th_mActiveTracks th' <-> p_remove (prepareTrack th id t) = false).
Proof.
  intros Hnd Hin Hlook. unfold MixerThread_prepareTracks_l.
  set (acc := fold_left (prepare_step th) (th_mActiveTracks th) _).
  destruct (prepare_fold_member th (th_mActiveTracks th)
              (mkPrepareAcc tracks [] 0 []) id t Hnd Hin Hlook
              (not_elem_of_nil id)) as [M1 M2].
  fold acc in M1, M2.
  pose proof (remove_fold_active (acc_tracks acc) (acc_remove acc)
                (th, acc_calls acc) id) as R.
  destruct (fold_left (remove_step (acc_tracks acc)) (acc_remove acc)
              (th, acc_calls acc)) as [th' calls].
  cbn [fst] in R. split; [exact M1|].
  rewrite R, M2. destruct (p_remove (prepareTrack th id t)); intuition congruence.
Qed.

End PrepareLoops.

(** ** Retry and eviction (C3) *)

Section Retry.
Context `{Headers}.

Lemma Track_isReady_state t : state (snd (Track_isReady t)) = state t.
Proof.
  unfold Track_isReady.
  destruct (negb _); [reflexivity|]. destruct (_ || _); reflexivity.
Qed.

Lemma Track_isReady_false t : fst (Track_isReady t) = false -> snd (Track_isReady t) = t.
Proof.
  unfold Track_isReady.
  destruct (negb _); [discriminate|]. destruct (_ || _); [discriminate|].
  reflexivity.
Qed.

(** A track that fails the test and is not paused is left as it is by
    the test. *)
Lemma mix_condition_false t :
  fst (mix_condition t) = false -> state t <> PAUSED ->
  snd (mix_condition t) = t.
Proof.
  unfold mix_condition. intros Hf Hp.
  destruct (negb (framesReady (cblk t) =? 0)); [|reflexivity].
  pose proof (Track_isReady_state t) as Hst.
  pose proof (Track_isReady_false t) as Hfalse.
  destruct (Track_isReady t) as [r t1]. cbn [fst snd] in *.
  assert (Hnp : isPaused t1 = false).
  { unfold isPaused. apply bool_decide_eq_false_2. congruence. }
  rewrite Hnp, andb_true_r in Hf.
  apply orb_false_elim in Hf as [-> _]. auto.
Qed.

(** An empty pull: the retry count goes down by one, and the track is
    put on [tracksToRemove] exactly when the count reaches zero. *)
Lemma prepareTrack_empty_pull th id t :
  state t <> TERMINATED -> state t <> STOPPED -> state t <> PAUSED ->
  fst (mix_condition t) = false ->
  p_track (prepareTrack th id t)
  = set_mRetryCount (wrap8s (mRetryCount t - 1)) t /\
  p_remove (prepareTrack th id t) = (wrap8s (mRetryCount t - 1) <=? 0).
Proof.
  intros Ht Hs Hp Hf. unfold prepareTrack.
  pose proof (mix_condition_false t Hf Hp) as Hsame.
  destruct (mix_condition t) as [go t1]. cbn [fst snd] in *. subst go t1.
  unfold isStopped, isTerminated, isPaused.
  rewrite (bool_decide_eq_false_2 _ Hs). cbv beta iota.
  rewrite (bool_decide_eq_false_2 _ Hs), (bool_decide_eq_false_2 _ Ht),
    (bool_decide_eq_false_2 _ Hp).
  cbn [orb]. destruct (_ || _); split; reflexivity.
Qed.

(** A successful mix: the retry count is set to [kMaxTrackRetries] and
    the track stays. *)
Lemma prepareTrack_mixed th id t :
  fst (mix_condition t) = true ->
  mRetryCount (p_track (prepareTrack th id t)) = kMaxTrackRetries /\
  p_remove (prepareTrack th id t) = false /\
  p_enabled (prepareTrack th id t) = true.
Proof.
  intros Hgo. unfold prepareTrack.
  destruct (mix_condition t) as [go t1]. cbn [fst] in Hgo. subst go.
  destruct (_ || _ || _ || _); destruct (bool_decide (mFillingUpStatus _ = _));
    try destruct (bool_decide (state _ = RESUMING)); repeat split.
Qed.

Lemma empty_pulls_count id n s0 s : forall t0,
  empty_pulls id n s0 s ->
  s0.2 !! id = Some t0 ->
  id ∈ th_mActiveTracks s0.1 ->
  1 <= mRetryCount t0 <= 127 ->
  Z.of_nat n <= mRetryCount t0 /\
  (exists t, s.2 !! id = Some t /\ mRetryCount t = mRetryCount t0 - Z.of_nat n) /\
  (id ∈ th_mActiveTracks s.1 <-> Z.of_nat n < mRetryCount t0).
Proof.
  intros t0 Hrun. induction Hrun as
    [s | n s0 th1 tracks1 th2 tracks2 t1 t2 Hrun IH Hl1 Hl2 Hrc Hact Hnd Hin
         Hter Hsto Hpau Hmix];
    intros Hl0 Hin0 Hr0.
  - split; [lia|]. split; [exists t0; split; [assumption | lia]|].
    split; [lia | intros _; assumption].
  - destruct (IH Hl0 Hin0 Hr0) as (Hn & (t & Hlt & Hcount) & Hmem).
    cbn [fst snd] in Hlt, Hmem.
    assert (t = t1) by congruence. subst t.
    assert (Hlt1 : Z.of_nat n < mRetryCount t0) by (apply Hmem, Hact, Hin).
    pose proof (prepareTracks_l_track th2 tracks2 id t2 Hnd Hin Hl2) as Hpass.
    destruct (prepareTrack_empty_pull th2 id t2 Hter Hsto Hpau Hmix) as [Htr Hrm].
    unfold mixer_pass. cbn [fst snd].
    destruct (MixerThread_prepareTracks_l th2 tracks2) as [[[[th' tracks'] c] r] e].
    destruct Hpass as [Hl' Hact']. cbn [fst snd].
    rewrite Htr in Hl'. rewrite Hrm in Hact'.
    rewrite wrap8s_small in Hl', Hact' by (cbn; lia).
    split; [lia|]. split.
    + eexists. split; [exact Hl'|]. cbn. lia.
    + rewrite Hact'. rewrite Z.leb_gt. lia.
Qed.

(** C3 (as amended).  Over consecutive passes of the mixer thread in
    which an active track, neither terminated nor stopped nor paused,
    fails the test for mixing, the retry count goes down by one per
    pass and the track leaves the active list at the pass that brings
    the count to zero: after [n] such passes from a count [r] the count
    is [r - n], the track is still active when [n < r] and is not when
    [n = r], and there is no further such pass.  [addTrack_l] sets the
    count to [kMaxTrackStartupRetries], a pass that mixes the track
    sets it to [kMaxTrackRetries], and the two budgets are equal
    (both 50). *)
Theorem C3_retry_eviction id n th0 tracks0 t0 s :
  empty_pulls id n (th0, tracks0) s ->
  tracks0 !! id = Some t0 ->
  id ∈ th_mActiveTracks th0 ->
  1 <= mRetryCount t0 <= 127 ->
  (Z.of_nat n <= mRetryCount t0 /\
   (exists t, s.2 !! id = Some t /\ mRetryCount t = mRetryCount t0 - Z.of_nat n) /\
   (id ∈ th_mActiveTracks s.1 <-> Z.of_nat n < mRetryCount t0))
  /\ (forall th t,
        mRetryCount (snd (PlaybackThread_addTrack_l th id t))
        = kMaxTrackStartupRetries)
  /\ (forall th t,
        fst (mix_condition t) = true ->
        mRetryCount (p_track (prepareTrack th id t)) = kMaxTrackRetries /\
        p_remove (prepareTrack th id t) = false)
  /\ kMaxTrackStartupRetries = kMaxTrackRetries
  /\ kMaxTrackRetries = 50.
Proof.
  intros Hrun Hl0 Hin0 Hr0. split; [|split; [|split; [|split]]].
  - exact (empty_pulls_count id n (th0, tracks0) s t0 Hrun Hl0 Hin0 Hr0).
  - intros th t. unfold PlaybackThread_addTrack_l.
    destruct (negb _); reflexivity.
  - intros th t Hgo.
    destruct (prepareTrack_mixed th id t Hgo) as (H1 & H2 & _). auto.
  - reflexivity.
  - reflexivity.
Qed.

End Retry.

(** The start-up budget is not larger than the steady-state budget. *)
Lemma C3_startup_budget_counterexample :
  ~ (kMaxTrackRetries < kMaxTrackStartupRetries).
Proof. unfold kMaxTrackRetries, kMaxTrackStartupRetries. lia. Qed.

Lemma sample_empty_pull retry n s :
  empty_pulls (H := sample_headers) 1 n (sample_waiting_state retry) s ->
  s.1 = sample_active_thread ->
  (exists r, s.2 = {[1%nat := sample_waiting_track r]}) ->
  empty_pulls (H := sample_headers) 1 (S n) (sample_waiting_state retry)
    (mixer_pass (H := sample_headers) s).
Proof.
  intros Hrun Hth [r Htr]. destruct s as [th tracks]. cbn in Hth, Htr. subst.
  eapply (empty_pulls_S (H := sample_headers) 1 n _ sample_active_thread _
            sample_active_thread _ (sample_waiting_track r)
            (sample_waiting_track r) Hrun).
  - reflexivity.
  - reflexivity.
  - reflexivity.
  - reflexivity.
  - apply NoDup_singleton.
  - apply list_elem_of_singleton. reflexivity.
  - discriminate.
  - discriminate.
  - discriminate.
  - reflexivity.
Qed.

Lemma C3_retry_eviction_witness :
  let s0 := sample_waiting_state 2 in
  let s1 := mixer_pass (H := sample_headers) s0 in
  let s2 := mixer_pass (H := sample_headers) s1 in
  empty_pulls (H := sample_headers) 1 2 s0 s2 /\
  s0.2 !! 1%nat = Some (sample_waiting_track 2) /\
  1%nat ∈ th_mActiveTracks s0.1 /\
  1 <= mRetryCount (sample_waiting_track 2) <= 127 /\
  1%nat ∈ th_mActiveTracks s1.1 /\
  ~ 1%nat ∈ th_mActiveTracks s2.1.
Proof.
  cbv zeta.
  set (s0 := sample_waiting_state 2).
  set (s1 := mixer_pass (H := sample_headers) s0).
  set (s2 := mixer_pass (H := sample_headers) s1).
  assert (Hrun1 : empty_pulls (H := sample_headers) 1 1 s0 s1).
  { apply sample_empty_pull; [apply empty_pulls_O | reflexivity |].
    exists 2. reflexivity. }
  assert (Hrun2 : empty_pulls (H := sample_headers) 1 2 s0 s2).
  { apply sample_empty_pull; [exact Hrun1 | reflexivity |].
    exists 1. reflexivity. }
  assert (Hl0 : s0.2 !! 1%nat = Some (sample_waiting_track 2)) by reflexivity.
  assert (Hin0 : 1%nat ∈ th_mActiveTracks s0.1)
    by (apply list_elem_of_singleton; reflexivity).
  assert (Hr0 : 1 <= mRetryCount (sample_waiting_track 2) <= 127) by (cbn; lia).
  split; [exact Hrun2|]. split; [exact Hl0|]. split; [exact Hin0|].
  split; [exact Hr0|].
  destruct (C3_retry_eviction (H := sample_headers) 1 1 sample_active_thread
              {[1%nat := sample_waiting_track 2]} (sample_waiting_track 2) s1
              Hrun1 Hl0 Hin0 Hr0) as ((_ & _ & Hact1) & _).
  destruct (C3_retry_eviction (H := sample_headers) 1 2 sample_active_thread
              {[1%nat := sample_waiting_track 2]} (sample_waiting_track 2) s2
              Hrun2 Hl0 Hin0 Hr0) as ((_ & _ & Hact2) & _).
  split.
  - apply Hact1. cbn. lia.
  - intros Hin. apply Hact2 in Hin. cbn in Hin. lia.
Defined.

(** ** Fill-up (C1) *)

Section FillUp.
Context `{Headers}.

(** The buffer provider handed to the mixer in the pass for a track is
    that track. *)
Lemma prepareTrack_provider th j t id :
  setBufferProvider id ∈ p_calls (prepareTrack th j t) -> id = j.
Proof.
  unfold prepareTrack.
  destruct (mix_condition t) as [[|] t1].
  - destruct (_ || _ || _ || _);
      destruct (bool_decide (mFillingUpStatus _ = FS_FILLED));
      try destruct (bool_decide (state _ = RESUMING));
      cbn [p_calls app]; rewrite !elem_of_cons, elem_of_nil;
      intuition congruence.
  - destruct (_ || _ || _); [|destruct (_ || _)];
      cbn [p_calls app]; rewrite !elem_of_cons, elem_of_nil;
      intuition congruence.
Qed.

(** A track that is filling, not stopped, and has neither its frames
    nor [forceReady]: the pass for it only selects it in the mixer and
    may disable it, and leaves its fill status, its play state and its
    control block as they are. *)
Lemma prepareTrack_waiting th id t :
  mFillingUpStatus t = FS_FILLING ->
  framesReady (cblk t) < frameCount (cblk t) ->
  forceReady (cblk t) = 0 ->
  state t <> STOPPED ->
  (forall c, c ∈ p_calls (prepareTrack th id t) ->
             c = setActiveTrack (mName t) \/ c = disable_MIXING) /\
  mFillingUpStatus (p_track (prepareTrack th id t)) = FS_FILLING /\
  cblk (p_track (prepareTrack th id t)) = cblk t /\
  state (p_track (prepareTrack th id t)) = state t.
Proof.
  intros Hfs Hfr Hforce Hst.
  assert (Hmc : mix_condition t = (false, t)).
  { unfold mix_condition, Track_isReady.
    destruct (negb (framesReady (cblk t) =? 0)); [|reflexivity].
    rewrite Hfs, Hforce. cbn [bool_decide decide_rel negb Z.eqb orb].
    rewrite bool_decide_eq_true_2 by reflexivity. cbn [negb].
    destruct (Z.leb_spec (frameCount (cblk t)) (framesReady (cblk t))); [lia|].
    cbn [orb]. unfold isStopped.
    rewrite (bool_decide_eq_false_2 _ Hst). reflexivity. }
  unfold prepareTrack. rewrite Hmc. unfold isStopped.
  rewrite (bool_decide_eq_false_2 _ Hst). cbv beta iota.
  rewrite (bool_decide_eq_false_2 _ Hst).
  destruct (_ || _ || _); [|destruct (_ || _)]; cbn [p_calls p_track app];
    (split; [intros c; rewrite !elem_of_cons, elem_of_nil; tauto|]);
    repeat split; assumption.
Qed.

Lemma prepare_fold_waiting th id c st l : forall acc,
  framesReady c < frameCount c -> forceReady c = 0 -> st <> STOPPED ->
  (exists t, acc_tracks acc !! id = Some t /\ mFillingUpStatus t = FS_FILLING
             /\ cblk t = c /\ state t = st) ->
  setBufferProvider id ∉ acc_calls acc ->
  (exists t, acc_tracks (fold_left (prepare_step th) l acc) !! id = Some t
             /\ mFillingUpStatus t = FS_FILLING /\ cblk t = c /\ state t = st)
  /\ setBufferProvider id ∉ acc_calls (fold_left (prepare_step th) l acc).
Proof.
  induction l as [|j l IH]; intros acc Hfr Hforce Hst Htr Hcalls;
    cbn [fold_left]; [split; assumption|].
  apply IH; try assumption.
  - destruct Htr as (t & Hl & Hfs & Hc & Hs).
    destruct (decide (j = id)) as [->|Hne].
    + unfold prepare_step. rewrite Hl. cbn [acc_tracks].
      rewrite lookup_insert_eq. subst c st.
      destruct (prepareTrack_waiting th id t Hfs Hfr Hforce Hst)
        as (_ & W1 & W2 & W3).
      eexists. split; [reflexivity|]. auto.
    + exists t. rewrite (proj1 (prepare_step_other th acc j id Hne)). auto.
  - unfold prepare_step.
    destruct (acc_tracks acc !! j) as [tj|] eqn:Hj; [|assumption].
    cbn [acc_calls]. rewrite not_elem_of_app. split; [assumption|].
    intros Hin. pose proof (prepareTrack_provider th j tj id Hin) as ->.
    destruct Htr as (t & Hl & Hfs & Hc & Hs).
    assert (tj = t) by congruence. subst tj c st.
    destruct (prepareTrack_waiting th j t Hfs Hfr Hforce Hst) as (W & _).
    destruct (W _ Hin); discriminate.
Qed.

Lemma remove_fold_calls tracks rm : forall s c,
  c ∈ snd (fold_left (remove_step tracks) rm s) ->
  c ∈ snd s \/ exists name, c = deleteTrackName name.
Proof.
  induction rm as [|x rm IH]; intros [th calls] c; cbn [fold_left].
  - auto.
  - intros Hin. apply IH in Hin as [Hin | Hdel]; [|auto].
    unfold remove_step in Hin.
    destruct (tracks !! x) as [t|]; [destruct (isTerminated t)|];
      cbn [snd] in *; auto.
    apply elem_of_app in Hin as [Hin | Hin]; [auto|].
    apply list_elem_of_singleton in Hin. eauto.
Qed.

(** C1 (as amended).  For a playback track whose fill status is FILLING
    and that is not stopped: while its control block holds fewer than
    [frameCount] ready frames and [forceReady] is clear, a pass of the
    mixer thread does not hand it to the mixer (no [setBufferProvider]
    for it, no [enable], no parameter set: the pass only selects it and
    may disable it) and leaves its fill status and its control block as
    they are; once it holds [frameCount] frames or [forceReady] is set,
    [isReady()] returns true, the fill status moves to FILLED and
    [forceReady] is cleared. *)
Theorem C1_fill_up th tracks id track :
  tracks !! id = Some track ->
  mFillingUpStatus track = FS_FILLING ->
  (framesReady (cblk track) < frameCount (cblk track) ->
   forceReady (cblk track) = 0 ->
   state track <> STOPPED ->
   (forall c, c ∈ p_calls (prepareTrack th id track) ->
              c = setActiveTrack (mName track) \/ c = disable_MIXING) /\
   (let '(_, tracks', calls, _, _) := MixerThread_prepareTracks_l th tracks in
    (setBufferProvider id ∉ calls) /\
    exists t', tracks' !! id = Some t' /\
               mFillingUpStatus t' = FS_FILLING /\ cblk t' = cblk track))
  /\
  (frameCount (cblk track) <= framesReady (cblk track)
   \/ forceReady (cblk track) <> 0 ->
   Track_isReady track
   = (true, with_cblk (set_forceReady 0) (set_mFillingUpStatus FS_FILLED track))).
Proof.
  intros Hl Hfs. split.
  - intros Hfr Hforce Hst. split.
    + apply prepareTrack_waiting; assumption.
    + unfold MixerThread_prepareTracks_l.
      destruct (prepare_fold_waiting th id (cblk track) (state track)
                  (th_mActiveTracks th) (mkPrepareAcc tracks [] 0 [])
                  Hfr Hforce Hst) as [(t' & Hl' & Hfs' & Hc' & _) Hcalls].
      { exists track. auto. }
      { apply not_elem_of_nil. }
      set (acc := fold_left (prepare_step th) (th_mActiveTracks th) _) in *.
      pose proof (remove_fold_calls (acc_tracks acc) (acc_remove acc)
                    (th, acc_calls acc) (setBufferProvider id)) as Hrm.
      destruct (fold_left (remove_step (acc_tracks acc)) (acc_remove acc)
                  (th, acc_calls acc)) as [th' calls].
      cbn [snd] in Hrm. split.
      * intros Hin. destruct (Hrm Hin) as [Hin' | [name Hd]];
          [contradiction | discriminate].
      * exists t'. auto.
  - intros Hready. unfold Track_isReady. rewrite Hfs.
    rewrite bool_decide_eq_true_2 by reflexivity. cbn [negb].
    destruct Hready as [Hge | Hforce].
    + destruct (Z.leb_spec (frameCount (cblk track)) (framesReady (cblk track)));
        [reflexivity | lia].
    + destruct (Z.eqb_spec (forceReady (cblk track)) 0); [contradiction|].
      rewrite orb_true_r. reflexivity.
Qed.

End FillUp.

(** A track stopped while it is filling, with one frame of four in its
    ring and [forceReady] clear: the pass of the mixer thread hands it
    to the mixer, enables it and counts it among the enabled tracks. *)
Lemma C1_stopped_track_counterexample :
  let th := sample_stopped_while_filling.1 in
  let tracks := sample_stopped_while_filling.2 in
  let pass := MixerThread_prepareTracks_l (H := sample_headers) th tracks in
  mFillingUpStatus <$> tracks !! 1%nat = Some FS_FILLING /\
  state <$> tracks !! 1%nat = Some STOPPED /\
  (fun t => framesReady (cblk t)) <$> tracks !! 1%nat = Some 1 /\
  (fun t => frameCount (cblk t)) <$> tracks !! 1%nat = Some 4 /\
  (fun t => forceReady (cblk t)) <$> tracks !! 1%nat = Some 0 /\
  pass.1.1.2
  = [setActiveTrack 0; setBufferProvider 1%nat; enable_MIXING;
     setParameter RAMP_VOLUME VOLUME0 4096;
     setParameter RAMP_VOLUME VOLUME1 4096;
     setParameter TRACK FORMAT 1;
     setParameter TRACK CHANNEL_COUNT 2;
     setParameter RESAMPLE SAMPLE_RATE 44100] /\
  pass.2 = 1.
Proof. cbv zeta. repeat split. Qed.

Lemma C1_fill_up_witness :
  (let track := sample_track ACTIVE FS_FILLING false 1 0 in
   let tracks : gmap nat Track := {[1%nat := track]} in
   tracks !! 1%nat = Some track /\
   mFillingUpStatus track = FS_FILLING /\
   framesReady (cblk track) < frameCount (cblk track) /\
   forceReady (cblk track) = 0 /\
   state track <> STOPPED /\
   (setBufferProvider 1%nat
      ∉ (MixerThread_prepareTracks_l (H := sample_headers)
           sample_active_thread tracks).1.1.2))
  /\
  (let track := sample_track ACTIVE FS_FILLING false 4 0 in
   let tracks : gmap nat Track := {[1%nat := track]} in
   tracks !! 1%nat = Some track /\
   mFillingUpStatus track = FS_FILLING /\
   (frameCount (cblk track) <= framesReady (cblk track)
    \/ forceReady (cblk track) <> 0) /\
   Track_isReady track
   = (true, with_cblk (set_forceReady 0) (set_mFillingUpStatus FS_FILLED track))).
Proof.
  cbv zeta. split.
  - set (track := sample_track ACTIVE FS_FILLING false 1 0).
    set (tracks := ({[1%nat := track]} : gmap nat Track)).
    assert (Hl : tracks !! 1%nat = Some track) by reflexivity.
    assert (Hfs : mFillingUpStatus track = FS_FILLING) by reflexivity.
    assert (Hfr : framesReady (cblk track) < frameCount (cblk track))
      by (vm_compute; reflexivity).
    assert (Hforce : forceReady (cblk track) = 0) by reflexivity.
    assert (Hst : state track <> STOPPED) by discriminate.
    split; [exact Hl|]. split; [exact Hfs|]. split; [exact Hfr|].
    split; [exact Hforce|]. split; [exact Hst|].
    pose proof (proj2 (proj1 (C1_fill_up (H := sample_headers)
                                sample_active_thread tracks 1%nat track Hl Hfs)
                         Hfr Hforce Hst)) as Hpass.
    exact (proj1 Hpass).
  - set (track := sample_track ACTIVE FS_FILLING false 4 0).
    set (tracks := ({[1%nat := track]} : gmap nat Track)).
    assert (Hl : tracks !! 1%nat = Some track) by reflexivity.
    assert (Hfs : mFillingUpStatus track = FS_FILLING) by reflexivity.
    assert (Hready : frameCount (cblk track) <= framesReady (cblk track)
                     \/ forceReady (cblk track) <> 0)
      by (left; vm_compute; discriminate).
    split; [exact Hl|]. split; [exact Hfs|]. split; [exact Hready|].
    exact (proj2 (C1_fill_up (H := sample_headers) sample_active_thread tracks
                    1%nat track Hl Hfs) Hready).
Defined.

(** ** [OutputTrack::write] returns *)

Section WriteReturns.
Context `{Headers}.
Variable stepUser : audio_track_cblk_t -> Z -> audio_track_cblk_t.
Variable env : nat -> ObtainEnv * Z.
Hypothesis stepUser_room : forall c n, producer_room (stepUser c n).
Hypothesis env_nonneg : forall k, readings_nonneg (env k).1.

Lemma obtain_wait_positive active wakes : forall r n,
  0 <= r -> Forall (fun r => 0 <= r) wakes ->
  obtain_wait active r wakes = Some n -> 1 <= n.
Proof.
  induction wakes as [|w wakes IH]; intros r n Hr Hw; cbn [obtain_wait].
  - destruct (Z.eqb_spec r 0); [destruct active; discriminate|].
    intros [= <-]. lia.
  - destruct (Z.eqb_spec r 0).
    + destruct active; [|discriminate].
      apply Forall_cons in Hw as [Hw0 Hw]. apply IH; assumption.
    + intros [= <-]. lia.
Qed.

(** A call of [obtainBuffer] that succeeds on a request of at least one
    frame grants at least one frame. *)
Lemma obtainBuffer_grant o e req n :
  producer_room (cblk (ot_track o)) -> readings_nonneg e -> 1 <= req ->
  OutputTrack_obtainBuffer o e req = (NO_ERROR, n) -> 1 <= n.
Proof.
  intros Hroom (Ha & Hl & Hw) Hreq. unfold OutputTrack_obtainBuffer.
  set (avail := if oe_avail e =? 0 then _ else Some (oe_avail e)).
  assert (Havail : forall a, avail = Some a -> 1 <= a).
  { unfold avail. intros a. destruct (Z.eqb_spec (oe_avail e) 0).
    - apply obtain_wait_positive; assumption.
    - intros [= <-]. lia. }
  destruct avail as [a|]; [|discriminate].
  specialize (Havail a eq_refl).
  set (req1 := if a <? req then a else req).
  assert (Hreq1 : 1 <= req1) by (unfold req1; destruct (a <? req); lia).
  clearbody req1.
  match goal with
  | |- context [if ?b then wrap32 _ else _] => destruct b
  end; intros [= <-]; [|exact Hreq1].
  unfold producer_room in Hroom.
  pose proof (wrap32_range
                (wrap32 (userBase (cblk (ot_track o)) + frameCount (cblk (ot_track o)))
                 - user (cblk (ot_track o)))). lia.
Qed.

(** A turn after which the loop goes on has copied at least one frame
    and keeps the invariants. *)
Lemma write_iteration_progress s s' :
  producer_room (cblk (ot_track (wl_track s))) ->
  counts_nonneg s ->
  write_iteration stepUser env s = inl s' ->
  producer_room (cblk (ot_track (wl_track s'))) /\
  counts_nonneg s' /\
  pending_frames s' < pending_frames s.
Proof.
  intros Hroom (Hq & Hin & Hout). unfold write_iteration.
  destruct (wl_waitTimeLeftMs s =? 0); [discriminate|].
  set (pIn := match mBufferQueue (wl_track s) with
              | b :: _ => b
              | [] => wl_inBuffer s
              end).
  assert (HpIn : 0 <= pb_frameCount pIn).
  { unfold pIn. destruct (mBufferQueue (wl_track s)) as [|b q]; [assumption|].
    apply Forall_cons in Hq as [Hb _]. exact Hb. }
  destruct (Z.eqb_spec (pb_frameCount pIn) 0) as [|Hnz]; [discriminate|].
  set (obtained := if mOutBuffer_frameCount (wl_track s) =? 0 then _ else _).
  assert (Hgrant : forall n w k, obtained = Some (n, w, k) -> 1 <= n).
  { unfold obtained. intros n w k.
    destruct (Z.eqb_spec (mOutBuffer_frameCount (wl_track s)) 0).
    - pose proof (env_nonneg (wl_calls s)) as Henv.
      destruct (env (wl_calls s)) as [oe ms]. cbn [fst] in Henv.
      pose proof (obtainBuffer_grant (wl_track s) oe (pb_frameCount pIn)) as Hg.
      destruct (OutputTrack_obtainBuffer (wl_track s) oe (pb_frameCount pIn))
        as [[] g]; try discriminate.
      intros [= <- _ _]. apply Hg; [assumption | assumption | lia | reflexivity].
    - intros [= <- _ _]. lia. }
  destruct obtained as [[[outCount waitLeft] calls]|]; [|discriminate].
  specialize (Hgrant outCount waitLeft calls eq_refl).
  set (outFrames := if outCount <? pb_frameCount pIn then outCount
                    else pb_frameCount pIn).
  assert (HoutFrames : 1 <= outFrames <= pb_frameCount pIn /\ outFrames <= outCount).
  { unfold outFrames. destruct (Z.ltb_spec outCount (pb_frameCount pIn)); lia. }
  cbn [mBufferQueue set_mOutBuffer_frameCount set_ot_track set_ring_log
         pb_frameCount].
  unfold pending_frames, counts_nonneg.
  destruct (mBufferQueue (wl_track s)) as [|b queue] eqn:Hqueue.
  - (* the caller's buffer *)
    destruct (_ =? 0); [discriminate|]. intros [= <-].
    cbn. rewrite Hqueue. cbn. unfold pIn in *.
    split; [apply stepUser_room|]. split; [|lia].
    split; [constructor|]. lia.
  - (* the head of the queue *)
    apply Forall_cons in Hq as [Hb Hq]. unfold pIn in *.
    destruct (Z.eqb_spec (pb_frameCount b - outFrames) 0) as [Hz|Hz];
      intros [= <-]; cbn.
    + split; [apply stepUser_room|]. split; [|lia].
      split; [assumption|]. lia.
    + split; [apply stepUser_room|]. split; [|lia].
      split; [|lia]. apply Forall_cons. split; [cbn; lia | assumption].
Qed.

Lemma pending_frames_nonneg s : counts_nonneg s -> 0 <= pending_frames s.
Proof.
  intros (Hq & Hin & _). unfold pending_frames.
  induction Hq as [|b q Hb Hq IH]; cbn; lia.
Qed.

(** With fuel beyond the frames to copy the loop reaches its exit. *)
Lemma write_loop_returns fuel : forall s,
  producer_room (cblk (ot_track (wl_track s))) ->
  counts_nonneg s ->
  pending_frames s < Z.of_nat fuel ->
  exists s', write_loop stepUser env fuel s = Some s'.
Proof.
  induction fuel as [|fuel IH]; intros s Hroom Hcounts Hfuel.
  - pose proof (pending_frames_nonneg s Hcounts). lia.
  - cbn [write_loop].
    destruct (write_iteration stepUser env s) as [s1|s1] eqn:Hit; [|eauto].
    destruct (write_iteration_progress s s1 Hroom Hcounts Hit) as (R & C & P).
    apply IH; [assumption | assumption | lia].
Qed.

(** [OutputTrack::write] returns: when the producer always has room
    before the end of the ring and the counts are those of unsigned
    integers, there is an amount of fuel for which the model of
    [write()] gives its result. *)
Lemma OutputTrack_write_returns thread id o data frames :
  producer_room (cblk (ot_track o)) ->
  Forall (fun b => 0 <= pb_frameCount b) (mBufferQueue o) ->
  0 <= frames ->
  0 <= mOutBuffer_frameCount o ->
  exists fuel r,
    OutputTrack_write stepUser env fuel thread id o data frames = Some r.
Proof.
  intros Hroom Hq Hframes Hout. unfold OutputTrack_write.
  set (primed := if negb (mActive o) then _ else (thread, o)).
  assert (Hprimed : producer_room (cblk (ot_track primed.2)) /\
                    Forall (fun b => 0 <= pb_frameCount b) (mBufferQueue primed.2) /\
                    0 <= mOutBuffer_frameCount primed.2).
  { unfold primed. destruct (negb (mActive o)); [|auto].
    assert (Hstart : cblk (ot_track (OutputTrack_start thread id o).2)
                     = cblk (ot_track o) /\
                     mBufferQueue (OutputTrack_start thread id o).2 = mBufferQueue o /\
                     mOutBuffer_frameCount (OutputTrack_start thread id o).2
                     = mOutBuffer_frameCount o).
    { unfold OutputTrack_start, Track_start, PlaybackThread_addTrack_l.
      destruct thread as [th|];
        [destruct (negb (sv_member id (th_mActiveTracks th)))|];
        cbv beta iota zeta;
        rewrite (bool_decide_eq_true_2 (NO_ERROR = NO_ERROR) eq_refl);
        cbn [negb snd];
        try destruct (isPaused (ot_track o)); repeat split. }
    destruct (OutputTrack_start thread id o) as [[status thread1] o1].
    cbn [snd] in Hstart. destruct Hstart as (Hc & Hqq & Ho).
    destruct thread1; [|cbn; rewrite Hc, Hqq, Ho; auto].
    destruct (Z.ltb_spec frames (frameCount (cblk (ot_track o1)))) as [Hlt|_];
      [|cbn; rewrite Hc, Hqq, Ho; auto].
    rewrite Hc in Hlt.
    destruct (_ <? _); cbn; rewrite ?Hc, ?Hqq, ?Ho; [|auto].
    split; [assumption|]. split; [|assumption].
    apply Forall_app. split; [assumption|].
    apply Forall_cons. split; [cbn; lia | constructor]. }
  destruct primed as [thread1 o1]. cbn [snd] in Hprimed.
  destruct Hprimed as (Hroom1 & Hq1 & Hout1).
  set (s0 := mkWriteLoop o1 (mkPending frames data) (mWaitTimeMs o) 0 false).
  assert (Hcounts : counts_nonneg s0) by (repeat split; assumption).
  destruct (write_loop_returns (S (Z.to_nat (pending_frames s0))) s0 Hroom1 Hcounts)
    as [s' Hs'].
  { pose proof (pending_frames_nonneg s0 Hcounts). lia. }
  exists (S (Z.to_nat (pending_frames s0))). rewrite Hs'. eauto.
Qed.

End WriteReturns.

(** ** The overflow queue of an output track (C6) *)

Section OverflowQueue.
Context `{Headers}.

(** A turn of the loop never makes the queue longer. *)
Lemma write_iteration_queue stepUser env s s' :
  write_iteration stepUser env s = inl s' \/
  write_iteration stepUser env s = inr s' ->
  (length (mBufferQueue (wl_track s')) <= length (mBufferQueue (wl_track s)))%nat.
Proof.
  unfold write_iteration.
  destruct (wl_waitTimeLeftMs s =? 0).
  { intros [Hs|Hs]; [discriminate|]. injection Hs as <-. lia. }
  destruct (pb_frameCount _ =? 0).
  { intros [Hs|Hs]; [discriminate|]. injection Hs as <-. lia. }
  match goal with
  | |- context [match ?obtained with Some _ => _ | None => _ end] =>
      destruct obtained as [[[outCount waitLeft] calls]|]
  end.
  - cbn [mBufferQueue set_mOutBuffer_frameCount set_ot_track set_ring_log].
    destruct (mBufferQueue (wl_track s)) as [|b queue] eqn:Hq.
    + destruct (_ =? 0); intros [Hs|Hs]; try discriminate;
        injection Hs as <-; cbn; rewrite Hq; cbn; lia.
    + destruct (_ =? 0); intros [Hs|Hs]; try discriminate;
        injection Hs as <-; cbn; lia.
  - intros [Hs|Hs]; [discriminate|]. injection Hs as <-. cbn. lia.
Qed.

Lemma write_loop_queue stepUser env fuel : forall s s',
  write_loop stepUser env fuel s = Some s' ->
  (length (mBufferQueue (wl_track s')) <= length (mBufferQueue (wl_track s)))%nat.
Proof.
  induction fuel as [|fuel IH]; intros s s' Hloop; cbn [write_loop] in Hloop.
  - discriminate.
  - destruct (write_iteration stepUser env s) as [s1|s1] eqn:Hit.
    + pose proof (write_iteration_queue stepUser env s s1 (or_introl Hit)).
      pose proof (IH s1 s' Hloop). lia.
    + injection Hloop as <-.
      exact (write_iteration_queue stepUser env s s1 (or_intror Hit)).
Qed.

Lemma OutputTrack_start_queue thread id o :
  mBufferQueue (OutputTrack_start thread id o).2 = mBufferQueue o.
Proof.
  unfold OutputTrack_start.
  destruct (Track_start thread id (ot_track o)) as [[status thread'] t'].
  destruct (negb _); reflexivity.
Qed.

(** C6.  With a bound of at least one buffer, the overflow queue of an
    output track never grows beyond [kMaxOverFlowBuffers] entries: a
    queue within the bound is within the bound after every [write()]
    that returns, and is empty after [stop()]. *)
Theorem C6_overflow_queue_bounded stepUser env fuel thread id o data frames :
  1 <= kMaxOverFlowBuffers ->
  Z.of_nat (length (mBufferQueue o)) <= kMaxOverFlowBuffers ->
  (forall full o' thread',
      OutputTrack_write stepUser env fuel thread id o data frames
      = Some (full, o', thread') ->
      Z.of_nat (length (mBufferQueue o')) <= kMaxOverFlowBuffers)
  /\ mBufferQueue (OutputTrack_stop thread id o) = [].
Proof.
  intros Hk Hq. split; [|reflexivity].
  intros full o' thread'. unfold OutputTrack_write.
  (* priming *)
  set (primed := if negb (mActive o) then _ else (thread, o)).
  assert (Hprimed : Z.of_nat (length (mBufferQueue primed.2)) <= kMaxOverFlowBuffers).
  { unfold primed. destruct (negb (mActive o)); [|exact Hq].
    pose proof (OutputTrack_start_queue thread id o) as Hstart.
    destruct (OutputTrack_start thread id o) as [[status thread1] o1].
    cbn [snd] in Hstart.
    destruct thread1; [|cbn; rewrite Hstart; exact Hq].
    destruct (frames <? _); [|cbn; rewrite Hstart; exact Hq].
    destruct (Z.ltb_spec (Z.of_nat (length (mBufferQueue o1))) kMaxOverFlowBuffers)
      as [Hlt|Hge]; [|cbn; rewrite Hstart; exact Hq].
    cbn. rewrite length_app. cbn. lia. }
  destruct primed as [thread1 o1]. cbn [snd] in Hprimed.
  destruct (write_loop stepUser env fuel _) as [s|] eqn:Hloop; [|discriminate].
  apply write_loop_queue in Hloop. cbn [wl_track] in Hloop.
  intros [= _ <- _].
  (* the remainder of the caller's buffer *)
  set (o2 := if negb (pb_frameCount (wl_inBuffer s) =? 0) then _ else wl_track s).
  assert (Ho2 : Z.of_nat (length (mBufferQueue o2)) <= kMaxOverFlowBuffers).
  { unfold o2. destruct (negb _); [|lia].
    destruct (Z.ltb_spec (Z.of_nat (length (mBufferQueue (wl_track s))))
                kMaxOverFlowBuffers) as [Hlt|Hge]; [|lia].
    cbn. rewrite length_app. cbn. lia. }
  (* the write of zero frames *)
  destruct (frames =? 0); cbn [andb]; [|exact Ho2].
  destruct (Z.eqb_spec (Z.of_nat (length (mBufferQueue o2))) 0) as [Hz|Hnz];
    [|exact Ho2].
  destruct (user (cblk (ot_track o2)) <? frameCount (cblk (ot_track o2))).
  - cbn. rewrite length_app. cbn. lia.
  - cbn. lia.
Qed.

End OverflowQueue.

Lemma C6_overflow_queue_bounded_witness :
  let o := sample_output_track (repeat (mkPending 4 (repeat 0 8%nat)) 8%nat) in
  1 <= kMaxOverFlowBuffers (Headers := sample_headers) /\
  Z.of_nat (length (mBufferQueue o))
    <= kMaxOverFlowBuffers (Headers := sample_headers) /\
  exists full o' thread',
    OutputTrack_write (H := sample_headers) sample_stepUser sample_stalled 5%nat
      (Some sample_active_thread) 1%nat o (repeat 7 8%nat) 4
    = Some (full, o', thread') /\
    full = true /\
    length (mBufferQueue o') = 8%nat /\
    Z.of_nat (length (mBufferQueue o'))
      <= kMaxOverFlowBuffers (Headers := sample_headers).
Proof.
  cbv zeta.
  set (o := sample_output_track (repeat (mkPending 4 (repeat 0 8%nat)) 8%nat)).
  assert (Hk : 1 <= kMaxOverFlowBuffers (Headers := sample_headers))
    by (vm_compute; discriminate).
  assert (Hq : Z.of_nat (length (mBufferQueue o))
               <= kMaxOverFlowBuffers (Headers := sample_headers))
    by (vm_compute; discriminate).
  split; [exact Hk|]. split; [exact Hq|].
  eexists _, _, _.
  assert (Hw : OutputTrack_write (H := sample_headers) sample_stepUser
                 sample_stalled 5%nat (Some sample_active_thread) 1%nat o
                 (repeat 7 8%nat) 4
               = Some (true, set_mOutBuffer_frameCount 0 o,
                       Some sample_active_thread)) by reflexivity.
  split; [exact Hw|]. split; [reflexivity|]. split; [reflexivity|].
  exact (proj1 (C6_overflow_queue_bounded (H := sample_headers) sample_stepUser
                  sample_stalled 5%nat (Some sample_active_thread) 1%nat o
                  (repeat 7 8%nat) 4 Hk Hq)
           true (set_mOutBuffer_frameCount 0 o) (Some sample_active_thread) Hw).
Defined.

(** * Further properties of the playback engine *)

(** ** Addresses handed out by [TrackBase::getBuffer] *)

Section GetBuffer.

Lemma land_pow2_pred a k : 0 <= k -> Z.land a (2 ^ k - 1) = a mod 2 ^ k.
Proof.
  intros Hk. rewrite <- Z.land_ones by exact Hk.
  rewrite Z.ones_equiv. reflexivity.
Qed.

(** For a frame size that is a power of two and a buffer aligned on it,
    a range of frames that lies inside the buffer gets its address. *)
Lemma TrackBase_getBuffer_inside b offset frames k :
  0 <= k < 32 -> frameSize (mCblk b) = 2 ^ k ->
  0 <= mBuffer b -> mBufferEnd b < 2 ^ 32 ->
  mBuffer b mod frameSize (mCblk b) = 0 ->
  serverBase (mCblk b) <= offset -> 0 <= frames ->
  mBuffer b + (offset - serverBase (mCblk b) + frames) * frameSize (mCblk b)
    <= mBufferEnd b ->
  TrackBase_getBuffer b offset frames
  = mBuffer b + (offset - serverBase (mCblk b)) * frameSize (mCblk b).
Proof.
  intros Hk Hfs Hb He Hal Hoff Hfr Hin. unfold TrackBase_getBuffer.
  set (fs := frameSize (mCblk b)) in *.
  set (d := offset - serverBase (mCblk b)) in *.
  assert (Hfs1 : 1 <= fs < 2 ^ 32).
  { rewrite Hfs. split.
    - pose proof (Z.pow_pos_nonneg 2 k). lia.
    - apply Z.pow_lt_mono_r; lia. }
  assert (Hd : 0 <= d) by lia.
  assert (Hdf : 0 <= d * fs <= (d + frames) * fs) by nia.
  assert (Hff : 0 <= frames * fs <= (d + frames) * fs) by nia.
  assert (Hdd : d <= d * fs) by nia.
  rewrite (wrap32_small d) by lia.
  rewrite (wrap32_small (d * fs)) by lia.
  rewrite (wrap32_small (mBuffer b + d * fs)) by lia.
  rewrite (wrap32_small (frames * fs)) by lia.
  rewrite (wrap32_small (mBuffer b + d * fs + frames * fs)) by nia.
  rewrite (wrap32_small (fs - 1)) by lia.
  destruct (Z.ltb_spec (mBuffer b + d * fs) (mBuffer b)); [lia|].
  destruct (Z.ltb_spec (mBuffer b + d * fs + frames * fs) (mBuffer b + d * fs));
    [lia|].
  destruct (Z.ltb_spec (mBufferEnd b) (mBuffer b + d * fs + frames * fs));
    [nia|].
  rewrite Hfs, land_pow2_pred by lia. rewrite <- Hfs.
  rewrite Z_mod_plus_full, Hal. reflexivity.
Qed.

(** X1.  [getBuffer] on a buffer aligned on a power-of-two frame size:
    a range of frames that starts at or after [serverBase] and ends
    inside the buffer gets the address of its first frame,
    [mBuffer + (offset - serverBase) * frameSize]; a range that ends
    past [mBufferEnd] gets the null address. *)
Theorem X1_getBuffer_range b offset frames k :
  0 <= k < 32 -> frameSize (mCblk b) = 2 ^ k ->
  0 <= mBuffer b -> mBufferEnd b < 2 ^ 32 ->
  mBuffer b mod frameSize (mCblk b) = 0 ->
  serverBase (mCblk b) <= offset -> 0 <= frames ->
  (mBuffer b + (offset - serverBase (mCblk b) + frames) * frameSize (mCblk b)
     <= mBufferEnd b ->
   TrackBase_getBuffer b offset frames
   = mBuffer b + (offset - serverBase (mCblk b)) * frameSize (mCblk b))
  /\
  (mBufferEnd b
     < mBuffer b + (offset - serverBase (mCblk b) + frames) * frameSize (mCblk b)
     < 2 ^ 32 ->
   TrackBase_getBuffer b offset frames = 0).
Proof.
  intros Hk Hfs Hb He Hal Hoff Hfr. split.
  - intros Hin. eapply TrackBase_getBuffer_inside; eauto.
  - intros Hout. unfold TrackBase_getBuffer.
    set (fs := frameSize (mCblk b)) in *.
    set (d := offset - serverBase (mCblk b)) in *.
    assert (Hfs1 : 1 <= fs).
    { rewrite Hfs. pose proof (Z.pow_pos_nonneg 2 k). lia. }
    assert (Hd : 0 <= d) by lia.
    assert (Hdf : 0 <= d * fs <= (d + frames) * fs) by nia.
    assert (Hff : 0 <= frames * fs <= (d + frames) * fs) by nia.
    assert (Hdd : d <= d * fs) by nia.
    rewrite (wrap32_small d) by lia.
    rewrite (wrap32_small (d * fs)) by lia.
    rewrite (wrap32_small (mBuffer b + d * fs)) by lia.
    rewrite (wrap32_small (frames * fs)) by lia.
    rewrite (wrap32_small (mBuffer b + d * fs + frames * fs)) by nia.
    destruct (Z.ltb_spec (mBufferEnd b) (mBuffer b + d * fs + frames * fs));
      [|nia].
    rewrite !orb_true_r. reflexivity.
Qed.

End GetBuffer.

Lemma X1_getBuffer_range_witness :
  let b := base (sample_track ACTIVE FS_ACTIVE false 3 1) in
  0 <= 2 < 32 /\ frameSize (mCblk b) = 2 ^ 2 /\
  0 <= mBuffer b /\ mBufferEnd b < 2 ^ 32 /\
  mBuffer b mod frameSize (mCblk b) = 0 /\
  serverBase (mCblk b) <= 1 /\ 0 <= 3 /\
  mBuffer b + (1 - serverBase (mCblk b) + 3) * frameSize (mCblk b)
    <= mBufferEnd b /\
  TrackBase_getBuffer b 1 3 = 4164 /\
  mBufferEnd b
    < mBuffer b + (1 - serverBase (mCblk b) + 4) * frameSize (mCblk b) < 2 ^ 32 /\
  TrackBase_getBuffer b 1 4 = 0.
Proof.
  cbv zeta. set (b := base (sample_track ACTIVE FS_ACTIVE false 3 1)).
  assert (Hk : 0 <= 2 < 32) by lia.
  assert (Hfs : frameSize (mCblk b) = 2 ^ 2) by reflexivity.
  assert (Hb : 0 <= mBuffer b) by (vm_compute; discriminate).
  assert (He : mBufferEnd b < 2 ^ 32) by (vm_compute; reflexivity).
  assert (Hal : mBuffer b mod frameSize (mCblk b) = 0) by reflexivity.
  assert (Hoff : serverBase (mCblk b) <= 1) by (vm_compute; discriminate).
  assert (Hf3 : 0 <= 3) by lia.
  assert (Hf4 : 0 <= 4) by lia.
  assert (Hin : mBuffer b + (1 - serverBase (mCblk b) + 3) * frameSize (mCblk b)
                <= mBufferEnd b) by (vm_compute; discriminate).
  assert (Hout : mBufferEnd b
                 < mBuffer b + (1 - serverBase (mCblk b) + 4) * frameSize (mCblk b)
                 < 2 ^ 32) by (split; vm_compute; reflexivity).
  split; [exact Hk|]. split; [exact Hfs|]. split; [exact Hb|].
  split; [exact He|]. split; [exact Hal|]. split; [exact Hoff|].
  split; [exact Hf3|]. split; [exact Hin|].
  split; [exact (proj1 (X1_getBuffer_range b 1 3 2
                          Hk Hfs Hb He Hal Hoff Hf3) Hin)|].
  split; [exact Hout|].
  exact (proj2 (X1_getBuffer_range b 1 4 2
                  Hk Hfs Hb He Hal Hoff Hf4) Hout).
Defined.

(** ** Frames handed to the mixer by [Track::getNextBuffer] *)

Section GetNextBufferReady.
Context `{Headers}.

(** X2.  On a track without a pending [stepServer] failure, whose ring
    starts at a non-null address aligned on the power-of-two frame size
    and holds [frameCount] frames, and whose cursors are well formed,
    [getNextBuffer] succeeds as soon as one frame is ready
    ([server < user]): it returns the address of frame [server],
    [mBuffer + (server - serverBase) * frameSize], and the largest count
    allowed, the minimum of the requested count, of [user - server] and
    of the frames up to [min (serverBase + frameCount) loopEnd]; the
    track is not changed. *)
Theorem X2_getNextBuffer_ready stepServer (t : Track) (n k : Z) :
  Z.land (mFlags (base t)) STEPSERVER_FAILED = 0 ->
  0 <= n ->
  0 <= serverBase (cblk t) <= server (cblk t) ->
  server (cblk t) < user (cblk t) -> user (cblk t) < 2 ^ 32 ->
  serverBase (cblk t) + frameCount (cblk t) < 2 ^ 32 ->
  server (cblk t) <= serverBase (cblk t) + frameCount (cblk t) ->
  server (cblk t) <= loopEnd (cblk t) ->
  0 <= k < 32 -> frameSize (cblk t) = 2 ^ k ->
  0 < mBuffer (base t) -> mBufferEnd (base t) < 2 ^ 32 ->
  mBuffer (base t) mod frameSize (cblk t) = 0 ->
  mBuffer (base t) + frameCount (cblk t) * frameSize (cblk t)
    <= mBufferEnd (base t) ->
  Track_getNextBuffer stepServer t n
  = (NO_ERROR,
     mkBuffer
       (mBuffer (base t)
        + (server (cblk t) - serverBase (cblk t)) * frameSize (cblk t))
       (Z.min n
          (Z.min (user (cblk t) - server (cblk t))
             (Z.min (serverBase (cblk t) + frameCount (cblk t)) (loopEnd (cblk t))
              - server (cblk t)))),
     t).
Proof.
  intros Hflag Hn Hsb Hsu Hu Hend Hse Hsl Hk Hfs Hb Hbe Hal Hring.
  unfold Track_getNextBuffer. rewrite Hflag. cbn [Z.eqb negb]. cbv zeta.
  set (c := cblk t) in *.
  assert (Hfr : framesReady c = user c - server c).
  { unfold framesReady. apply wrap32_small. lia. }
  rewrite Hfr.
  destruct (Z.eqb_spec (user c - server c) 0) as [e|_]; [lia|]. cbn [negb].
  rewrite (wrap32_small (serverBase c + frameCount c)) by lia.
  set (bufferEnd := if loopEnd c <? serverBase c + frameCount c
                    then loopEnd c else serverBase c + frameCount c).
  assert (HbE : bufferEnd = Z.min (serverBase c + frameCount c) (loopEnd c)).
  { unfold bufferEnd.
    destruct (Z.ltb_spec (loopEnd c) (serverBase c + frameCount c)); lia. }
  set (req1 := if user c - server c <? n then user c - server c else n).
  assert (Hreq1 : req1 = Z.min n (user c - server c)).
  { unfold req1. destruct (Z.ltb_spec (user c - server c) n); lia. }
  rewrite (wrap32_small (server c + req1)) by lia.
  set (req := if bufferEnd <? server c + req1
              then wrap32 (bufferEnd - server c) else req1).
  assert (Hreq : req = Z.min n (Z.min (user c - server c) (bufferEnd - server c))).
  { unfold req. destruct (Z.ltb_spec bufferEnd (server c + req1)).
    - rewrite wrap32_small by lia. lia.
    - lia. }
  assert (Hfs1 : 1 <= frameSize c).
  { rewrite Hfs. pose proof (Z.pow_pos_nonneg 2 k). lia. }
  assert (Hraw : TrackBase_getBuffer (base t) (server c) req
                 = mBuffer (base t) + (server c - serverBase c) * frameSize c).
  { apply (TrackBase_getBuffer_inside (base t) (server c) req k);
      change (mCblk (base t)) with c; try assumption; try lia.
    assert (server c - serverBase c + req <= frameCount c) by lia.
    assert (0 <= server c - serverBase c + req) by lia.
    nia. }
  rewrite Hraw.
  destruct (Z.eqb_spec (mBuffer (base t) + (server c - serverBase c) * frameSize c) 0)
    as [e|_]; [nia|].
  rewrite Hreq, HbE. reflexivity.
Qed.

End GetNextBufferReady.

Lemma X2_getNextBuffer_ready_witness :
  let t := sample_track ACTIVE FS_ACTIVE false 3 1 in
  let stepServer := fun (_ : audio_track_cblk_t) (_ : Z) =>
                      @None audio_track_cblk_t in
  Z.land (mFlags (base t)) (STEPSERVER_FAILED (Headers := sample_headers)) = 0 /\
  0 <= 1 /\
  server (cblk t) < user (cblk t) /\
  Track_getNextBuffer (H := sample_headers) stepServer t 1
  = (NO_ERROR, mkBuffer 4164 1, t).
Proof.
  cbv zeta. set (t := sample_track ACTIVE FS_ACTIVE false 3 1).
  assert (Hflag : Z.land (mFlags (base t))
                    (STEPSERVER_FAILED (Headers := sample_headers)) = 0)
    by reflexivity.
  assert (Hsu : server (cblk t) < user (cblk t)) by (vm_compute; reflexivity).
  split; [exact Hflag|]. split; [lia|]. split; [exact Hsu|].
  refine (X2_getNextBuffer_ready (H := sample_headers) _ t 1 2 Hflag _ _ Hsu
            _ _ _ _ _ _ _ _ _ _).
  - lia.
  - split; vm_compute; discriminate.
  - vm_compute; reflexivity.
  - vm_compute; reflexivity.
  - vm_compute; discriminate.
  - vm_compute; discriminate.
  - lia.
  - reflexivity.
  - vm_compute; reflexivity.
  - vm_compute; reflexivity.
  - reflexivity.
  - vm_compute; discriminate.
Defined.

(** ** A failed [stepServer] is retried by the next [getNextBuffer] *)

Section StepServerRetry.
Context `{Headers}.

Lemma land_lor_same f s : Z.land (Z.lor f s) s = s.
Proof.
  apply Z.bits_inj'. intros i _.
  rewrite Z.land_spec, Z.lor_spec.
  destruct (Z.testbit f i), (Z.testbit s i); reflexivity.
Qed.

Lemma lor_lor_same f s : Z.lor (Z.lor f s) s = Z.lor f s.
Proof. rewrite <- Z.lor_assoc, Z.lor_diag. reflexivity. Qed.

Lemma land_lnot_same f s : Z.land (Z.land f (Z.lnot s)) s = 0.
Proof.
  rewrite <- Z.land_assoc, (Z.land_comm (Z.lnot s) s), Z.land_lnot_diag.
  apply Z.land_0_r.
Qed.

(** X3.  When [stepServer] cannot take the block's mutex in
    [releaseBuffer], the track keeps its control block, remembers the
    released frame count in [mFrameCount] and raises
    [STEPSERVER_FAILED].  The next [getNextBuffer] first repeats the
    step with that count: if it fails again the call returns
    [NOT_ENOUGH_DATA] with a null buffer and the track stays as it was;
    if it succeeds the track gets the stepped control block and the
    flag is cleared. *)
Theorem X3_stepServer_retry step1 (t : Track) (buffer : Buffer) :
  STEPSERVER_FAILED <> 0 ->
  step1 (cblk t) (buf_frameCount buffer) = None ->
  let t1 := snd (Track_releaseBuffer step1 t buffer) in
  cblk t1 = cblk t /\
  mFrameCount (base t1) = buf_frameCount buffer /\
  Z.land (mFlags (base t1)) STEPSERVER_FAILED = STEPSERVER_FAILED /\
  (forall step2 n,
     step2 (cblk t) (buf_frameCount buffer) = None ->
     Track_getNextBuffer step2 t1 n = (NOT_ENOUGH_DATA, mkBuffer 0 0, t1)) /\
  (forall step2 n c',
     step2 (cblk t) (buf_frameCount buffer) = Some c' ->
     cblk (Track_getNextBuffer step2 t1 n).2 = c' /\
     Z.land (mFlags (base (Track_getNextBuffer step2 t1 n).2)) STEPSERVER_FAILED
     = 0).
Proof.
  intros Hs Hfail. cbv zeta.
  unfold Track_releaseBuffer, TrackBase_step. cbn [mCblk set_mFrameCount mFrameCount].
  unfold cblk in Hfail. rewrite Hfail. cbn [snd].
  set (t1 := set_base _ t).
  assert (Hflag : Z.land (mFlags (base t1)) STEPSERVER_FAILED = STEPSERVER_FAILED).
  { apply land_lor_same. }
  split; [reflexivity|]. split; [reflexivity|]. split; [exact Hflag|].
  split.
  - intros step2 n H2. unfold Track_getNextBuffer. rewrite Hflag.
    destruct (Z.eqb_spec STEPSERVER_FAILED 0) as [e|_]; [contradiction|].
    cbn [negb]. unfold TrackBase_step.
    change (mCblk (base t1)) with (mCblk (base t)).
    change (mFrameCount (base t1)) with (buf_frameCount buffer).
    unfold cblk in H2. rewrite H2.
    unfold t1 at 1. cbn. rewrite lor_lor_same. reflexivity.
  - intros step2 n c' H2. unfold Track_getNextBuffer. rewrite Hflag.
    destruct (Z.eqb_spec STEPSERVER_FAILED 0) as [e|_]; [contradiction|].
    cbn [negb]. unfold TrackBase_step.
    change (mCblk (base t1)) with (mCblk (base t)).
    change (mFrameCount (base t1)) with (buf_frameCount buffer).
    unfold cblk in H2. rewrite H2. cbv zeta.
    set (t2 := set_base _ t1).
    assert (Hc : cblk t2 = c') by reflexivity.
    assert (Hf : Z.land (mFlags (base t2)) STEPSERVER_FAILED = 0)
      by apply land_lnot_same.
    destruct (negb _); [destruct (_ =? 0)|]; cbn [snd]; split; assumption.
Qed.

End StepServerRetry.

Lemma X3_stepServer_retry_witness :
  let t := sample_track ACTIVE FS_ACTIVE false 3 1 in
  let step1 := fun (_ : audio_track_cblk_t) (_ : Z) =>
                 @None audio_track_cblk_t in
  let step2 := fun (c : audio_track_cblk_t) (n : Z) =>
                 Some (set_server (server c + n) c) in
  let t1 := snd (Track_releaseBuffer (H := sample_headers) step1 t
                   (mkBuffer 4164 2)) in
  STEPSERVER_FAILED (Headers := sample_headers) <> 0 /\
  step1 (cblk t) 2 = None /\
  Track_getNextBuffer (H := sample_headers) step1 t1 4
  = (NOT_ENOUGH_DATA, mkBuffer 0 0, t1) /\
  server (cblk (Track_getNextBuffer (H := sample_headers) step2 t1 4).2) = 3 /\
  Z.land (mFlags (base (Track_getNextBuffer (H := sample_headers) step2 t1 4).2))
    (STEPSERVER_FAILED (Headers := sample_headers)) = 0.
Proof.
  cbv zeta.
  set (t := sample_track ACTIVE FS_ACTIVE false 3 1).
  set (step1 := fun (_ : audio_track_cblk_t) (_ : Z) => @None audio_track_cblk_t).
  set (step2 := fun (c : audio_track_cblk_t) (n : Z) =>
                  Some (set_server (server c + n) c)).
  assert (Hs : STEPSERVER_FAILED (Headers := sample_headers) <> 0)
    by (vm_compute; discriminate).
  assert (H1 : step1 (cblk t) (buf_frameCount (mkBuffer 4164 2)) = None)
    by reflexivity.
  pose proof (X3_stepServer_retry (H := sample_headers) step1 t (mkBuffer 4164 2)
                Hs H1) as (_ & _ & _ & Hagain & Hrec).
  split; [exact Hs|]. split; [reflexivity|].
  split; [exact (Hagain step1 4 H1)|].
  destruct (Hrec step2 4 (set_server (server (cblk t) + 2) (cblk t)) eq_refl)
    as [Hc Hf].
  split; [rewrite Hc; reflexivity | exact Hf].
Defined.

(** ** What a pass of the mixer thread keeps *)

Section PassInvariants.
Context `{Headers}.

Lemma keeps_identity_refl t : keeps_identity t t.
Proof. unfold keeps_identity. tauto. Qed.

Lemma keeps_identity_trans t1 t2 t3 :
  keeps_identity t1 t2 -> keeps_identity t2 t3 -> keeps_identity t1 t3.
Proof.
  unfold keeps_identity. intros (A1 & A2 & A3 & A4 & A5) (B1 & B2 & B3 & B4 & B5).
  repeat split; try congruence; tauto.
Qed.

Lemma mix_condition_same t :
  state (snd (mix_condition t)) = state t /\
  mName (snd (mix_condition t)) = mName t /\
  mStreamType (snd (mix_condition t)) = mStreamType t /\
  mBuffer (base (snd (mix_condition t))) = mBuffer (base t) /\
  mBufferEnd (base (snd (mix_condition t))) = mBufferEnd (base t).
Proof.
  unfold mix_condition, Track_isReady.
  destruct (negb (framesReady (cblk t) =? 0)); [|repeat split].
  destruct (negb (bool_decide (mFillingUpStatus t = FS_FILLING)));
    [repeat split|].
  destruct ((frameCount (cblk t) <=? framesReady (cblk t))
            || negb (forceReady (cblk t) =? 0)); repeat split.
Qed.

Lemma Track_reset_same t :
  state (Track_reset t) = state t /\
  mName (Track_reset t) = mName t /\
  mStreamType (Track_reset t) = mStreamType t /\
  mBuffer (base (Track_reset t)) = mBuffer (base t) /\
  mBufferEnd (base (Track_reset t)) = mBufferEnd (base t).
Proof. unfold Track_reset. destruct (mResetDone t); repeat split. Qed.

Lemma prepareTrack_keeps th id t :
  keeps_identity t (p_track (prepareTrack th id t)).
Proof.
  unfold prepareTrack.
  destruct (mix_condition_same t) as (Ks & Kn & Kt & Kb & Ke).
  destruct (mix_condition t) as [go t1]. cbn [snd] in *.
  assert (K1 : keeps_identity t t1).
  { unfold keeps_identity. rewrite Ks. tauto. }
  apply (keeps_identity_trans t t1); [exact K1|]. clear.
  destruct go.
  - unfold isPausing, setPaused.
    destruct (decide (state t1 = PAUSING)) as [Hp|Hp];
      [rewrite (bool_decide_eq_true_2 _ Hp)|rewrite (bool_decide_eq_false_2 _ Hp)];
      (destruct (isMuted t1 || th_mMasterMute th || _ || _));
      repeat decide_test;
      unfold keeps_identity, state in *; cbn in *;
      intuition congruence.
  - unfold isStopped, isTerminated, isPaused.
    destruct (Track_reset_same t1) as (Rs & Rn & Rt & Rb & Re).
    assert (K2 : keeps_identity t1
                   (if bool_decide (state t1 = STOPPED) then Track_reset t1 else t1)).
    { destruct (bool_decide (state t1 = STOPPED)); [|apply keeps_identity_refl].
      unfold keeps_identity. rewrite Rs. tauto. }
    revert K2.
    generalize (if bool_decide (state t1 = STOPPED) then Track_reset t1 else t1).
    intros t2 K2. apply (keeps_identity_trans t1 t2); [exact K2|].
    destruct (bool_decide (state t2 = TERMINATED) || bool_decide (state t2 = STOPPED)
              || bool_decide (state t2 = PAUSED)); [apply keeps_identity_refl|].
    cbv zeta.
    destruct (bool_decide (mSharedBuffer _ = None) || _);
      unfold keeps_identity, state; cbn; tauto.
Qed.


Lemma prepare_step_keeps th acc j id t :
  acc_tracks acc !! id = Some t ->
  exists t', acc_tracks (prepare_step th acc j) !! id = Some t'
             /\ keeps_identity t t'.
Proof.
  intros Hl. unfold prepare_step.
  destruct (acc_tracks acc !! j) as [tj|] eqn:Hj.
  - cbn. destruct (decide (j = id)) as [->|Hne].
    + rewrite lookup_insert_eq. eexists. split; [reflexivity|].
      assert (tj = t) as -> by congruence. apply prepareTrack_keeps.
    + rewrite lookup_insert_ne by exact Hne.
      exists t. split; [exact Hl | apply keeps_identity_refl].
  - exists t. split; [exact Hl | apply keeps_identity_refl].
Qed.

Lemma prepare_fold_keeps th l : forall acc id t,
  acc_tracks acc !! id = Some t ->
  exists t', acc_tracks (fold_left (prepare_step th) l acc) !! id = Some t'
             /\ keeps_identity t t'.
Proof.
  induction l as [|j l IH]; intros acc id t Hl; cbn [fold_left].
  - exists t. split; [exact Hl | apply keeps_identity_refl].
  - destruct (prepare_step_keeps th acc j id t Hl) as (t1 & H1 & K1).
    destruct (IH _ id t1 H1) as (t2 & H2 & K2).
    exists t2. split; [exact H2 | eapply keeps_identity_trans; eassumption].
Qed.

Lemma prepare_step_none th acc j id :
  acc_tracks acc !! id = None ->
  acc_tracks (prepare_step th acc j) !! id = None.
Proof.
  intros Hl. unfold prepare_step.
  destruct (acc_tracks acc !! j) as [tj|] eqn:Hj; [|exact Hl].
  cbn. rewrite lookup_insert_ne; [exact Hl | congruence].
Qed.

Lemma prepare_fold_none th l : forall acc id,
  acc_tracks acc !! id = None ->
  acc_tracks (fold_left (prepare_step th) l acc) !! id = None.
Proof.
  induction l as [|j l IH]; intros acc id Hl; cbn [fold_left];
    [exact Hl | apply IH, prepare_step_none, Hl].
Qed.

Lemma prepare_fold_enabled th l : forall acc,
  acc_enabled acc <= acc_enabled (fold_left (prepare_step th) l acc)
  <= acc_enabled acc + Z.of_nat (length l).
Proof.
  induction l as [|j l IH]; intros acc; cbn [fold_left length]; [lia|].
  specialize (IH (prepare_step th acc j)).
  assert (acc_enabled acc <= acc_enabled (prepare_step th acc j)
          <= acc_enabled acc + 1).
  { unfold prepare_step. destruct (acc_tracks acc !! j) as [tj|]; [|lia].
    cbn. destruct (p_enabled (prepareTrack th j tj)); lia. }
  lia.
Qed.

Lemma prepare_fold_removed th l : forall acc id,
  id ∈ acc_remove (fold_left (prepare_step th) l acc) ->
  id ∈ acc_remove acc \/ id ∈ l.
Proof.
  induction l as [|j l IH]; intros acc id Hin; cbn [fold_left] in Hin.
  - left. exact Hin.
  - destruct (IH _ _ Hin) as [Hs|Hl]; [|right; apply elem_of_cons; tauto].
    revert Hs. unfold prepare_step.
    destruct (acc_tracks acc !! j) as [tj|]; [|tauto]. cbn.
    destruct (p_remove (prepareTrack th j tj)); [|tauto].
    rewrite elem_of_app, list_elem_of_singleton.
    intros [Ha| ->]; [tauto|]. right. apply elem_of_cons. tauto.
Qed.

Lemma remove_step_tracks tracks s x id :
  id ∈ th_mTracks (fst (remove_step tracks s x))
  <-> id ∈ th_mTracks (fst s)
      /\ ~ (id = x /\ exists t, tracks !! id = Some t /\ state t = TERMINATED).
Proof.
  destruct s as [th calls]. unfold remove_step.
  destruct (tracks !! x) as [t|] eqn:Hx.
  - unfold isTerminated. case_bool_decide as Ht;
      cbn [fst th_mTracks set_th_mTracks set_th_mActiveTracks].
    + rewrite sv_remove_elem. split.
      * intros [Hin Hne]. split; [exact Hin|]. intros [-> _]. congruence.
      * intros [Hin Hn]. split; [exact Hin|]. intros ->. apply Hn.
        split; [reflexivity|]. exists t. tauto.
    + split; [|tauto]. intros Hin. split; [exact Hin|].
      intros [-> (t' & Ht' & Hs)]. congruence.
  - cbn. split; [|tauto]. intros Hin. split; [exact Hin|].
    intros [-> (t' & Ht' & Hs)]. congruence.
Qed.

Lemma remove_fold_tracks tracks rm : forall s id,
  id ∈ th_mTracks (fst (fold_left (remove_step tracks) rm s))
  <-> id ∈ th_mTracks (fst s)
      /\ ~ (id ∈ rm /\ exists t, tracks !! id = Some t /\ state t = TERMINATED).
Proof.
  induction rm as [|x rm IH]; intros s id; cbn [fold_left].
  - rewrite elem_of_nil. tauto.
  - rewrite IH, remove_step_tracks, elem_of_cons. tauto.
Qed.

Lemma sv_remove_NoDup x l : NoDup l -> NoDup (sv_remove x l).
Proof. apply NoDup_filter. Qed.

Lemma remove_step_lists tracks s x :
  (NoDup (th_mActiveTracks (fst s)) ->
   NoDup (th_mActiveTracks (fst (remove_step tracks s x)))) /\
  (NoDup (th_mTracks (fst s)) ->
   NoDup (th_mTracks (fst (remove_step tracks s x)))) /\
  fst (remove_step tracks s x)
  = set_th_mActiveTracks (th_mActiveTracks (fst (remove_step tracks s x)))
      (set_th_mTracks (th_mTracks (fst (remove_step tracks s x))) (fst s)).
Proof.
  destruct s as [th calls]. unfold remove_step.
  destruct (tracks !! x) as [t|]; [destruct (isTerminated t)|]; cbn;
    (split; [apply sv_remove_NoDup|]); (split; [|reflexivity]);
    try apply sv_remove_NoDup; tauto.
Qed.

Lemma remove_fold_lists tracks rm : forall s,
  (NoDup (th_mActiveTracks (fst s)) ->
   NoDup (th_mActiveTracks (fst (fold_left (remove_step tracks) rm s)))) /\
  (NoDup (th_mTracks (fst s)) ->
   NoDup (th_mTracks (fst (fold_left (remove_step tracks) rm s)))) /\
  fst (fold_left (remove_step tracks) rm s)
  = set_th_mActiveTracks
      (th_mActiveTracks (fst (fold_left (remove_step tracks) rm s)))
      (set_th_mTracks (th_mTracks (fst (fold_left (remove_step tracks) rm s)))
         (fst s)).
Proof.
  induction rm as [|x rm IH]; intros s; cbn [fold_left].
  - split; [tauto|]. split; [tauto|]. destruct s as [[] calls]. reflexivity.
  - destruct (IH (remove_step tracks s x)) as (I1 & I2 & I3).
    destruct (remove_step_lists tracks s x) as (S1 & S2 & S3).
    split; [tauto|]. split; [tauto|].
    rewrite I3 at 1. rewrite S3 at 1. reflexivity.
Qed.

(** X4.  One pass of [prepareTracks_l] changes nothing of the thread
    but its two track lists, and only shrinks them: the active list
    loses exactly the tracks put in [tracksToRemove], which all come
    from the active list; the track list loses exactly those of them
    that are terminated; neither list gets a duplicate.  The store
    keeps its objects, each with its name, stream type and buffer, and
    a track is terminated after the pass exactly when it was before.
    The returned count of enabled tracks is between zero and the length
    of the active list. *)
Theorem X4_prepareTracks_l_invariants th tracks :
  let '(th', tracks', calls, rm, enabled) :=
    MixerThread_prepareTracks_l th tracks in
  th' = set_th_mActiveTracks (th_mActiveTracks th')
          (set_th_mTracks (th_mTracks th') th) /\
  (forall id, id ∈ th_mActiveTracks th'
              <-> id ∈ th_mActiveTracks th /\ id ∉ rm) /\
  (forall id, id ∈ rm -> id ∈ th_mActiveTracks th) /\
  (forall id, id ∈ th_mTracks th'
              <-> id ∈ th_mTracks th
                  /\ ~ (id ∈ rm /\ exists t, tracks' !! id = Some t
                                             /\ state t = TERMINATED)) /\
  (NoDup (th_mActiveTracks th) -> NoDup (th_mActiveTracks th')) /\
  (NoDup (th_mTracks th) -> NoDup (th_mTracks th')) /\
  (forall id, tracks !! id = None -> tracks' !! id = None) /\
  (forall id t, tracks !! id = Some t ->
                exists t', tracks' !! id = Some t' /\ keeps_identity t t') /\
  0 <= enabled <= Z.of_nat (length (th_mActiveTracks th)).
Proof.
  unfold MixerThread_prepareTracks_l.
  set (acc0 := mkPrepareAcc tracks [] 0 []).
  set (acc := fold_left (prepare_step th) (th_mActiveTracks th) acc0).
  pose proof (remove_fold_active (acc_tracks acc) (acc_remove acc)
                (th, acc_calls acc)) as RA.
  pose proof (remove_fold_tracks (acc_tracks acc) (acc_remove acc)
                (th, acc_calls acc)) as RT.
  destruct (remove_fold_lists (acc_tracks acc) (acc_remove acc)
              (th, acc_calls acc)) as (L1 & L2 & L3).
  destruct (fold_left (remove_step (acc_tracks acc)) (acc_remove acc)
              (th, acc_calls acc)) as [th' calls].
  cbn [fst] in *.
  split; [exact L3|]. split; [exact RA|]. split.
  { intros id Hin.
    destruct (prepare_fold_removed th (th_mActiveTracks th) acc0 id Hin)
      as [Hnil|Hact]; [|exact Hact].
    apply elem_of_nil in Hnil. contradiction. }
  split; [exact RT|]. split; [exact L1|]. split; [exact L2|]. split.
  { intros id Hl. apply prepare_fold_none. exact Hl. }
  split.
  { intros id t Hl. apply prepare_fold_keeps. exact Hl. }
  pose proof (prepare_fold_enabled th (th_mActiveTracks th) acc0) as He.
  fold acc in He. cbn in He. lia.
Qed.

End PassInvariants.

(** ** Pausing a track *)

Section Pause.
Context `{Headers}.

Lemma prepare_step_calls th acc j c :
  c ∈ acc_calls acc -> c ∈ acc_calls (prepare_step th acc j).
Proof.
  intros Hc. unfold prepare_step.
  destruct (acc_tracks acc !! j); [|exact Hc].
  cbn. apply elem_of_app. left. exact Hc.
Qed.

Lemma prepare_fold_calls th l : forall acc c,
  c ∈ acc_calls acc -> c ∈ acc_calls (fold_left (prepare_step th) l acc).
Proof.
  induction l as [|j l IH]; intros acc c Hc; cbn [fold_left];
    [exact Hc | apply IH, prepare_step_calls, Hc].
Qed.

Lemma prepare_fold_member_calls th l : forall acc id t c,
  NoDup l -> id ∈ l ->
  acc_tracks acc !! id = Some t ->
  c ∈ p_calls (prepareTrack th id t) ->
  c ∈ acc_calls (fold_left (prepare_step th) l acc).
Proof.
  induction l as [|j l IH]; intros acc id t c Hnd Hin Hlook Hc; cbn [fold_left].
  - apply elem_of_nil in Hin. contradiction.
  - apply NoDup_cons in Hnd as [Hj Hnd].
    apply elem_of_cons in Hin as [-> | Hin].
    + apply prepare_fold_calls. unfold prepare_step. rewrite Hlook. cbn.
      apply elem_of_app. right. exact Hc.
    + assert (Hne : j <> id) by (intros ->; contradiction).
      destruct (prepare_step_other th acc j id Hne) as [S1 _].
      apply (IH _ id t c); [exact Hnd | exact Hin | rewrite S1; exact Hlook | exact Hc].
Qed.

Lemma remove_fold_keeps_calls tracks rm : forall s c,
  c ∈ snd s -> c ∈ snd (fold_left (remove_step tracks) rm s).
Proof.
  induction rm as [|x rm IH]; intros s c Hc; cbn [fold_left]; [exact Hc|].
  apply IH. destruct s as [th calls]. unfold remove_step.
  destruct (tracks !! x) as [t|]; [destruct (isTerminated t)|]; cbn;
    try exact Hc.
  apply elem_of_app. left. exact Hc.
Qed.

(** What one pass does with a track of the active list: its object,
    its place in the two lists, and the calls made for it. *)
Lemma prepareTracks_l_member th tracks id t :
  NoDup (th_mActiveTracks th) ->
  id ∈ th_mActiveTracks th ->
  tracks !! id = Some t ->
  let pass := MixerThread_prepareTracks_l th tracks in
  pass.1.1.1.2 !! id = Some (p_track (prepareTrack th id t)) /\
  (id ∈ th_mActiveTracks pass.1.1.1.1
   <-> p_remove (prepareTrack th id t) = false) /\
  (id ∈ th_mTracks pass.1.1.1.1
   <-> id ∈ th_mTracks th
       /\ ~ (p_remove (prepareTrack th id t) = true
             /\ state (p_track (prepareTrack th id t)) = TERMINATED)) /\
  NoDup (th_mActiveTracks pass.1.1.1.1) /\
  (forall c, c ∈ p_calls (prepareTrack th id t) -> c ∈ pass.1.1.2).
Proof.
  intros Hnd Hin Hlook. cbv zeta. unfold MixerThread_prepareTracks_l.
  set (acc0 := mkPrepareAcc tracks [] 0 []).
  set (acc := fold_left (prepare_step th) (th_mActiveTracks th) acc0).
  destruct (prepare_fold_member th (th_mActiveTracks th) acc0 id t Hnd Hin Hlook
              (not_elem_of_nil id)) as [M1 M2].
  fold acc in M1, M2.
  pose proof (remove_fold_active (acc_tracks acc) (acc_remove acc)
                (th, acc_calls acc) id) as RA.
  pose proof (remove_fold_tracks (acc_tracks acc) (acc_remove acc)
                (th, acc_calls acc) id) as RT.
  destruct (remove_fold_lists (acc_tracks acc) (acc_remove acc)
              (th, acc_calls acc)) as (L1 & _ & _).
  pose proof (fun c => remove_fold_keeps_calls (acc_tracks acc) (acc_remove acc)
                (th, acc_calls acc) c) as RC.
  destruct (fold_left (remove_step (acc_tracks acc)) (acc_remove acc)
              (th, acc_calls acc)) as [th' calls].
  cbn [fst snd] in *.
  split; [exact M1|]. split.
  { rewrite RA, M2. destruct (p_remove (prepareTrack th id t)); intuition congruence. }
  split.
  { rewrite RT, M2, M1. split.
    - intros [Ht Hn]. split; [exact Ht|]. intros [Hr Hs]. apply Hn.
      split; [exact Hr|]. eexists. split; [reflexivity | exact Hs].
    - intros [Ht Hn]. split; [exact Ht|]. intros [Hr (t' & [= <-] & Hs)].
      tauto. }
  split; [exact (L1 Hnd)|].
  intros c Hc. apply RC.
  eapply prepare_fold_member_calls; eauto.
Qed.

(** A track that is pausing and has frames to play is mixed once more,
    silently, and becomes paused. *)
Lemma prepareTrack_pausing th id t :
  state t = PAUSING ->
  framesReady (cblk t) <> 0 ->
  mFillingUpStatus t <> FS_FILLING ->
  state (p_track (prepareTrack th id t)) = PAUSED /\
  cblk (p_track (prepareTrack th id t)) = cblk t /\
  mFillingUpStatus (p_track (prepareTrack th id t)) <> FS_FILLING /\
  p_remove (prepareTrack th id t) = false /\
  p_enabled (prepareTrack th id t) = true /\
  exists param,
    setParameter param VOLUME0 0 ∈ p_calls (prepareTrack th id t) /\
    setParameter param VOLUME1 0 ∈ p_calls (prepareTrack th id t).
Proof.
  intros Hs Hfr Hfill. unfold prepareTrack, mix_condition, Track_isReady.
  destruct (Z.eqb_spec (framesReady (cblk t)) 0) as [e|_]; [contradiction|].
  cbn [negb]. rewrite (bool_decide_eq_false_2 _ Hfill). cbn [negb].
  unfold isStopped, isPaused, isPausing, setPaused.
  rewrite (bool_decide_eq_false_2 (state t = PAUSED)) by congruence.
  rewrite (bool_decide_eq_true_2 _ Hs).
  cbn [orb andb negb]. rewrite !orb_true_r. cbv beta iota zeta. rewrite orb_true_l.
  cbv beta iota.
  rewrite (bool_decide_eq_false_2
             (state (set_mFillingUpStatus FS_ACTIVE (with_state PAUSED t)) = RESUMING))
    by discriminate.
  destruct (decide (mFillingUpStatus (with_state PAUSED t) = FS_FILLED)) as [Hd|Hd];
    [rewrite (bool_decide_eq_true_2 _ Hd)|rewrite (bool_decide_eq_false_2 _ Hd)];
    cbn; (repeat split; try congruence; try discriminate);
    [exists VOLUME | exists RAMP_VOLUME];
    rewrite !elem_of_cons; tauto.
Qed.

(** A paused track leaves the active list at the next pass, as it is. *)
Lemma prepareTrack_paused th id t :
  state t = PAUSED ->
  mFillingUpStatus t <> FS_FILLING ->
  prepareTrack th id t
  = mkPrepared t [setActiveTrack (mName t); disable_MIXING] false true.
Proof.
  intros Hs Hfill.
  assert (Hns : state t <> STOPPED) by congruence.
  unfold prepareTrack, mix_condition, Track_isReady.
  rewrite (bool_decide_eq_false_2 _ Hfill). cbn [negb].
  unfold isStopped, isPaused, isTerminated.
  destruct (negb (framesReady (cblk t) =? 0)); cbv beta iota zeta;
    rewrite ?(bool_decide_eq_true_2 _ Hs), ?(bool_decide_eq_false_2 _ Hns);
    cbn [orb andb negb]; cbv beta iota;
    rewrite ?(bool_decide_eq_true_2 _ Hs), ?(bool_decide_eq_false_2 _ Hns);
    cbn [orb andb negb]; rewrite ?orb_true_r; reflexivity.
Qed.


(** X5.  [pause] on an active or resuming track of a live thread sets
    the state to [PAUSING].  If the track has frames to play and has
    left the fill-up phase, the next pass of the mixer thread mixes it
    once more with both gains at zero, moves it to [PAUSED] without
    touching its control block and keeps it in the active list; the
    pass after that leaves the object as it is and drops it from the
    active list, not from the thread's track list. *)
Theorem X5_pause_takes_two_passes th tracks id t :
  NoDup (th_mActiveTracks th) ->
  id ∈ th_mActiveTracks th ->
  tracks !! id = Some t ->
  state t = ACTIVE \/ state t = RESUMING ->
  framesReady (cblk t) <> 0 ->
  mFillingUpStatus t <> FS_FILLING ->
  let pass1 :=
    MixerThread_prepareTracks_l th (<[id := Track_pause true t]> tracks) in
  let pass2 := MixerThread_prepareTracks_l pass1.1.1.1.1 pass1.1.1.1.2 in
  state (Track_pause true t) = PAUSING /\
  (exists t', pass1.1.1.1.2 !! id = Some t' /\ state t' = PAUSED
              /\ cblk t' = cblk t /\ pass2.1.1.1.2 !! id = Some t') /\
  (exists param, setParameter param VOLUME0 0 ∈ pass1.1.1.2
                 /\ setParameter param VOLUME1 0 ∈ pass1.1.1.2) /\
  id ∈ th_mActiveTracks pass1.1.1.1.1 /\
  (id ∉ th_mActiveTracks pass2.1.1.1.1) /\
  (id ∈ th_mTracks th -> id ∈ th_mTracks pass2.1.1.1.1).
Proof.
  intros Hnd Hin Hlook Hst Hfr Hfill. cbv zeta.
  assert (Hp : Track_pause true t = with_state PAUSING t).
  { unfold Track_pause.
    destruct Hst as [Hs|Hs]; rewrite Hs; reflexivity. }
  set (t1 := Track_pause true t) in *.
  assert (Hs1 : state t1 = PAUSING) by (rewrite Hp; reflexivity).
  assert (Hc1 : cblk t1 = cblk t) by (rewrite Hp; reflexivity).
  assert (Hf1 : mFillingUpStatus t1 <> FS_FILLING) by (rewrite Hp; exact Hfill).
  assert (Hfr1 : framesReady (cblk t1) <> 0) by (rewrite Hc1; exact Hfr).
  destruct (prepareTrack_pausing th id t1 Hs1 Hfr1 Hf1)
    as (Ps & Pc & Pf & Pr & _ & param & Pv0 & Pv1).
  destruct (prepareTracks_l_member th (<[id := t1]> tracks) id t1 Hnd Hin
              (lookup_insert_eq _ _ _)) as (M1 & M2 & M3 & M4 & M5).
  set (pass1 := MixerThread_prepareTracks_l th (<[id := t1]> tracks)) in *.
  set (t2 := p_track (prepareTrack th id t1)) in *.
  assert (Hin1 : id ∈ th_mActiveTracks pass1.1.1.1.1) by (apply M2; exact Pr).
  destruct (prepareTracks_l_member pass1.1.1.1.1 pass1.1.1.1.2 id t2 M4 Hin1 M1)
    as (N1 & N2 & N3 & _ & _).
  rewrite (prepareTrack_paused _ id t2 Ps Pf) in N1, N2, N3.
  cbn [p_track p_remove] in N1, N2, N3.
  split; [exact Hs1|]. split.
  { exists t2. rewrite Pc. auto. }
  split.
  { exists param. split; apply M5; assumption. }
  split; [exact Hin1|]. split.
  { intros Ha. apply N2 in Ha. discriminate. }
  intros Ht. apply N3. split.
  - apply M3. split; [exact Ht|]. intros [Hr _]. congruence.
  - intros [_ Hterm]. congruence.
Qed.

End Pause.

Lemma X5_pause_takes_two_passes_witness :
  let t := sample_track ACTIVE FS_ACTIVE false 3 1 in
  let tracks : gmap nat Track := {[1%nat := t]} in
  let pass1 :=
    MixerThread_prepareTracks_l (H := sample_headers) sample_active_thread
      (<[1%nat := Track_pause true t]> tracks) in
  let pass2 :=
    MixerThread_prepareTracks_l (H := sample_headers)
      pass1.1.1.1.1 pass1.1.1.1.2 in
  NoDup (th_mActiveTracks sample_active_thread) /\
  1%nat ∈ th_mActiveTracks sample_active_thread /\
  tracks !! 1%nat = Some t /\
  (state t = ACTIVE \/ state t = RESUMING) /\
  framesReady (cblk t) <> 0 /\
  mFillingUpStatus t <> FS_FILLING /\
  1%nat ∈ th_mActiveTracks pass1.1.1.1.1 /\
  (1%nat ∉ th_mActiveTracks pass2.1.1.1.1) /\
  1%nat ∈ th_mTracks pass2.1.1.1.1.
Proof.
  cbv zeta.
  set (t := sample_track ACTIVE FS_ACTIVE false 3 1).
  set (tracks := ({[1%nat := t]} : gmap nat Track)).
  assert (Hnd : NoDup (th_mActiveTracks sample_active_thread))
    by apply NoDup_singleton.
  assert (Hin : 1%nat ∈ th_mActiveTracks sample_active_thread)
    by (apply list_elem_of_singleton; reflexivity).
  assert (Hl : tracks !! 1%nat = Some t) by reflexivity.
  assert (Hst : state t = ACTIVE \/ state t = RESUMING) by (left; reflexivity).
  assert (Hfr : framesReady (cblk t) <> 0) by (vm_compute; discriminate).
  assert (Hfill : mFillingUpStatus t <> FS_FILLING) by discriminate.
  pose proof (X5_pause_takes_two_passes (H := sample_headers)
                sample_active_thread tracks 1%nat t Hnd Hin Hl Hst Hfr Hfill)
    as (_ & _ & _ & A1 & A2 & A3).
  split; [exact Hnd|]. split; [exact Hin|]. split; [exact Hl|].
  split; [exact Hst|]. split; [exact Hfr|]. split; [exact Hfill|].
  split; [exact A1|]. split; [exact A2|].
  apply A3. apply list_elem_of_singleton. reflexivity.
Defined.

(** ** Stopping a track *)

Section Stop.
Context `{Headers}.

(** A stopped track with frames left is mixed: what the client wrote
    before [stop] is played. *)
Lemma prepareTrack_stopped_ready th id t :
  state t = STOPPED ->
  framesReady (cblk t) <> 0 ->
  state (p_track (prepareTrack th id t)) = STOPPED /\
  user (cblk (p_track (prepareTrack th id t))) = user (cblk t) /\
  server (cblk (p_track (prepareTrack th id t))) = server (cblk t) /\
  p_remove (prepareTrack th id t) = false /\
  p_enabled (prepareTrack th id t) = true /\
  setBufferProvider id ∈ p_calls (prepareTrack th id t).
Proof.
  intros Hs Hfr.
  assert (Hnp : state t <> PAUSED) by congruence.
  assert (Hnq : state t <> PAUSING) by congruence.
  assert (Hnr : state t <> RESUMING) by congruence.
  unfold prepareTrack, mix_condition.
  destruct (Z.eqb_spec (framesReady (cblk t)) 0) as [e|_]; [contradiction|].
  cbn [negb].
  pose proof (Track_isReady_state t) as Hrs.
  assert (Hrc : user (cblk (snd (Track_isReady t))) = user (cblk t)
                /\ server (cblk (snd (Track_isReady t))) = server (cblk t)).
  { unfold Track_isReady. destruct (negb _); [split; reflexivity|].
    destruct (_ || _); split; reflexivity. }
  destruct (Track_isReady t) as [r t1]. cbn [snd] in Hrs, Hrc.
  destruct Hrc as [Hu Hv].
  unfold isStopped, isPaused, isPausing, setPaused.
  rewrite Hrs.
  rewrite (bool_decide_eq_true_2 _ Hs), (bool_decide_eq_false_2 _ Hnp),
    (bool_decide_eq_false_2 _ Hnq).
  rewrite orb_true_r. cbn [andb negb]. cbv beta iota.
  rewrite orb_false_r.
  assert (Hr1 : state (set_mFillingUpStatus FS_ACTIVE t1) <> RESUMING).
  { unfold state in *. cbn. congruence. }
  destruct (isMuted t1 || th_mMasterMute th || _); cbv beta iota zeta;
    (destruct (bool_decide (mFillingUpStatus t1 = FS_FILLED));
     [rewrite (bool_decide_eq_false_2 _ Hr1)|]);
    cbn; unfold state, cblk in *; cbn;
    (repeat split; try congruence);
    rewrite !elem_of_cons; tauto.
Qed.

(** A stopped track without frames is reset and leaves the active
    list. *)
Lemma prepareTrack_stopped_empty th id t :
  state t = STOPPED ->
  framesReady (cblk t) = 0 ->
  prepareTrack th id t
  = mkPrepared (Track_reset t) [setActiveTrack (mName t); disable_MIXING]
      false true.
Proof.
  intros Hs Hfr. unfold prepareTrack, mix_condition. rewrite Hfr.
  cbn [Z.eqb negb]. cbv beta iota zeta.
  unfold isStopped, isTerminated, isPaused.
  rewrite (bool_decide_eq_true_2 _ Hs).
  destruct (Track_reset_same t) as (Rs & _). rewrite Rs.
  rewrite (bool_decide_eq_true_2 _ Hs), orb_true_r. reflexivity.
Qed.

(** X6.  [stop] on a track of the active list that is past [STOPPED]
    only sets its state: the control block keeps what the client has
    written.  While frames are ready the next pass of the mixer thread
    hands the track to the mixer, leaves its cursors alone and keeps it
    in the active list; a pass that finds no frame ready resets the
    track ([Track::reset]) and drops it from the active list, not from
    the thread's track list.  [stop] on a track that is idle,
    terminated or already stopped, or whose thread is gone, changes
    nothing. *)
Theorem X6_stop_drains th tracks id t0 :
  NoDup (th_mActiveTracks th) ->
  id ∈ th_mActiveTracks th ->
  (track_state_ord STOPPED < track_state_ord (state t0)) ->
  let t := Track_stop (Some th) id t0 in
  let pass := MixerThread_prepareTracks_l th (<[id := t]> tracks) in
  t = with_state STOPPED t0 /\
  (framesReady (cblk t0) <> 0 ->
   (exists t', pass.1.1.1.2 !! id = Some t' /\ state t' = STOPPED
               /\ user (cblk t') = user (cblk t0)
               /\ server (cblk t') = server (cblk t0)) /\
   id ∈ th_mActiveTracks pass.1.1.1.1 /\
   setBufferProvider id ∈ pass.1.1.2) /\
  (framesReady (cblk t0) = 0 ->
   pass.1.1.1.2 !! id = Some (Track_reset t) /\
   (id ∉ th_mActiveTracks pass.1.1.1.1) /\
   (id ∈ th_mTracks th -> id ∈ th_mTracks pass.1.1.1.1)) /\
  (forall t1, track_state_ord (state t1) <= track_state_ord STOPPED ->
              Track_stop (Some th) id t1 = t1) /\
  (forall t1, Track_stop None id t1 = t1).
Proof.
  intros Hnd Hin Hord. cbv zeta.
  assert (Ht : Track_stop (Some th) id t0 = with_state STOPPED t0).
  { unfold Track_stop.
    destruct (Z.ltb_spec (track_state_ord STOPPED) (track_state_ord (state t0)));
      [|lia].
    unfold sv_member. rewrite (bool_decide_eq_true_2 _ Hin). reflexivity. }
  rewrite Ht. set (t := with_state STOPPED t0).
  assert (Hs : state t = STOPPED) by reflexivity.
  destruct (prepareTracks_l_member th (<[id := t]> tracks) id t Hnd Hin
              (lookup_insert_eq _ _ _)) as (M1 & M2 & M3 & _ & M5).
  set (pass := MixerThread_prepareTracks_l th (<[id := t]> tracks)) in *.
  split; [reflexivity|]. split; [|split; [|split]].
  - intros Hfr.
    destruct (prepareTrack_stopped_ready th id t Hs Hfr)
      as (Ps & Pu & Pv & Pr & _ & Pc).
    split; [|split].
    + eexists. split; [exact M1|]. auto.
    + apply M2. exact Pr.
    + apply M5. exact Pc.
  - intros Hfr.
    rewrite (prepareTrack_stopped_empty th id t Hs Hfr) in M1, M2, M3.
    cbn [p_track p_remove] in M1, M2, M3.
    split; [exact M1|]. split.
    + intros Ha. apply M2 in Ha. discriminate.
    + intros Hth. apply M3. split; [exact Hth|].
      intros [_ Hterm]. destruct (Track_reset_same t) as (Rs & _). congruence.
  - intros t1 Hle. unfold Track_stop.
    destruct (Z.ltb_spec (track_state_ord STOPPED) (track_state_ord (state t1)));
      [lia | reflexivity].
  - reflexivity.
Qed.

End Stop.

Lemma X6_stop_drains_witness :
  let t0 := sample_track ACTIVE FS_ACTIVE false 3 3 in
  let t := Track_stop (H := sample_headers) (Some sample_active_thread) 1%nat t0 in
  let pass :=
    MixerThread_prepareTracks_l (H := sample_headers) sample_active_thread
      (<[1%nat := t]> (∅ : gmap nat Track)) in
  NoDup (th_mActiveTracks sample_active_thread) /\
  1%nat ∈ th_mActiveTracks sample_active_thread /\
  track_state_ord STOPPED < track_state_ord (state t0) /\
  framesReady (cblk t0) = 0 /\
  pass.1.1.1.2 !! 1%nat = Some (Track_reset (H := sample_headers) t) /\
  (1%nat ∉ th_mActiveTracks pass.1.1.1.1) /\
  1%nat ∈ th_mTracks pass.1.1.1.1.
Proof.
  cbv zeta.
  set (t0 := sample_track ACTIVE FS_ACTIVE false 3 3).
  assert (Hnd : NoDup (th_mActiveTracks sample_active_thread))
    by apply NoDup_singleton.
  assert (Hin : 1%nat ∈ th_mActiveTracks sample_active_thread)
    by (apply list_elem_of_singleton; reflexivity).
  assert (Hord : track_state_ord STOPPED < track_state_ord (state t0))
    by (vm_compute; reflexivity).
  assert (Hfr : framesReady (cblk t0) = 0) by reflexivity.
  pose proof (X6_stop_drains (H := sample_headers) sample_active_thread ∅
                1%nat t0 Hnd Hin Hord) as (_ & _ & Hempty & _).
  destruct (Hempty Hfr) as (A1 & A2 & A3).
  split; [exact Hnd|]. split; [exact Hin|]. split; [exact Hord|].
  split; [exact Hfr|]. split; [exact A1|]. split; [exact A2|].
  apply A3. apply list_elem_of_singleton. reflexivity.
Defined.

(** ** Handles of the endpoints *)

Section Handles.
Context `{Headers}.

Lemma handles_unchanged h af af' :
  handles_fresh af ->
  af_mNextThreadId af' = af_mNextThreadId af ->
  af_mPlaybackThreads af' = af_mPlaybackThreads af ->
  af_mRecordThreads af' = af_mRecordThreads af ->
  handles_fresh af' /\ keeps_endpoints af af' /\ opened h af af'.
Proof.
  intros Hf Hn Hp Hr. unfold handles_fresh, keeps_endpoints, opened in *.
  rewrite Hn, Hp, Hr. tauto.
Qed.

Lemma handles_new_playback af af' th :
  handles_fresh af ->
  af_mNextThreadId af' = af_mNextThreadId af + 1 ->
  af_mPlaybackThreads af'
  = <[af_mNextThreadId af + 1 := th]> (af_mPlaybackThreads af) ->
  af_mRecordThreads af' = af_mRecordThreads af ->
  handles_fresh af' /\ keeps_endpoints af af'
  /\ opened (af_mNextThreadId af + 1) af af'.
Proof.
  intros (Hn & Hp & Hr & Hd) En Ep Er.
  set (h := af_mNextThreadId af + 1) in *.
  assert (Np : af_mPlaybackThreads af !! h = None).
  { destruct (af_mPlaybackThreads af !! h) eqn:E; [|reflexivity].
    assert (0 < h <= af_mNextThreadId af) by (apply Hp; rewrite E; eauto).
    unfold h in *. lia. }
  assert (Nr : af_mRecordThreads af !! h = None).
  { destruct (af_mRecordThreads af !! h) eqn:E; [|reflexivity].
    assert (0 < h <= af_mNextThreadId af) by (apply Hr; rewrite E; eauto).
    unfold h in *. lia. }
  unfold handles_fresh, keeps_endpoints, opened. rewrite En, Ep, Er.
  split; [|split].
  - split; [lia|]. split; [|split].
    + intros k Hk. destruct (decide (k = h)) as [->|Hne]; [lia|].
      rewrite lookup_insert_ne in Hk by congruence.
      specialize (Hp k Hk). lia.
    + intros k Hk. specialize (Hr k Hk). lia.
    + intros k Hk. destruct (decide (k = h)) as [->|Hne]; [exact Nr|].
      rewrite lookup_insert_ne in Hk by congruence. apply Hd. exact Hk.
  - split; [|tauto]. intros k th' Hk.
    rewrite lookup_insert_ne; [exact Hk | congruence].
  - right. split; [reflexivity|]. split; [reflexivity|].
    split; [exact Np|]. split; [exact Nr|].
    left. rewrite lookup_insert_eq. eauto.
Qed.

Lemma handles_new_record af af' th :
  handles_fresh af ->
  af_mNextThreadId af' = af_mNextThreadId af + 1 ->
  af_mPlaybackThreads af' = af_mPlaybackThreads af ->
  af_mRecordThreads af'
  = <[af_mNextThreadId af + 1 := th]> (af_mRecordThreads af) ->
  handles_fresh af' /\ keeps_endpoints af af'
  /\ opened (af_mNextThreadId af + 1) af af'.
Proof.
  intros (Hn & Hp & Hr & Hd) En Ep Er.
  set (h := af_mNextThreadId af + 1) in *.
  assert (Np : af_mPlaybackThreads af !! h = None).
  { destruct (af_mPlaybackThreads af !! h) eqn:E; [|reflexivity].
    assert (0 < h <= af_mNextThreadId af) by (apply Hp; rewrite E; eauto).
    unfold h in *. lia. }
  assert (Nr : af_mRecordThreads af !! h = None).
  { destruct (af_mRecordThreads af !! h) eqn:E; [|reflexivity].
    assert (0 < h <= af_mNextThreadId af) by (apply Hr; rewrite E; eauto).
    unfold h in *. lia. }
  unfold handles_fresh, keeps_endpoints, opened. rewrite En, Ep, Er.
  split; [|split].
  - split; [lia|]. split; [|split].
    + intros k Hk. specialize (Hp k Hk). lia.
    + intros k Hk. destruct (decide (k = h)) as [->|Hne]; [lia|].
      rewrite lookup_insert_ne in Hk by congruence.
      specialize (Hr k Hk). lia.
    + intros k Hk. destruct (decide (k = h)) as [->|Hne].
      * rewrite Np in Hk. destruct Hk as [x Hx]. discriminate.
      * rewrite lookup_insert_ne by congruence. apply Hd. exact Hk.
  - split; [tauto|]. intros k th' Hk.
    rewrite lookup_insert_ne; [exact Hk | congruence].
  - right. split; [reflexivity|]. split; [reflexivity|].
    split; [exact Np|]. split; [exact Nr|].
    right. rewrite lookup_insert_eq. eauto.
Qed.

(** X7.  On a server whose handles are well formed and whose handle
    counter is short of the limit of [int], each of [openOutput],
    [openDuplicateOutput] and [openInput] keeps the handles well
    formed and keeps every registered endpoint under its handle; it
    either registers nothing or registers one endpoint under
    [mNextThreadId + 1], a handle that named no playback or record
    thread before, and that is the handle it returns. *)
Theorem X7_open_handles_fresh (af : AudioFlinger) :
  handles_fresh af ->
  af_mNextThreadId af + 1 < 2 ^ 31 ->
  (forall openOutputStream newThread p flags,
     let r := AudioFlinger_openOutput openOutputStream newThread p flags af in
     handles_fresh r.2 /\ keeps_endpoints af r.2 /\ opened r.1.1 af r.2) /\
  (forall newThread output1 output2,
     let r := AudioFlinger_openDuplicateOutput newThread output1 output2 af in
     handles_fresh r.2 /\ keeps_endpoints af r.2 /\ opened r.1 af r.2) /\
  (forall openInputStream popCount p acoustics,
     let r := AudioFlinger_openInput openInputStream popCount p acoustics af in
     handles_fresh r.2 /\ keeps_endpoints af r.2 /\ opened r.1.1 af r.2).
Proof.
  intros Hf Hlim.
  assert (Hw : wrap32s (af_mNextThreadId af + 1) = af_mNextThreadId af + 1).
  { apply wrap32s_small. destruct Hf as (Hn & _). lia. }
  split; [|split].
  - intros openOutputStream newThread p flags. cbv zeta.
    unfold AudioFlinger_openOutput.
    destruct (pDevices p) as [devices|];
      [|apply handles_unchanged; [exact Hf|reflexivity..]].
    destruct (devices =? 0);
      [apply handles_unchanged; [exact Hf|reflexivity..]|].
    cbv zeta.
    destruct (negb (hw_stream _ =? 0));
      [|apply handles_unchanged; [exact Hf|reflexivity..]].
    cbn [snd fst]. cbn [af_mNextThreadId set_af_mPlaybackThreads
      set_af_mNextThreadId set_af_mHardwareStatus].
    rewrite Hw.
    eapply handles_new_playback; [exact Hf|cbn; rewrite ?Hw; reflexivity..].
  - intros newThread output1 output2. cbv zeta.
    unfold AudioFlinger_openDuplicateOutput.
    destruct (AudioFlinger_checkMixerThread_l af output1) as [th1|];
      [|apply handles_unchanged; [exact Hf|reflexivity..]].
    destruct (AudioFlinger_checkMixerThread_l af output2) as [th2|];
      [|apply handles_unchanged; [exact Hf|reflexivity..]].
    cbn [snd fst]. cbn [af_mNextThreadId set_af_mPlaybackThreads
      set_af_mNextThreadId set_af_mHardwareStatus].
    rewrite Hw.
    eapply handles_new_playback; [exact Hf|cbn; rewrite ?Hw; reflexivity..].
  - intros openInputStream popCount p acoustics. cbv zeta.
    unfold AudioFlinger_openInput.
    destruct (pDevices p) as [devices|];
      [|apply handles_unchanged; [exact Hf|reflexivity..]].
    destruct (devices =? 0);
      [apply handles_unchanged; [exact Hf|reflexivity..]|].
    cbv zeta.
    destruct (negb (hw_stream _ =? 0));
      [|apply handles_unchanged; [exact Hf|reflexivity..]].
    cbn [snd fst]. cbn [af_mNextThreadId set_af_mRecordThreads
      set_af_mNextThreadId set_af_mHardwareStatus].
    rewrite Hw.
    eapply handles_new_record; [exact Hf|cbn; rewrite ?Hw; reflexivity..].
Qed.

End Handles.

Lemma X7_open_handles_fresh_witness :
  let r := AudioFlinger_openOutput (H := sample_headers) sample_openOutputStream
             sample_newThread (mkOpenParams (Some 2) None None None None) 0
             sample_server in
  handles_fresh sample_server /\
  af_mNextThreadId sample_server + 1 < 2 ^ 31 /\
  r.1.1 = 1 /\
  handles_fresh r.2 /\ keeps_endpoints sample_server r.2 /\
  opened 1 sample_server r.2.
Proof.
  cbv zeta.
  assert (Hf : handles_fresh sample_server).
  { unfold handles_fresh, sample_server.
    cbn [af_mNextThreadId af_mPlaybackThreads af_mRecordThreads].
    split; [lia|].
    split; [|split]; intros h [x Hx]; rewrite lookup_empty in Hx; discriminate. }
  assert (Hlim : af_mNextThreadId sample_server + 1 < 2 ^ 31)
    by (vm_compute; reflexivity).
  split; [exact Hf|]. split; [exact Hlim|]. split; [reflexivity|].
  exact (proj1 (X7_open_handles_fresh (H := sample_headers) sample_server Hf Hlim)
           sample_openOutputStream sample_newThread
           (mkOpenParams (Some 2) None None None None) 0).
Defined.

(** ** Destroying a track *)

Section Destroy.
Context `{Headers}.

(** A terminated track that has been mixed before and still has frames
    is mixed again. *)
Lemma prepareTrack_terminated_ready th id t :
  state t = TERMINATED ->
  framesReady (cblk t) <> 0 ->
  mFillingUpStatus t <> FS_FILLING ->
  state (p_track (prepareTrack th id t)) = TERMINATED /\
  p_remove (prepareTrack th id t) = false /\
  setBufferProvider id ∈ p_calls (prepareTrack th id t).
Proof.
  intros Hs Hfr Hfill.
  assert (Hnp : state t <> PAUSED) by congruence.
  assert (Hnq : state t <> PAUSING) by congruence.
  unfold prepareTrack, mix_condition, Track_isReady.
  destruct (Z.eqb_spec (framesReady (cblk t)) 0) as [e|_]; [contradiction|].
  cbn [negb]. rewrite (bool_decide_eq_false_2 _ Hfill). cbn [negb].
  unfold isStopped, isPaused, isPausing, setPaused.
  rewrite (bool_decide_eq_false_2 _ Hnp), (bool_decide_eq_false_2 _ Hnq).
  cbn [orb andb negb]. cbv beta iota. rewrite orb_false_r.
  assert (Hr1 : state (set_mFillingUpStatus FS_ACTIVE t) <> RESUMING).
  { unfold state in *. cbn. congruence. }
  destruct (isMuted t || th_mMasterMute th || _); cbv beta iota zeta;
    (destruct (bool_decide (mFillingUpStatus t = FS_FILLED));
     [rewrite (bool_decide_eq_false_2 _ Hr1)|]);
    cbn; unfold state in *; cbn;
    (repeat split; try congruence);
    rewrite !elem_of_cons; tauto.
Qed.

(** A terminated track without frames leaves the active list. *)
Lemma prepareTrack_terminated_empty th id t :
  state t = TERMINATED ->
  framesReady (cblk t) = 0 ->
  prepareTrack th id t
  = mkPrepared t [setActiveTrack (mName t); disable_MIXING] false true.
Proof.
  intros Hs Hfr.
  assert (Hns : state t <> STOPPED) by congruence.
  unfold prepareTrack, mix_condition. rewrite Hfr.
  cbn [Z.eqb negb]. cbv beta iota zeta.
  unfold isStopped, isTerminated, isPaused.
  rewrite (bool_decide_eq_false_2 _ Hns). cbv beta iota.
  rewrite (bool_decide_eq_true_2 _ Hs). reflexivity.
Qed.

Lemma remove_step_deleted tracks s x t :
  tracks !! x = Some t -> state t = TERMINATED ->
  deleteTrackName (mName t) ∈ snd (remove_step tracks s x).
Proof.
  intros Hl Hs. destruct s as [th calls]. unfold remove_step.
  rewrite Hl. unfold isTerminated. rewrite (bool_decide_eq_true_2 _ Hs).
  cbn. apply elem_of_app. right. apply list_elem_of_singleton. reflexivity.
Qed.

Lemma remove_fold_deleted tracks rm : forall s id t,
  id ∈ rm -> tracks !! id = Some t -> state t = TERMINATED ->
  deleteTrackName (mName t) ∈ snd (fold_left (remove_step tracks) rm s).
Proof.
  induction rm as [|x rm IH]; intros s id t Hin Hl Hs; cbn [fold_left].
  - apply elem_of_nil in Hin. contradiction.
  - apply elem_of_cons in Hin as [-> | Hin].
    + apply remove_fold_keeps_calls. apply remove_step_deleted; assumption.
    + eapply IH; eassumption.
Qed.

(** The name of a terminated track that a pass removes is given back
    to the mixer. *)
Lemma prepareTracks_l_deleted th tracks id t :
  NoDup (th_mActiveTracks th) ->
  id ∈ th_mActiveTracks th ->
  tracks !! id = Some t ->
  p_remove (prepareTrack th id t) = true ->
  state (p_track (prepareTrack th id t)) = TERMINATED ->
  deleteTrackName (mName (p_track (prepareTrack th id t)))
    ∈ (MixerThread_prepareTracks_l th tracks).1.1.2.
Proof.
  intros Hnd Hin Hlook Hrm Hterm. unfold MixerThread_prepareTracks_l.
  set (acc0 := mkPrepareAcc tracks [] 0 []).
  set (acc := fold_left (prepare_step th) (th_mActiveTracks th) acc0).
  destruct (prepare_fold_member th (th_mActiveTracks th) acc0 id t Hnd Hin Hlook
              (not_elem_of_nil id)) as [M1 M2].
  fold acc in M1, M2.
  pose proof (remove_fold_deleted (acc_tracks acc) (acc_remove acc)
                (th, acc_calls acc) id _ (proj2 M2 Hrm) M1 Hterm) as D.
  destruct (fold_left (remove_step (acc_tracks acc)) (acc_remove acc)
              (th, acc_calls acc)) as [th' calls].
  exact D.
Qed.

(** X8.  [destroyTrack_l] always sets the state to [TERMINATED].  For a
    track of the active list it does nothing else: the track stays in
    both lists and its name stays allocated.  While the terminated
    track still has frames (and has left the fill-up phase) the mixer
    thread keeps mixing it; the pass that finds no frame ready removes
    it from the active list and from the thread's track list and gives
    its name back with [deleteTrackName].  For a track that is not in
    the active list, [destroyTrack_l] itself removes it from the track
    list and gives the name back. *)
Theorem X8_destroy_deferred th tracks id t0 :
  NoDup (th_mActiveTracks th) ->
  id ∈ th_mActiveTracks th ->
  let t := with_state TERMINATED t0 in
  let pass := MixerThread_prepareTracks_l th (<[id := t]> tracks) in
  PlaybackThread_destroyTrack_l th id t0 = (th, [], t) /\
  (framesReady (cblk t0) <> 0 -> mFillingUpStatus t0 <> FS_FILLING ->
   id ∈ th_mActiveTracks pass.1.1.1.1 /\
   (id ∈ th_mTracks th -> id ∈ th_mTracks pass.1.1.1.1) /\
   setBufferProvider id ∈ pass.1.1.2) /\
  (framesReady (cblk t0) = 0 ->
   (id ∉ th_mActiveTracks pass.1.1.1.1) /\
   (id ∉ th_mTracks pass.1.1.1.1) /\
   deleteTrackName (mName t0) ∈ pass.1.1.2) /\
  (forall th2 t2,
     id ∉ th_mActiveTracks th2 ->
     PlaybackThread_destroyTrack_l th2 id t2
     = (set_th_mTracks (sv_remove id (th_mTracks th2)) th2,
        [deleteTrackName (mName t2)], with_state TERMINATED t2)
     /\ id ∉ sv_remove id (th_mTracks th2)).
Proof.
  intros Hnd Hin. cbv zeta. set (t := with_state TERMINATED t0).
  assert (Hs : state t = TERMINATED) by reflexivity.
  destruct (prepareTracks_l_member th (<[id := t]> tracks) id t Hnd Hin
              (lookup_insert_eq _ _ _)) as (M1 & M2 & M3 & _ & M5).
  pose proof (prepareTracks_l_deleted th (<[id := t]> tracks) id t Hnd Hin
                (lookup_insert_eq _ _ _)) as MD.
  set (pass := MixerThread_prepareTracks_l th (<[id := t]> tracks)) in *.
  split; [|split; [|split]].
  - unfold PlaybackThread_destroyTrack_l, sv_member.
    rewrite (bool_decide_eq_true_2 _ Hin). reflexivity.
  - intros Hfr Hfill.
    destruct (prepareTrack_terminated_ready th id t Hs Hfr Hfill)
      as (Ps & Pr & Pc).
    split; [apply M2; exact Pr|]. split; [|apply M5; exact Pc].
    intros Hth. apply M3. split; [exact Hth|]. intros [Hr _]. congruence.
  - intros Hfr.
    rewrite (prepareTrack_terminated_empty th id t Hs Hfr) in M2, M3, MD.
    cbn [p_track p_remove] in M2, M3, MD.
    split; [|split].
    + intros Ha. apply M2 in Ha. discriminate.
    + intros Ha. apply M3 in Ha. destruct Ha as [_ Hn]. apply Hn.
      split; [reflexivity | exact Hs].
    + apply MD; [reflexivity | exact Hs].
  - intros th2 t2 Hnot. split.
    + unfold PlaybackThread_destroyTrack_l, sv_member.
      rewrite (bool_decide_eq_false_2 _ Hnot). reflexivity.
    + rewrite sv_remove_elem. tauto.
Qed.

End Destroy.

Lemma X8_destroy_deferred_witness :
  let t0 := sample_track ACTIVE FS_ACTIVE false 3 3 in
  let t := with_state TERMINATED t0 in
  let pass :=
    MixerThread_prepareTracks_l (H := sample_headers) sample_active_thread
      (<[1%nat := t]> (∅ : gmap nat Track)) in
  NoDup (th_mActiveTracks sample_active_thread) /\
  1%nat ∈ th_mActiveTracks sample_active_thread /\
  PlaybackThread_destroyTrack_l sample_active_thread
    1%nat t0 = (sample_active_thread, [], t) /\
  framesReady (cblk t0) = 0 /\
  (1%nat ∉ th_mActiveTracks pass.1.1.1.1) /\
  (1%nat ∉ th_mTracks pass.1.1.1.1) /\
  deleteTrackName 0 ∈ pass.1.1.2.
Proof.
  cbv zeta.
  set (t0 := sample_track ACTIVE FS_ACTIVE false 3 3).
  assert (Hnd : NoDup (th_mActiveTracks sample_active_thread))
    by apply NoDup_singleton.
  assert (Hin : 1%nat ∈ th_mActiveTracks sample_active_thread)
    by (apply list_elem_of_singleton; reflexivity).
  assert (Hfr : framesReady (cblk t0) = 0) by reflexivity.
  pose proof (X8_destroy_deferred (H := sample_headers) sample_active_thread ∅
                1%nat t0 Hnd Hin) as (A0 & _ & Hempty & _).
  destruct (Hempty Hfr) as (A1 & A2 & A3).
  split; [exact Hnd|]. split; [exact Hin|]. split; [exact A0|].
  split; [exact Hfr|]. split; [exact A1|]. split; [exact A2|]. exact A3.
Defined.

(** ** Starting a track *)

Section Start.
Context `{Headers}.

Lemma sv_add_elem x l id : id ∈ sv_add x l <-> id = x \/ id ∈ l.
Proof.
  induction l as [|y l IH]; cbn [sv_add].
  - rewrite list_elem_of_singleton, elem_of_nil. tauto.
  - destruct (x <? y)%nat; [rewrite !elem_of_cons; tauto|].
    destruct (Nat.eqb_spec x y) as [->|Hne].
    + rewrite elem_of_cons. tauto.
    + rewrite !elem_of_cons, IH. tauto.
Qed.

Lemma sv_add_NoDup x l : x ∉ l -> NoDup l -> NoDup (sv_add x l).
Proof.
  induction l as [|y l IH]; intros Hx Hnd; cbn [sv_add].
  - apply NoDup_singleton.
  - apply not_elem_of_cons in Hx as [Hxy Hx].
    apply NoDup_cons in Hnd as [Hy Hnd].
    destruct (x <? y)%nat.
    + apply NoDup_cons. split.
      * rewrite elem_of_cons. tauto.
      * apply NoDup_cons. tauto.
    + destruct (Nat.eqb_spec x y) as [e|_]; [contradiction|].
      apply NoDup_cons. split; [|apply IH; assumption].
      rewrite sv_add_elem. intros [e|Hin]; [congruence | contradiction].
Qed.

(** X9.  [Track::start] returns [NO_ERROR] whatever [addTrack_l]
    answers.  On a live thread the track becomes [RESUMING] if it was
    paused and [ACTIVE] otherwise, its retry count is set to
    [kMaxTrackStartupRetries], and its control block and the thread's
    track list are not touched.  A track that was not in the active
    list is added to it, next to the tracks already there and without
    creating a duplicate, and starts a fill-up phase ([FS_FILLING],
    [mResetDone] cleared); for a track that is already in the active
    list, [addTrack_l] answers [ALREADY_EXISTS] and the thread, the
    fill status and [mResetDone] stay as they are.  Without a thread
    [start] changes nothing. *)
Theorem X9_start th id t :
  let r := Track_start (Some th) id t in
  let a := PlaybackThread_addTrack_l th id t in
  (r.1.1 = NO_ERROR /\ r.1.2 = Some a.1.2 /\ r.2 = a.2) /\
  (state a.2 = if isPaused t then RESUMING else ACTIVE) /\
  mRetryCount a.2 = kMaxTrackStartupRetries /\
  cblk a.2 = cblk t /\
  th_mTracks a.1.2 = th_mTracks th /\
  (id ∉ th_mActiveTracks th ->
   a.1.1 = NO_ERROR /\
   (forall j, j ∈ th_mActiveTracks a.1.2 <-> j = id \/ j ∈ th_mActiveTracks th) /\
   (NoDup (th_mActiveTracks th) -> NoDup (th_mActiveTracks a.1.2)) /\
   mFillingUpStatus a.2 = FS_FILLING /\ mResetDone a.2 = false) /\
  (id ∈ th_mActiveTracks th ->
   a.1.1 = ALREADY_EXISTS /\ a.1.2 = th /\
   mFillingUpStatus a.2 = mFillingUpStatus t /\ mResetDone a.2 = mResetDone t) /\
  Track_start None id t = (NO_ERROR, None, t).
Proof.
  cbv zeta. unfold Track_start.
  split.
  { destruct (PlaybackThread_addTrack_l th id t) as [[s th'] t'].
    repeat split. }
  unfold PlaybackThread_addTrack_l, sv_member.
  split.
  { destruct (isPaused t); destruct (negb (bool_decide _)); reflexivity. }
  split.
  { destruct (isPaused t); destruct (negb (bool_decide _)); reflexivity. }
  split.
  { destruct (isPaused t); destruct (negb (bool_decide _)); reflexivity. }
  split.
  { destruct (negb (bool_decide _)); reflexivity. }
  split; [|split; [|reflexivity]].
  - intros Hnot. rewrite (bool_decide_eq_false_2 _ Hnot). cbn [negb fst snd].
    split; [reflexivity|]. split.
    { intros j. apply sv_add_elem. }
    split.
    { intros Hnd. apply sv_add_NoDup; assumption. }
    destruct (isPaused t); split; reflexivity.
  - intros Hin. rewrite (bool_decide_eq_true_2 _ Hin). cbn [negb fst snd].
    split; [reflexivity|]. split; [reflexivity|].
    destruct (isPaused t); split; reflexivity.
Qed.

End Start.

(** ** Muting a stream *)

Section StreamMute.
Context `{Headers}.

Lemma stream_set_mute_same (l : list stream_type_t) (i : Z) (m : bool) :
  (Z.to_nat i < length l)%nat ->
  stream_at (stream_set_mute l i m) i = mkStreamType (st_volume (stream_at l i)) m.
Proof.
  intros Hi. unfold stream_at at 1, stream_set_mute.
  rewrite list_lookup_insert_eq by exact Hi. reflexivity.
Qed.

Lemma stream_set_mute_volume (l : list stream_type_t) (i j : Z) (m : bool) :
  st_volume (stream_at (stream_set_mute l i m) j) = st_volume (stream_at l j).
Proof.
  destruct (decide (Z.to_nat i = Z.to_nat j)) as [e|Hne].
  - unfold stream_at at 1, stream_set_mute. rewrite <- e.
    destruct (decide (Z.to_nat i < length l)%nat) as [Hi|Hi].
    + rewrite list_lookup_insert_eq by exact Hi. cbn.
      unfold stream_at. rewrite e. reflexivity.
    + rewrite list_insert_ge by lia. unfold stream_at. rewrite e. reflexivity.
  - rewrite stream_set_mute_other by exact Hne. reflexivity.
Qed.

(** A track that is mixed while it is muted, while the master mute is
    on, or while its stream is muted, gets both volumes set to zero. *)
Lemma prepareTrack_muted th id t :
  fst (mix_condition t) = true ->
  isMuted t || th_mMasterMute th
  || st_mute (stream_at (th_mStreamTypes th) (mStreamType t)) = true ->
  exists param,
    setParameter param VOLUME0 0 ∈ p_calls (prepareTrack th id t) /\
    setParameter param VOLUME1 0 ∈ p_calls (prepareTrack th id t).
Proof.
  intros Hgo Hm. unfold prepareTrack.
  destruct (mix_condition_same t) as (_ & _ & Kt & _).
  assert (Km : isMuted (snd (mix_condition t)) = isMuted t).
  { unfold mix_condition, Track_isReady.
    destruct (negb (framesReady (cblk t) =? 0)); [|reflexivity].
    destruct (negb (bool_decide (mFillingUpStatus t = FS_FILLING)));
      [reflexivity|].
    destruct ((frameCount (cblk t) <=? framesReady (cblk t))
              || negb (forceReady (cblk t) =? 0)); reflexivity. }
  destruct (mix_condition t) as [go t1]. cbn [fst snd] in *. subst go.
  rewrite Kt, Km.
  assert (Hmute : isMuted t || th_mMasterMute th || isPausing t1
                  || st_mute (stream_at (th_mStreamTypes th) (mStreamType t))
                  = true).
  { destruct (isMuted t), (th_mMasterMute th), (isPausing t1); cbn in *;
      try reflexivity; exact Hm. }
  rewrite Hmute. cbv beta iota zeta.
  destruct (bool_decide (mFillingUpStatus _ = FS_FILLED));
    [destruct (bool_decide (state _ = RESUMING))|]; cbn;
    eexists; rewrite !elem_of_cons;
    (split; [do 3 right; left | do 4 right; left]; reflexivity).
Qed.

(** X10.  [setStreamMute] by a caller with the settings permission, on
    a stream index that is in range and is not [ENFORCED_AUDIBLE],
    returns [NO_ERROR]; afterwards [streamMute] of that stream gives
    the new flag and [streamMute] of every other stream gives what it
    gave before; no stream volume and no master volume changes; every
    playback thread stays registered under its handle and has
    [PlaybackThread::setStreamMute] applied.  When the stream is muted,
    each of these threads sets both volumes of a track of that stream
    to zero whenever it mixes it. *)
Theorem X10_setStreamMute_accepted stream muted af :
  0 <= stream < NUM_STREAM_TYPES ->
  NUM_STREAM_TYPES < 2 ^ 31 ->
  0 <= ENFORCED_AUDIBLE < 2 ^ 32 ->
  stream <> ENFORCED_AUDIBLE ->
  (Z.to_nat stream < length (af_mStreamTypes af))%nat ->
  let r := AudioFlinger_setStreamMute true stream muted af in
  r.1 = NO_ERROR /\
  AudioFlinger_streamMute r.2 stream = muted /\
  (forall other, other <> stream ->
     AudioFlinger_streamMute r.2 other = AudioFlinger_streamMute af other) /\
  (forall i, st_volume (stream_at (af_mStreamTypes r.2) i)
             = st_volume (stream_at (af_mStreamTypes af) i)) /\
  AudioFlinger_masterVolume r.2 = AudioFlinger_masterVolume af /\
  (forall h, af_mPlaybackThreads r.2 !! h
             = PlaybackThread_setStreamMute stream muted
               <$> af_mPlaybackThreads af !! h) /\
  (forall h th0 th id t,
     muted = true ->
     af_mPlaybackThreads af !! h = Some th0 ->
     (Z.to_nat stream < length (th_mStreamTypes th0))%nat ->
     af_mPlaybackThreads r.2 !! h = Some th ->
     mStreamType t = stream ->
     fst (mix_condition t) = true ->
     exists param,
       setParameter param VOLUME0 0 ∈ p_calls (prepareTrack th id t) /\
       setParameter param VOLUME1 0 ∈ p_calls (prepareTrack th id t)).
Proof.
  intros Hs Hnum Henf Hne Hlen. cbv zeta.
  assert (Hwn : wrap32 NUM_STREAM_TYPES = NUM_STREAM_TYPES)
    by (apply wrap32_small; lia).
  assert (Hwe : wrap32 ENFORCED_AUDIBLE = ENFORCED_AUDIBLE)
    by (apply wrap32_small; lia).
  assert (Hws : wrap32 stream = stream) by (apply wrap32_small; lia).
  assert (Hwsn : wrap32s NUM_STREAM_TYPES = NUM_STREAM_TYPES)
    by (apply wrap32s_small; lia).
  unfold AudioFlinger_setStreamMute. cbn [negb]. rewrite Hwn, Hwe, Hws.
  destruct (Z.ltb_spec stream 0) as [Hneg|_]; [lia|].
  destruct (Z.leb_spec NUM_STREAM_TYPES stream) as [Hge|_]; [lia|].
  destruct (Z.eqb_spec stream ENFORCED_AUDIBLE) as [e|_]; [contradiction|].
  cbn [orb fst snd].
  unfold AudioFlinger_streamMute, AudioFlinger_masterVolume. rewrite Hwsn.
  cbn [af_mStreamTypes af_mPlaybackThreads af_mMasterVolume
         set_af_mPlaybackThreads set_af_mStreamTypes].
  split; [reflexivity|]. split.
  { destruct (Z.ltb_spec stream 0) as [Hneg|_]; [lia|].
    destruct (Z.leb_spec NUM_STREAM_TYPES stream) as [Hge|_]; [lia|].
    cbn [orb]. rewrite stream_set_mute_same by exact Hlen. reflexivity. }
  split.
  { intros other Hother.
    destruct (Z.ltb_spec other 0) as [Hneg|Hpos]; [reflexivity|].
    destruct (Z.leb_spec NUM_STREAM_TYPES other) as [Hge|Hlt]; [reflexivity|].
    cbn [orb]. rewrite stream_set_mute_other by lia. reflexivity. }
  split; [intros i; apply stream_set_mute_volume|].
  split; [reflexivity|]. split; [intros h; apply lookup_fmap|].
  intros h th0 th id t -> H0 Hl0 Hth Hty Hgo.
  rewrite lookup_fmap, H0 in Hth. injection Hth as <-.
  apply prepareTrack_muted; [exact Hgo|].
  unfold PlaybackThread_setStreamMute.
  cbn [th_mStreamTypes th_mMasterMute set_th_mStreamTypes].
  rewrite Hty, stream_set_mute_same by exact Hl0.
  cbn. rewrite !orb_true_r. reflexivity.
Qed.

End StreamMute.

Lemma X10_setStreamMute_accepted_witness :
  let r := AudioFlinger_setStreamMute (H := sample_headers) true 3 true
             sample_server_open in
  0 <= 3 < NUM_STREAM_TYPES (Headers := sample_headers) /\
  NUM_STREAM_TYPES (Headers := sample_headers) < 2 ^ 31 /\
  0 <= ENFORCED_AUDIBLE (Headers := sample_headers) < 2 ^ 32 /\
  3 <> ENFORCED_AUDIBLE (Headers := sample_headers) /\
  (Z.to_nat 3 < length (af_mStreamTypes sample_server_open))%nat /\
  r.1 = NO_ERROR /\
  AudioFlinger_streamMute (H := sample_headers) r.2 3 = true /\
  AudioFlinger_streamMute (H := sample_headers) r.2 4
  = AudioFlinger_streamMute (H := sample_headers) sample_server_open 4.
Proof.
  cbv zeta.
  assert (Hs : 0 <= 3 < NUM_STREAM_TYPES (Headers := sample_headers))
    by (cbn; lia).
  assert (Hnum : NUM_STREAM_TYPES (Headers := sample_headers) < 2 ^ 31)
    by (cbn; lia).
  assert (Henf : 0 <= ENFORCED_AUDIBLE (Headers := sample_headers) < 2 ^ 32)
    by (cbn; lia).
  assert (Hne : 3 <> ENFORCED_AUDIBLE (Headers := sample_headers))
    by (cbn; lia).
  assert (Hlen : (Z.to_nat 3 < length (af_mStreamTypes sample_server_open))%nat)
    by (vm_compute; lia).
  pose proof (X10_setStreamMute_accepted (H := sample_headers) 3 true
                sample_server_open Hs Hnum Henf Hne Hlen)
    as (A1 & A2 & A3 & _).
  split; [exact Hs|]. split; [exact Hnum|]. split; [exact Henf|].
  split; [exact Hne|]. split; [exact Hlen|]. split; [exact A1|].
  split; [exact A2|]. apply A3. lia.
Defined.

(** ** Buffers granted to an output track *)

Section ObtainBuffer.
Context `{Headers}.

Lemma obtain_wait_reading active wakes : forall r,
  match obtain_wait active r wakes with
  | Some n => n ∈ r :: wakes /\ n <> 0
  | None => r = 0 /\ (active = true -> Forall (fun w => w = 0) wakes)
  end.
Proof.
  induction wakes as [|w wakes IH]; intros r; cbn [obtain_wait].
  - destruct (Z.eqb_spec r 0) as [->|Hr].
    + destruct active; split; auto.
    + split; [apply elem_of_cons; tauto | exact Hr].
  - destruct (Z.eqb_spec r 0) as [->|Hr].
    + destruct active.
      * specialize (IH w). destruct (obtain_wait true w wakes) as [n|].
        -- destruct IH as [Hin Hn]. split; [|exact Hn].
           apply elem_of_cons. right. exact Hin.
        -- destruct IH as [-> Hall]. split; [reflexivity|].
           intros _. apply Forall_cons. auto.
      * split; [reflexivity | discriminate].
    + split; [apply elem_of_cons; tauto | exact Hr].
Qed.

(** X11.  [OutputTrack::obtainBuffer] on a ring whose producer cursor
    is well formed ([userBase <= user <= userBase + frameCount], all
    below [2^32]), for a request that does not carry the cursor past
    [2^32], with non-negative readings of the free space: it either
    returns [NO_ERROR] with a frame count that is at most the requested
    count, at most one of the non-zero readings of the free space, and
    does not go past the end of the ring; or it returns
    [NO_MORE_BUFFERS] with frame count zero, which happens only when
    both the first reading and the reading under the lock are zero,
    and, for an active track, only when every wait ended with a zero
    reading or a time-out. *)
Theorem X11_obtainBuffer_bounds o e req :
  0 <= userBase (cblk (ot_track o)) <= user (cblk (ot_track o)) ->
  user (cblk (ot_track o))
    <= userBase (cblk (ot_track o)) + frameCount (cblk (ot_track o)) ->
  userBase (cblk (ot_track o)) + frameCount (cblk (ot_track o)) < 2 ^ 32 ->
  readings_nonneg e ->
  0 <= req ->
  user (cblk (ot_track o)) + req < 2 ^ 32 ->
  let r := OutputTrack_obtainBuffer o e req in
  (r.1 = NO_ERROR /\ 0 <= r.2 <= req /\
   user (cblk (ot_track o)) + r.2
     <= userBase (cblk (ot_track o)) + frameCount (cblk (ot_track o)) /\
   exists a, a ∈ oe_avail e :: oe_avail_l e :: oe_wakes e /\ 0 < a /\ r.2 <= a)
  \/
  (r = (NO_MORE_BUFFERS, 0) /\ oe_avail e = 0 /\ oe_avail_l e = 0 /\
   (mActive o = true -> Forall (fun w => w = 0) (oe_wakes e))).
Proof.
  intros Hu Hue Hend (Ha & Hl & Hw) Hreq Hsum. cbv zeta.
  unfold OutputTrack_obtainBuffer.
  set (c := cblk (ot_track o)) in *.
  assert (Hgrant : forall a, 0 < a ->
            a ∈ oe_avail e :: oe_avail_l e :: oe_wakes e ->
            let q := if a <? req then a else req in
            let n := if wrap32 (userBase c + frameCount c) <? wrap32 (user c + q)
                     then wrap32 (wrap32 (userBase c + frameCount c) - user c)
                     else q in
            0 <= n <= req /\
            user c + n <= userBase c + frameCount c /\
            exists a', a' ∈ oe_avail e :: oe_avail_l e :: oe_wakes e
                       /\ 0 < a' /\ n <= a').
  { intros a Hpos Hin. cbv zeta.
    rewrite (wrap32_small (userBase c + frameCount c)) by lia.
    set (q := if a <? req then a else req).
    assert (Hq : 0 <= q <= req /\ q <= a).
    { unfold q. destruct (Z.ltb_spec a req); lia. }
    rewrite (wrap32_small (user c + q)) by lia.
    destruct (Z.ltb_spec (userBase c + frameCount c) (user c + q))
      as [Hover|Hfit].
    - rewrite (wrap32_small (userBase c + frameCount c - user c)) by lia.
      split; [lia|]. split; [lia|]. exists a. split; [exact Hin|]. lia.
    - split; [lia|]. split; [lia|]. exists a. split; [exact Hin|]. lia. }
  destruct (Z.eqb_spec (oe_avail e) 0) as [Hz|Hnz].
  - pose proof (obtain_wait_reading (mActive o) (oe_wakes e) (oe_avail_l e)) as W.
    destruct (obtain_wait (mActive o) (oe_avail_l e) (oe_wakes e)) as [a|].
    + destruct W as [Hin Hne]. left. cbn [fst snd].
      split; [reflexivity|]. apply Hgrant.
      * assert (0 <= a); [|lia].
        apply elem_of_cons in Hin as [->|Hin]; [exact Hl|].
        rewrite Forall_forall in Hw. apply Hw. exact Hin.
      * apply elem_of_cons. right. exact Hin.
    + destruct W as [Hl0 Hall]. right. auto.
  - left. cbn [fst snd]. split; [reflexivity|]. apply Hgrant; [lia|].
    apply elem_of_cons. left. reflexivity.
Qed.

End ObtainBuffer.

Lemma X11_obtainBuffer_bounds_witness :
  let o := mkOutputTrack (sample_track ACTIVE FS_ACTIVE false 3 1) true [] 0 20 [] in
  let e := mkObtainEnv 0 0 [0; 2] in
  0 <= userBase (cblk (ot_track o)) <= user (cblk (ot_track o)) /\
  user (cblk (ot_track o))
    <= userBase (cblk (ot_track o)) + frameCount (cblk (ot_track o)) /\
  userBase (cblk (ot_track o)) + frameCount (cblk (ot_track o)) < 2 ^ 32 /\
  readings_nonneg e /\
  0 <= 4 /\
  user (cblk (ot_track o)) + 4 < 2 ^ 32 /\
  OutputTrack_obtainBuffer o e 4 = (NO_ERROR, 1) /\
  ((OutputTrack_obtainBuffer o e 4).1 = NO_ERROR
   \/ OutputTrack_obtainBuffer o e 4 = (NO_MORE_BUFFERS, 0)).
Proof.
  cbv zeta.
  set (o := mkOutputTrack (sample_track ACTIVE FS_ACTIVE false 3 1) true [] 0 20 []).
  set (e := mkObtainEnv 0 0 [0; 2]).
  assert (Hu : 0 <= userBase (cblk (ot_track o)) <= user (cblk (ot_track o)))
    by (split; vm_compute; discriminate).
  assert (Hue : user (cblk (ot_track o))
                <= userBase (cblk (ot_track o)) + frameCount (cblk (ot_track o)))
    by (vm_compute; discriminate).
  assert (Hend : userBase (cblk (ot_track o)) + frameCount (cblk (ot_track o))
                 < 2 ^ 32) by (vm_compute; reflexivity).
  assert (He : readings_nonneg e).
  { unfold readings_nonneg, e. cbn. split; [lia|]. split; [lia|].
    repeat (apply Forall_cons; split; [lia|]). apply Forall_nil. exact I. }
  assert (Hreq : 0 <= 4) by lia.
  assert (Hsum : user (cblk (ot_track o)) + 4 < 2 ^ 32) by (vm_compute; reflexivity).
  split; [exact Hu|]. split; [exact Hue|]. split; [exact Hend|].
  split; [exact He|]. split; [exact Hreq|]. split; [exact Hsum|].
  split; [reflexivity|].
  destruct (X11_obtainBuffer_bounds o e 4
              Hu Hue Hend He Hreq Hsum) as [(A & _)|(A & _)];
    [left; exact A | right; exact A].
Defined.

(** ** Closed endpoints *)

Section Close.
Context `{Headers}.





End Close.


(** ** The input buffer of a record thread *)

Section RecordInputBuffer.



End RecordInputBuffer.


(** ** Master mute *)

Section MasterMute.
Context `{Headers}.

(** X14.  [setMasterMute] by a caller without the settings permission
    returns [PERMISSION_DENIED] and changes nothing.  For a caller with
    the permission it returns [NO_ERROR]; afterwards [masterMute] gives
    the new flag, every playback thread stays registered under its
    handle and differs from what it was only in [mMasterMute], which is
    the new flag, and the master volume and the stream settings are not
    touched.  When the master mute is set, each playback thread sets
    both volumes of every track to zero whenever [prepareTracks_l]
    mixes it, whatever the track's and the stream's own mute flags. *)
Theorem X14_setMasterMute muted af :
  AudioFlinger_setMasterMute false muted af = (PERMISSION_DENIED, af) /\
  (let r := AudioFlinger_setMasterMute true muted af in
   r.1 = NO_ERROR /\
   AudioFlinger_masterMute r.2 = muted /\
   AudioFlinger_masterVolume r.2 = AudioFlinger_masterVolume af /\
   af_mStreamTypes r.2 = af_mStreamTypes af /\
   (forall h, af_mPlaybackThreads r.2 !! h
              = set_th_mMasterMute muted <$> af_mPlaybackThreads af !! h) /\
   (forall h th id t,
      muted = true ->
      af_mPlaybackThreads r.2 !! h = Some th ->
      fst (mix_condition t) = true ->
      exists param,
        setParameter param VOLUME0 0 ∈ p_calls (prepareTrack th id t) /\
        setParameter param VOLUME1 0 ∈ p_calls (prepareTrack th id t))).
Proof.
  split; [reflexivity|]. cbv zeta.
  unfold AudioFlinger_setMasterMute, AudioFlinger_masterMute,
    AudioFlinger_masterVolume. cbn [negb fst snd].
  cbn [af_mMasterMute af_mMasterVolume af_mStreamTypes af_mPlaybackThreads
         set_af_mPlaybackThreads set_af_mMasterMute].
  split; [reflexivity|]. split; [reflexivity|]. split; [reflexivity|].
  split; [reflexivity|]. split; [intros h; apply lookup_fmap|].
  intros h th id t -> Hth Hgo.
  rewrite lookup_fmap in Hth.
  destruct (af_mPlaybackThreads af !! h) as [th0|]; [|discriminate].
  injection Hth as <-.
  apply prepareTrack_muted; [exact Hgo|].
  unfold PlaybackThread_setMasterMute. cbn [th_mMasterMute set_th_mMasterMute].
  rewrite orb_true_r. reflexivity.
Qed.

End MasterMute.
